(** * Retrieval and tool-orchestration engine: a shallow embedding

    The development follows the layout of the Python package:
    - [Py]          the Python built-ins the sources rely on
    - [Chunker]     src/pdf/extractor.py   (PDFExtractor._split_text)
    - [Runtime]     the effects the remaining modules share: exceptions,
                    the persistent collection and the log of external calls
    - [Embeddings]  src/embeddings/engine.py
    - [VectorStore] src/vectordb/store.py
    - [RAG]         src/rag/pipeline.py
    - [MCP]         src/mcp/client.py
    - [Agents]      src/agents/specialized.py; of the console output only
                    the exception rich raises on unbalanced markup is kept
    - [Stub]        test doubles for the external services
    - [Extractor]   src/pdf/extractor.py, the page loop
    - [MCPSession]  src/mcp/client.py, connecting and closing
    - [Router]      src/agents/router.py
    - [Cli]         src/main.py, parse_servers
    - [Observe], [Views]  readings of the call log and of search results
    The properties follow in one [...Facts] module per source module,
    and further ones in the [...More] modules.
    Python integers are [Z]; Python strings are [string], except in the
    chunker, whose slicing arithmetic is carried out on [list ascii]. *)

From Stdlib Require Import ZArith Ascii String List Lia.
From stdpp Require Import base option list strings gmap pretty.

Local Open Scope Z_scope.

(* ===================================================================== *)
(** * Python built-ins used by the sources                               *)
(* ===================================================================== *)
Module Py.

(** [len(l)] *)
Definition py_len {A} (l : list A) : Z := Z.of_nat (length l).

(** Normalisation of a slice bound: a negative bound counts from the end
    and is clamped at [0]; a bound beyond the end is clamped at [len]. *)
Definition adjust_index (len i : Z) : Z :=
  if i <? 0 then Z.max 0 (i + len) else Z.min i len.

(** [l[start:stop]] *)
Definition py_slice {A} (l : list A) (start stop : Z) : list A :=
  let a := adjust_index (py_len l) start in
  let b := adjust_index (py_len l) stop in
  take (Z.to_nat (b - a)) (drop (Z.to_nat a) l).

(** [range(start, stop, step)] for a positive [step]. *)
Definition py_range (start stop step : Z) : list Z :=
  map (fun j => start + step * Z.of_nat j)
      (seq 0 (Z.to_nat ((stop - start + step - 1) / step))).

(** [a or b] on an optional integer: [None] and [0] are falsy. *)
Definition py_or (a : option Z) (b : Z) : Z :=
  match a with
  | None => b
  | Some x => if x =? 0 then b else x
  end.

(** The line feed of the source's string literals. *)
Definition nl : string := String (ascii_of_nat 10) EmptyString.

End Py.

(* ===================================================================== *)
(** * src/pdf/extractor.py                                               *)
(* ===================================================================== *)
Module Chunker.
Import Py.

Definition text := list ascii.

(** Does [sub] occur in [t] at absolute position [i] (with [0 <= i])? *)
Definition occurs_at (t sub : text) (i : Z) : bool :=
  bool_decide (take (length sub) (drop (Z.to_nat i) t) = sub).

(** Candidates [lo, lo + n), the highest one first. *)
Fixpoint rfind_from (t sub : text) (lo : Z) (n : nat) : Z :=
  match n with
  | O => -1
  | S n' =>
      let i := lo + Z.of_nat n' in
      if occurs_at t sub i then i else rfind_from t sub lo n'
  end.

(** [text.rfind(sub, start, stop)]: the bounds are normalised as for a
    slice (the lower one is not clamped from above), the highest index
    of an occurrence lying wholly inside the window is returned, and
    [-1] when there is none. *)
Definition rfind (t sub : text) (start stop : Z) : Z :=
  let len := py_len t in
  let b := adjust_index len stop in
  let a := if start <? 0 then Z.max 0 (start + len) else start in
  if b - a <? py_len sub then -1
  else rfind_from t sub a (Z.to_nat (b - a - py_len sub + 1)).

(** Characters removed by [str.strip()] (code points below 256). *)
Definition is_space (c : ascii) : bool :=
  let n := N_of_ascii c in
  (((9 <=? n) && (n <=? 13)) || ((28 <=? n) && (n <=? 32))
   || (n =? 133) || (n =? 160))%N.

Fixpoint lstrip (t : text) : text :=
  match t with
  | [] => []
  | c :: t' => if is_space c then lstrip t' else t
  end.

Definition strip (t : text) : text := reverse (lstrip (reverse (lstrip t))).

(** Truth value of a string: non-empty. *)
Definition truthy (t : text) : bool :=
  match t with [] => false | _ => true end.

Record PDFExtractor := { chunk_size : Z; chunk_overlap : Z }.

(** [PDFExtractor.__init__] defaults. *)
Definition default_extractor : PDFExtractor :=
  {| chunk_size := 1000; chunk_overlap := 200 |}.

Definition sentence_break : text := ["."; " "]%char.
Definition word_break : text := [" "]%char.

(** The value of [end] when [chunks.append(text[start:end])] is reached
    (lines 60-67). *)
Definition segment_end (self : PDFExtractor) (t : text) (start : Z) : Z :=
  let end_ := start + chunk_size self in
  if end_ <? py_len t then
    let break_point := rfind t sentence_break start end_ in
    let break_point :=
      if (break_point =? -1) || (break_point <=? start)
      then rfind t word_break start end_
      else break_point in
    if start <? break_point then break_point + 1 else end_
  else end_.

(** The [while start < len(text)] loop; [fuel] bounds the number of
    iterations, [None] is "still running when the fuel ran out". *)
Fixpoint split_loop (fuel : nat) (self : PDFExtractor) (t : text)
    (start : Z) (chunks : list text) : option (list text) :=
  if start <? py_len t then
    match fuel with
    | O => None
    | S fuel' =>
        let end_ := segment_end self t start in
        split_loop fuel' self t (end_ - chunk_overlap self)
                   (chunks ++ [py_slice t start end_])
    end
  else Some chunks.

Definition _split_text (fuel : nat) (self : PDFExtractor) (t : text)
    : option (list text) :=
  if py_len t <=? chunk_size self then
    Some (if truthy (strip t) then [t] else [])
  else split_loop fuel self t 0 [].

(** String literals as texts. *)
Definition lit (s : string) : text := list_ascii_of_string s.

(** The last [n] characters of a chunk (the whole chunk when it is
    shorter), and the relation the overlap property asks of two
    consecutive chunks. *)
Definition suffix_of_len (n : Z) (c : text) : text :=
  drop (length c - Z.to_nat n)%nat c.

Definition overlap_aligned (overlap : Z) (c1 c2 : text) : Prop :=
  suffix_of_len overlap c1 `prefix_of` c2.

(** Consecutive segments carved by the loop: each one is
    [text[s:e]] and the next one starts at [e - overlap]. *)
Inductive chained (t : text) (overlap : Z) : Z -> list text -> Prop :=
| chained_nil s : chained t overlap s []
| chained_cons s e cs :
    chained t overlap (e - overlap) cs ->
    chained t overlap s (py_slice t s e :: cs).

End Chunker.


(* ===================================================================== *)
(** * Effects shared by the service-facing modules                       *)
(* ===================================================================== *)
Module Runtime.

(** Exceptions that can leave a function of the package. *)
Inductive Exn :=
| JSONDecodeError                (* json.loads on malformed text *)
| RecursionError                 (* json.loads on text nested too deeply *)
| MarkupError (msg : string)     (* console.print on unbalanced markup *)
| IndexError                     (* [0] on an empty sequence *)
| KeyError (key : string)        (* a missing dictionary key *)
| TypeError                      (* subscripting None *)
| ServiceError (msg : string)    (* raised by the OpenAI client *)
| StoreError (msg : string).     (* raised by the collection *)

Inductive Outcome (A : Type) :=
| Returned (a : A)
| Raised (e : Exn).
Arguments Returned {A} a.
Arguments Raised {A} e.

(** Values the package only passes around: embedding vectors, distances
    (lists of floats and floats) and decoded JSON documents. *)
Class Payload := {
  Embedding : Type;
  Distance : Type;
  Json : Type
}.

Section Data.
Context {payload : Payload}.

(** A metadata value: a string or an integer. *)
Definition MetaValue : Type := string + Z.

(** One stored vector of the collection. *)
Record Entry := {
  entry_id : string;
  entry_embedding : Embedding;
  entry_document : string;
  entry_metadata : option (gmap string MetaValue)
}.

(** [tool_call.id], [tool_call.function.name], [tool_call.function.arguments] *)
Record ToolCall := {
  call_id : string;
  function_name : string;
  function_arguments : string
}.

(** [response.choices[i].message] *)
Record ChatCompletionMessage := {
  content : option string;
  tool_calls : option (list ToolCall)
}.

(** One element of [MCPClient.get_openai_tools()]. *)
Record ToolDecl := {
  decl_name : string;
  decl_description : string;
  decl_parameters : Json
}.

(** Elements of the [messages] list. *)
Inductive Message :=
| RoleContent (role content : string)       (* {"role": r, "content": c} *)
| AssistantTurn (m : ChatCompletionMessage) (* the raw reply object *)
| ToolResult (tool_call_id content : string).
                                    (* {"role": "tool", "tool_call_id", "content"} *)

Inductive EmbeddingInput :=
| OneText (s : string)
| Batch (l : list string).

(** Calls that leave the process, in the order they are issued. *)
Inductive Event :=
| EmbeddingsCreate (input : EmbeddingInput)
| ChatCreate (messages : list Message) (tools : option (list ToolDecl))
| SessionCallTool (session : nat) (name : string) (arguments : Json)
| CollectionQuery (query_embedding : Embedding) (n_results : Z)
| Progress (num den : Z).          (* progress_callback(num / den) *)

Record Env := {
  collection : list Entry;
  log : list Event
}.

(** A computation reads and writes the environment and either returns or
    raises; what it did before raising stays done. *)
Definition M (A : Type) : Type := Env -> Outcome A * Env.

Definition ret {A} (a : A) : M A := fun env => (Returned a, env).

Definition raise {A} (e : Exn) : M A := fun env => (Raised e, env).

Definition bind {A B} (c : M A) (k : A -> M B) : M B :=
  fun env =>
    match c env with
    | (Returned a, env') => k a env'
    | (Raised e, env') => (Raised e, env')
    end.

Definition emit (ev : Event) : M unit :=
  fun env => (Returned tt, {| collection := collection env; log := log env ++ [ev] |}).

Definition is_chat (ev : Event) : bool :=
  match ev with ChatCreate _ _ => true | _ => false end.

Definition is_tool_dispatch (ev : Event) : bool :=
  match ev with SessionCallTool _ _ _ => true | _ => false end.

Definition is_embedding_call (ev : Event) : bool :=
  match ev with EmbeddingsCreate _ => true | _ => false end.

(** Calls made while embedding or searching. *)
Definition is_retrieval (ev : Event) : bool :=
  match ev with
  | EmbeddingsCreate _ | CollectionQuery _ _ | Progress _ _ => true
  | _ => false
  end.

(** Number of completion requests in a log. *)
Definition chat_requests (l : list Event) : nat := length (List.filter is_chat l).

End Data.

(** The collaborators.  Each answer may depend on everything that was
    issued before (the log), so stateful stubs are covered. *)
Class Services {payload : Payload} := {
  (* json.loads: the decoded value, [None] where it raises
     JSONDecodeError *)
  json_loads : string -> option Json;
  (* json.loads raises RecursionError on this text, whose nesting
     exhausts the interpreter's stack; this happens only on texts it does
     not reject with JSONDecodeError, and the value [json_loads] has
     there is of no account *)
  recursion_error : string -> bool;
  (* rich's console.print on a markup text: the message of the
     MarkupError it raises, [None] when the text is rendered *)
  markup_error : string -> option string;
  (* client.embeddings.create(...).data, one embedding per item *)
  embeddings_create : list Event -> EmbeddingInput -> Exn + list Embedding;
  (* client.chat.completions.create(...).choices, as their messages *)
  chat_create : list Event -> list Message -> option (list ToolDecl)
                -> Exn + list ChatCompletionMessage;
  (* session.call_tool(...): str(e) of the exception raised, or the [text]
     of each item of [result.content] ([None] for an item without one) *)
  session_call_tool : list Event -> nat -> string -> Json
                      -> string + list (option string);
  (* collection.query(...): ranked entries with their distances *)
  collection_query : list Entry -> Embedding -> Z
                     -> Exn + list (Entry * Distance)
}.

Section Client.
Context {payload : Payload} {services : Services}.

(** [self.client.chat.completions.create(...)] *)
Definition chat (messages : list Message) (tools : option (list ToolDecl))
    : M (list ChatCompletionMessage) :=
  fun env =>
    let env' := {| collection := collection env;
                   log := log env ++ [ChatCreate messages tools] |} in
    match chat_create (log env) messages tools with
    | inl e => (Raised e, env')
    | inr choices => (Returned choices, env')
    end.

(** [response.choices[0].message] *)
Definition first_choice (choices : list ChatCompletionMessage)
    : M ChatCompletionMessage :=
  match choices with
  | [] => raise IndexError
  | m :: _ => ret m
  end.

(** The environment after [evs] more calls were issued. *)
Definition appended (env : Env) (evs : list Event) : Env :=
  {| collection := collection env; log := log env ++ evs |}.

(** A computation that leaves the collection alone and issues only calls
    that satisfy [P]. *)
Definition only_emits {A} (P : Event -> bool) (c : M A) : Prop :=
  forall env, exists evs, snd (c env) = appended env evs /\ forallb P evs = true.

(** [tools if tools else None] *)
Definition or_none (tools : list ToolDecl) : option (list ToolDecl) :=
  match tools with [] => None | _ => Some tools end.

End Client.

Declare Scope py_scope.
Delimit Scope py_scope with py.
Notation "'let*' x ':=' c 'in' k" := (bind c (fun x => k))
  (at level 10, x name, c at level 100, k at level 200) : py_scope.

End Runtime.

(* ===================================================================== *)
(** * src/embeddings/engine.py                                           *)
(* ===================================================================== *)
Module Embeddings.
Import Py Runtime.
Local Open Scope py_scope.

Section Engine.
Context {payload : Payload} {services : Services}.

Definition BATCH_SIZE : Z := 50.

(** [self.client.embeddings.create(input=..., model=self.model).data],
    mapped to the [embedding] of each item. *)
Definition create (input : EmbeddingInput) : M (list Embedding) :=
  fun env =>
    let env' := {| collection := collection env;
                   log := log env ++ [EmbeddingsCreate input] |} in
    match embeddings_create (log env) input with
    | inl e => (Raised e, env')
    | inr data => (Returned data, env')
    end.

Definition embed_text (text : string) : M Embedding :=
  let* data := create (OneText text) in
  match data with
  | [] => raise IndexError
  | d :: _ => ret d
  end.

(** [if progress_callback: progress_callback(num / den)]; the flag says
    whether a callback was passed. *)
Definition report (progress_callback : bool) (num den : Z) : M unit :=
  if progress_callback then emit (Progress num den) else ret tt.

(** The body of [for i in range(0, total, BATCH_SIZE)]. *)
Fixpoint embed_batches (starts : list Z) (texts : list string) (total : Z)
    (progress_callback : bool) (all_embeddings : list Embedding)
    : M (list Embedding) :=
  match starts with
  | [] => ret all_embeddings
  | i :: rest =>
      let batch := py_slice texts i (i + BATCH_SIZE) in
      let* data := create (Batch batch) in
      let* _ := report progress_callback (Z.min (i + BATCH_SIZE) total) total in
      embed_batches rest texts total progress_callback (all_embeddings ++ data)
  end.

Definition embed_texts (texts : list string) (progress_callback : bool)
    : M (list Embedding) :=
  match texts with
  | [] => ret []
  | _ =>
      if py_len texts <=? BATCH_SIZE then
        let* data := create (Batch texts) in
        let* _ := report progress_callback 1 1 in
        ret data
      else
        let total := py_len texts in
        embed_batches (py_range 0 total BATCH_SIZE) texts total
                      progress_callback []
  end.

End Engine.
End Embeddings.

(* ===================================================================== *)
(** * src/vectordb/store.py                                              *)
(* ===================================================================== *)
Module VectorStore.
Import Py Runtime.
Local Open Scope py_scope.

(** [TextChunk] of src/pdf/extractor.py. *)
Record TextChunk := {
  text : string;
  page_number : Z;
  chunk_index : Z;
  source_file : string
}.

(** The store object; its collection is [collection] of the environment. *)
Record VectorStore := { top_k : Z }.

(** One element of the list [search] returns. *)
Record SearchResult {payload : Payload} := {
  result_text : string;
  result_metadata : option (gmap string MetaValue);
  result_distance : Distance
}.

Section Store.
Context {payload : Payload} {services : Services}.

(** Does the metadata carry [key] with value [v]? *)
Definition metadata_has (key : string) (v : MetaValue) (e : Entry) : bool :=
  match entry_metadata e with
  | Some m => bool_decide (m !! key = Some v)
  | None => false
  end.

(** Modelled from the spec: the persistent index store (the ChromaDB
    collection) is not part of the sources; section 6 gives its contract,
    [upsert(ids, vectors, documents, metadatas)], [query(vector, k)],
    [deleteWhere(metadataPredicate)] and [getAll(fields)].  [upsert]
    overwrites the entry that has the same id and appends otherwise. *)
Definition upsert (e : Entry) (es : list Entry) : list Entry :=
  if existsb (fun x => String.eqb (entry_id x) (entry_id e)) es
  then map (fun x => if String.eqb (entry_id x) (entry_id e) then e else x) es
  else es ++ [e].

(** The four parallel argument lists as entries; [None] when their
    lengths differ. *)
Fixpoint zip_entries (ids : list string) (embeddings : list Embedding)
    (documents : list string) (metadatas : list (gmap string MetaValue))
    : option (list Entry) :=
  match ids, embeddings, documents, metadatas with
  | [], [], [], [] => Some []
  | i :: ids', v :: embeddings', d :: documents', m :: metadatas' =>
      match zip_entries ids' embeddings' documents' metadatas' with
      | Some es => Some ({| entry_id := i; entry_embedding := v;
                            entry_document := d; entry_metadata := Some m |} :: es)
      | None => None
      end
  | _, _, _, _ => None
  end.

(** Modelled from the spec: [collection.add(ids, embeddings, documents,
    metadatas)] as the store's [upsert]; arguments of unequal lengths are
    refused and nothing is written. *)
Definition collection_add (ids : list string) (embeddings : list Embedding)
    (documents : list string) (metadatas : list (gmap string MetaValue))
    : M unit :=
  fun env =>
    match zip_entries ids embeddings documents metadatas with
    | Some es =>
        (Returned tt,
         {| collection := foldl (fun acc e => upsert e acc) (collection env) es;
            log := log env |})
    | None => (Raised (StoreError "unequal lengths"), env)
    end.

(** Modelled from the spec: [collection.delete(where={key: v})], the
    store's [deleteWhere]: every entry whose metadata maps [key] to [v]
    is removed, the others stay as they are. *)
Definition collection_delete (key : string) (v : MetaValue) : M unit :=
  fun env =>
    (Returned tt,
     {| collection := List.filter (fun e => negb (metadata_has key v e)) (collection env);
        log := log env |}).

(** Modelled from the spec: [collection.get(include=["metadatas"])], the
    store's [getAll]: the metadata of every entry, in storage order. *)
Definition collection_get_metadatas : M (list (option (gmap string MetaValue))) :=
  fun env => (Returned (map entry_metadata (collection env)), env).

(** [collection.query(query_embeddings=[q], n_results=k, ...)], answered by
    the store service from the current entries. *)
Definition query_collection (q : Embedding) (k : Z) : M (list (Entry * Distance)) :=
  fun env =>
    let env' := {| collection := collection env;
                   log := log env ++ [CollectionQuery q k] |} in
    match collection_query (collection env) q k with
    | inl e => (Raised e, env')
    | inr res => (Returned res, env')
    end.

(** [f"{chunk.source_file}_{chunk.chunk_index}"] *)
Definition chunk_id (chunk : TextChunk) : string :=
  source_file chunk +:+ "_" +:+ pretty (chunk_index chunk).

Definition chunk_metadata (chunk : TextChunk) : gmap string MetaValue :=
  <["page_number" := inr (page_number chunk)]>
  (<["source_file" := inl (source_file chunk)]>
  (<["chunk_index" := inr (chunk_index chunk)]> ∅)).

Definition add_chunks (self : VectorStore) (chunks : list TextChunk)
    (progress_callback : bool) : M unit :=
  match chunks with
  | [] => ret tt
  | _ =>
      let texts := map text chunks in
      let* embeddings := Embeddings.embed_texts texts progress_callback in
      let ids := map chunk_id chunks in
      let metadatas := map chunk_metadata chunks in
      collection_add ids embeddings texts metadatas
  end.

Definition search (self : VectorStore) (query : string) (top_k : option Z)
    : M (list SearchResult) :=
  let k := py_or top_k (VectorStore.top_k self) in
  let* query_embedding := Embeddings.embed_text query in
  let* results := query_collection query_embedding k in
  ret (map (fun r => {| result_text := entry_document (fst r);
                        result_metadata := entry_metadata (fst r);
                        result_distance := snd r |}) results).

Definition delete_document (self : VectorStore) (source_file : string) : M unit :=
  collection_delete "source_file" (inl source_file).

(** The [sources] set after the loop over [results["metadatas"]]. *)
Fixpoint collect_sources (metadatas : list (option (gmap string MetaValue)))
    (sources : gset MetaValue) : gset MetaValue :=
  match metadatas with
  | [] => sources
  | metadata :: rest =>
      match metadata with
      | Some m =>
          match m !! "source_file" with
          | Some v => collect_sources rest ({[ v ]} ∪ sources)
          | None => collect_sources rest sources
          end
      | None => collect_sources rest sources
      end
  end.

Definition list_documents (self : VectorStore) : M (list MetaValue) :=
  let* metadatas := collection_get_metadatas in
  ret (elements (collect_sources metadatas ∅)).

(** The store answers a query with entries it holds. *)
Definition query_sound : Prop :=
  forall (es : list Entry) q k res,
    collection_query es q k = inr res ->
    forall r, r ∈ res -> fst r ∈ es.

End Store.
End VectorStore.

(* ===================================================================== *)
(** * src/rag/pipeline.py                                                *)
(* ===================================================================== *)
Module RAG.
Import Py Runtime VectorStore.
Local Open Scope py_scope.

Record RAGPipeline := { vector_store : VectorStore }.

Definition NO_RESULTS : string :=
  "No relevant documents found to answer your question.".

Definition SYSTEM_PROMPT : string :=
  "You are a helpful research assistant. Answer questions based on the provided document context."
  +:+ nl +:+
  "If the context doesn't contain enough information to answer the question, say so."
  +:+ nl +:+
  "Always cite which source(s) you used in your answer.".

Section Pipeline.
Context {payload : Payload} {services : Services}.

(** [str(v)] inside an f-string. *)
Definition show (v : MetaValue) : string :=
  match v with inl s => s | inr n => pretty n end.

(** [result["metadata"][key]] *)
Definition metadata_field (result : SearchResult) (key : string) : M MetaValue :=
  match result_metadata result with
  | None => raise TypeError
  | Some m =>
      match m !! key with
      | Some v => ret v
      | None => raise (KeyError key)
      end
  end.

Fixpoint context_parts (i : Z) (search_results : list SearchResult)
    : M (list string) :=
  match search_results with
  | [] => ret []
  | result :: rest =>
      let* source := metadata_field result "source_file" in
      let* page := metadata_field result "page_number" in
      let part := "[Source " +:+ pretty i +:+ ": " +:+ show source
                  +:+ ", Page " +:+ show page +:+ "]" +:+ nl
                  +:+ result_text result in
      let* parts := context_parts (i + 1) rest in
      ret (part :: parts)
  end.

Definition _build_context (search_results : list SearchResult) : M string :=
  let* parts := context_parts 1 search_results in
  ret (String.concat (nl +:+ nl) parts).

Fixpoint cite (search_results : list SearchResult) (sources : list string)
    : M (list string) :=
  match search_results with
  | [] => ret sources
  | result :: rest =>
      let* file := metadata_field result "source_file" in
      let* page := metadata_field result "page_number" in
      let source := show file +:+ " (Page " +:+ show page +:+ ")" in
      if bool_decide (source ∈ sources) then cite rest sources
      else cite rest (sources ++ [source])
  end.

Definition _generate_response (question context : string)
    (search_results : list SearchResult) : M string :=
  let user_prompt :=
    "Context from documents:" +:+ nl +:+ context +:+ nl +:+ nl
    +:+ "Question: " +:+ question +:+ nl +:+ nl
    +:+ "Provide a clear, accurate answer based on the context above." in
  let* choices := chat [RoleContent "system" SYSTEM_PROMPT;
                        RoleContent "user" user_prompt] None in
  let* message := first_choice choices in
  let answer := match content message with Some a => a | None => "None" end in
  let* sources := cite search_results [] in
  ret (answer +:+ nl +:+ nl +:+ "**Sources:** " +:+ String.concat ", " sources).

Definition query (self : RAGPipeline) (question : string) (top_k : option Z)
    : M string :=
  let* search_results := search (vector_store self) question top_k in
  match search_results with
  | [] => ret NO_RESULTS
  | _ =>
      let* context := _build_context search_results in
      _generate_response question context search_results
  end.

End Pipeline.
End RAG.

(* ===================================================================== *)
(** * src/mcp/client.py                                                  *)
(* ===================================================================== *)
Module MCP.
Import Py Runtime.
Local Open Scope py_scope.

Record MCPTool {payload : Payload} := {
  name : string;
  description : string;
  input_schema : Json;
  server_name : string
}.

(** [sessions] maps a server name to its open session (a handle). *)
Record MCPClient {payload : Payload} := {
  sessions : gmap string nat;
  tools : list MCPTool
}.

Section Client.
Context {payload : Payload} {services : Services}.

Definition get_openai_tools (self : MCPClient) : list ToolDecl :=
  map (fun tool => {| decl_name := name tool;
                      decl_description := description tool;
                      decl_parameters := input_schema tool |})
      (tools self).

(** The [try] block of [call_tool]: the call to the session, the joined
    texts on success, ["Tool error: ..."] on an exception. *)
Definition invoke (session : nat) (tool_name : string) (arguments : Json)
    : M string :=
  fun env =>
    let env' := {| collection := collection env;
                   log := log env ++ [SessionCallTool session tool_name arguments] |} in
    match session_call_tool (log env) session tool_name arguments with
    | inl cause => (Returned ("Tool error: " +:+ cause), env')
    | inr contents => (Returned (String.concat nl (omap id contents)), env')
    end.

(** [for tool in self.tools: ...] followed by the not-found return. *)
Fixpoint call_tool_in (sessions : gmap string nat) (tools : list MCPTool)
    (tool_name : string) (arguments : Json) : M string :=
  match tools with
  | [] => ret ("Tool '" +:+ tool_name +:+ "' not found")
  | tool :: rest =>
      if String.eqb (name tool) tool_name then
        match sessions !! server_name tool with
        | Some session => invoke session tool_name arguments
        | None => call_tool_in sessions rest tool_name arguments
        end
      else call_tool_in sessions rest tool_name arguments
  end.

Definition call_tool (self : MCPClient) (tool_name : string) (arguments : Json)
    : M string :=
  call_tool_in (sessions self) (tools self) tool_name arguments.

End Client.
End MCP.

(* ===================================================================== *)
(** * src/agents/specialized.py                                          *)
(* ===================================================================== *)
Module Agents.
Import Py Runtime MCP.
Local Open Scope py_scope.

Record BaseAgent {payload : Payload} := {
  mcp_client : option MCPClient;
  max_iterations : Z;
  system_prompt : string
}.

Definition MAX_ITERATIONS_REACHED : string := "Max iterations reached".

Section Agent.
Context {payload : Payload} {services : Services}.

(** [BaseAgent.__init__] *)
Definition new_agent (prompt : string) (mcp_client : option MCPClient) : BaseAgent :=
  {| mcp_client := mcp_client; max_iterations := 10; system_prompt := prompt |}.

(** [json.loads(tool_call.function.arguments)]: the decoded value, or
    JSONDecodeError on malformed text, or RecursionError on text whose
    nesting exhausts the stack. *)
Definition loads (s : string) : M Json :=
  match json_loads s with
  | Some v => if recursion_error s then raise RecursionError else ret v
  | None => raise JSONDecodeError
  end.

(** [console.print(text)]: the terminal is not part of the log of
    service calls; what matters to the caller is the MarkupError rich
    raises on a closing tag that matches no open one. *)
Definition console_print (text : string) : M unit :=
  match markup_error text with
  | Some msg => raise (MarkupError msg)
  | None => ret tt
  end.

(** [f"  [dim]→ Calling tool:[/dim] [cyan]{tool_name}[/cyan]"] *)
Definition calling_line (tool_name : string) : string :=
  "  [dim]→ Calling tool:[/dim] [cyan]" +:+ tool_name +:+ "[/cyan]".

(** [f"  [dim]← Result:[/dim] [green]{len(result)} chars[/green]"] *)
Definition result_line (result : string) : string :=
  "  [dim]← Result:[/dim] [green]" +:+ pretty (String.length result)
  +:+ " chars[/green]".

(** [for tool_call in message.tool_calls: ...] *)
Fixpoint dispatch (client : MCPClient) (calls : list ToolCall)
    (messages : list Message) : M (list Message) :=
  match calls with
  | [] => ret messages
  | tool_call :: rest =>
      let tool_name := function_name tool_call in
      let* arguments := loads (function_arguments tool_call) in
      let* _ := console_print (calling_line tool_name) in
      let* result := call_tool client tool_name arguments in
      let* _ := console_print (result_line result) in
      dispatch client rest (messages ++ [ToolResult (call_id tool_call) result])
  end.

(** [for iteration in range(...)], with the iterations left as [n], and
    the return that follows the loop. *)
Fixpoint iterate (n : nat) (self : BaseAgent) (tools : list ToolDecl)
    (messages : list Message) : M (option string) :=
  match n with
  | O => ret (Some MAX_ITERATIONS_REACHED)
  | S n' =>
      let* choices :=
        chat messages (or_none tools) in
      let* message := first_choice choices in
      match tool_calls message, mcp_client self with
      | Some (c :: cs), Some client =>
          let* messages' :=
            dispatch client (c :: cs) (messages ++ [AssistantTurn message]) in
          iterate n' self tools messages'
      | _, _ => ret (content message)
      end
  end.

Definition initial_messages (self : BaseAgent) (query : string) : list Message :=
  [RoleContent "system" (system_prompt self); RoleContent "user" query].

Definition offered_tools (self : BaseAgent) : list ToolDecl :=
  match mcp_client self with
  | Some client => get_openai_tools client
  | None => []
  end.

(** The reply asks for at least one tool call. *)
Definition requests_tools (m : ChatCompletionMessage) : Prop :=
  exists c cs, tool_calls m = Some (c :: cs).

(** [json.loads] returns a value on the text. *)
Definition loads_returns (s : string) : Prop :=
  is_Some (json_loads s) /\ recursion_error s = false.

(** The console renders the line announcing the call. *)
Definition name_renders (tc : ToolCall) : Prop :=
  markup_error (calling_line (function_name tc)) = None.

(** The console renders the line reporting a result, whatever the
    result: its markup is fixed and only a number is spliced in. *)
Definition results_render : Prop :=
  forall result, markup_error (result_line result) = None.

(** Every tool call of the reply carries arguments [json.loads] decodes. *)
Definition arguments_parse (m : ChatCompletionMessage) : Prop :=
  forall calls, tool_calls m = Some calls ->
    Forall (fun tc => loads_returns (function_arguments tc)) calls.

(** Every tool call of the reply has a name the console renders. *)
Definition names_render (m : ChatCompletionMessage) : Prop :=
  forall calls, tool_calls m = Some calls -> Forall name_renders calls.

(** The replies of the completion service to the requests of a run that
    started on the log [base] and issued the events [evs]: each request
    is answered on the log as it stood when it was made. *)
Fixpoint replies (base evs : list Event)
    : list (Exn + list ChatCompletionMessage) :=
  match evs with
  | [] => []
  | ev :: rest =>
      match ev with
      | ChatCreate messages offered => [chat_create base messages offered]
      | _ => []
      end ++ replies (base ++ [ev]) rest
  end.

(** A reply that sends the loop into another iteration: it has a first
    choice, and that choice asks for tool calls the loop can dispatch. *)
Definition dispatches (reply : Exn + list ChatCompletionMessage) : Prop :=
  exists m rest, reply = inr (m :: rest)
    /\ requests_tools m /\ arguments_parse m /\ names_render m.

Definition process_async (self : BaseAgent) (query : string) : M (option string) :=
  iterate (Z.to_nat (max_iterations self)) self (offered_tools self)
          (initial_messages self query).

End Agent.
End Agents.

(* ===================================================================== *)
(** * Test doubles for the collaborators                                 *)
(* ===================================================================== *)
Module Stub.
Import Py Runtime VectorStore MCP Agents.

(** Embeddings are integer vectors, distances integers, and a decoded
    JSON document is kept as its text. *)
#[export] Instance payload : Payload :=
  {| Embedding := list Z; Distance := Z; Json := string |}.

(** Accepts a text that opens an object. *)
Definition loads_object (s : string) : option string :=
  match s with
  | String "{" _ => Some s
  | _ => None
  end.

(** Gives up on a text that opens with four nested objects. *)
Definition too_deep (s : string) : bool := String.prefix "{{{{" s.

(** A console that refuses the announcement of a tool whose name opens
    with the closing tag [[/x]], which nothing before it opened. *)
Definition stray_tag (text : string) : option string :=
  if String.prefix "  [dim]→ Calling tool:[/dim] [cyan][/x]" text
  then Some "closing tag '[/x]' at position 35 doesn't match any open tag"
  else None.

Definition items (input : EmbeddingInput) : list string :=
  match input with OneText s => [s] | Batch l => l end.

Definition embed_by_length (_ : list Event) (input : EmbeddingInput)
    : Exn + list (list Z) :=
  inr (map (fun s => [Z.of_nat (String.length s)]) (items input)).

Definition embed_unavailable (_ : list Event) (_ : EmbeddingInput)
    : Exn + list (list Z) :=
  inl (ServiceError "rate limit").

(** Serves the first [n] requests and refuses the later ones. *)
Definition embed_first (n : nat) (l : list Event) (input : EmbeddingInput)
    : Exn + list (list Z) :=
  if (length (List.filter is_embedding_call l) <? n)%nat
  then embed_by_length l input
  else inl (ServiceError "rate limit").

Definition search_call (arguments : string) : ToolCall :=
  {| call_id := "call_1"; function_name := "search_documents";
     function_arguments := arguments |}.

(** A completion stub that requests one tool call on every turn. *)
Definition always_calls (arguments : string) (_ : list Event) (_ : list Message)
    (_ : option (list ToolDecl)) : Exn + list ChatCompletionMessage :=
  inr [{| content := None; tool_calls := Some [search_call arguments] |}].

(** A completion stub that answers at once. *)
Definition answers (text : string) (_ : list Event) (_ : list Message)
    (_ : option (list ToolDecl)) : Exn + list ChatCompletionMessage :=
  inr [{| content := Some text; tool_calls := None |}].

Definition tool_echo (_ : list Event) (_ : nat) (name : string) (arguments : string)
    : string + list (option string) :=
  inr [Some (name +:+ arguments)].

(** The first [k] entries, each at distance [0]. *)
Definition first_k (es : list Entry) (_ : list Z) (k : Z)
    : Exn + list (Entry * Z) :=
  inr (map (fun e => (e, 0)) (take (Z.to_nat k) es)).

Definition services (embed : list Event -> EmbeddingInput -> Exn + list (list Z))
    (complete : list Event -> list Message -> option (list ToolDecl)
                -> Exn + list ChatCompletionMessage) : Services :=
  {| json_loads := loads_object;
     recursion_error := too_deep;
     markup_error := stray_tag;
     embeddings_create := embed;
     chat_create := complete;
     session_call_tool := tool_echo;
     collection_query := first_k |}.

Definition search_tool : MCPTool :=
  {| name := "search_documents"; description := "Search the documents";
     input_schema := "{}"; server_name := "rag" |}.

Definition client : MCPClient :=
  {| sessions := {[ "rag" := 1%nat ]}; tools := [search_tool] |}.

Definition entry (file : string) (index : Z) (body : string) : Entry :=
  {| entry_id := chunk_id {| text := body; page_number := 1;
                             chunk_index := index; source_file := file |};
     entry_embedding := [Z.of_nat (String.length body)];
     entry_document := body;
     entry_metadata :=
       Some (chunk_metadata {| text := body; page_number := 1;
                               chunk_index := index; source_file := file |}) |}.

Definition page_chunks (file : string) (n : nat) : list TextChunk :=
  map (fun i => {| text := "chunk"; page_number := 1;
                   chunk_index := Z.of_nat i; source_file := file |})
      (seq 0 n).

Definition empty_env : Env := {| collection := []; log := [] |}.

Definition two_files : Env :=
  {| collection := [entry "a.pdf" 0 "alpha"; entry "b.pdf" 0 "beta";
                    entry "a.pdf" 1 "gamma"];
     log := [] |}.

End Stub.

(* ===================================================================== *)
(** * src/pdf/extractor.py: the page loop                                *)
(* ===================================================================== *)
Module Extractor.
Import Py Chunker VectorStore.

(** [text += page.get_text()] over the pages of the document; the page
    texts are what the PDF library hands over. *)
Definition extract_text (pages : list Chunker.text) : Chunker.text :=
  foldl (fun acc page => acc ++ page) [] pages.

(** [for chunk_text in page_chunks: ...]: the accumulated chunks and the
    next free index. *)
Fixpoint append_page_chunks (page_chunks : list Chunker.text) (page_num : Z)
    (name : string) (chunks : list TextChunk) (chunk_index : Z)
    : list TextChunk * Z :=
  match page_chunks with
  | [] => (chunks, chunk_index)
  | chunk_text :: rest =>
      if truthy (strip chunk_text) then
        append_page_chunks rest page_num name
          (chunks ++ [{| text := string_of_list_ascii (strip chunk_text);
                         page_number := page_num;
                         chunk_index := chunk_index;
                         source_file := name |}])
          (chunk_index + 1)
      else append_page_chunks rest page_num name chunks chunk_index
  end.

(** [for page_num, page in enumerate(doc, start=1): ...]; [None] when the
    split of a page is still running with the fuel used up. *)
Fixpoint extract_pages (fuel : nat) (self : PDFExtractor)
    (pages : list Chunker.text) (page_num : Z) (name : string)
    (chunks : list TextChunk) (chunk_index : Z) : option (list TextChunk) :=
  match pages with
  | [] => Some chunks
  | page_text :: rest =>
      match _split_text fuel self page_text with
      | None => None
      | Some page_chunks =>
          let '(chunks', chunk_index') :=
            append_page_chunks page_chunks page_num name chunks chunk_index in
          extract_pages fuel self rest (page_num + 1) name chunks' chunk_index'
      end
  end.

(** [extract_chunks]; [name] is [str(pdf_path.name)]. *)
Definition extract_chunks (fuel : nat) (self : PDFExtractor)
    (pages : list Chunker.text) (name : string) : option (list TextChunk) :=
  extract_pages fuel self pages 1 name [] 0.

(** What the page loop keeps true of the chunks gathered so far. *)
Definition well_indexed (name : string) (last_page : Z) (chunks : list TextChunk) : Prop :=
  map chunk_index chunks = map Z.of_nat (seq 0 (length chunks))
  /\ Forall (fun c => source_file c = name
                      /\ 1 <= page_number c <= last_page
                      /\ VectorStore.text c <> ""
                      /\ strip (list_ascii_of_string (VectorStore.text c))
                         = list_ascii_of_string (VectorStore.text c)) chunks
  /\ (forall (i j : nat) ci cj, (i <= j)%nat ->
        chunks !! i = Some ci -> chunks !! j = Some cj ->
        page_number ci <= page_number cj).

(** A position of the text lies in the window [[s, e)] of some chunk. *)
Definition covered (t : Chunker.text) (chunks : list Chunker.text) (p : Z) : Prop :=
  exists s e, py_slice t s e ∈ chunks /\ 0 <= s <= p /\ p < e.

End Extractor.

(* ===================================================================== *)
(** * Readings of the call log                                           *)
(* ===================================================================== *)
Module Observe.
Import Runtime.

Section Log.
Context {payload : Payload}.

(** The batches sent to the embedding service, in order. *)
Definition requested_batches (evs : list Event) : list (list string) :=
  omap (fun ev => match ev with
                  | EmbeddingsCreate (Batch b) => Some b
                  | _ => None
                  end) evs.

(** The fractions handed to the progress callback, in order. *)
Definition progress_reports (evs : list Event) : list (Z * Z) :=
  omap (fun ev => match ev with
                  | Progress num den => Some (num, den)
                  | _ => None
                  end) evs.

(** The message lists of the completion requests, in order. *)
Definition chat_messages (evs : list Event) : list (list Message) :=
  omap (fun ev => match ev with
                  | ChatCreate messages _ => Some messages
                  | _ => None
                  end) evs.

(** The tool invocations sent to sessions, in order. *)
Definition tool_invocations (evs : list Event) : list (nat * string) :=
  omap (fun ev => match ev with
                  | SessionCallTool session name _ => Some (session, name)
                  | _ => None
                  end) evs.

(** The calls the batch that starts at [i] issues when it succeeds. *)
Definition batch_calls (texts : list string) (total : Z) (cb : bool) (i : Z)
    : list Event :=
  EmbeddingsCreate (Batch (Py.py_slice texts i (i + Embeddings.BATCH_SIZE)))
  :: (if cb then [Progress (Z.min (i + Embeddings.BATCH_SIZE) total) total] else []).

(** Every message list is a prefix of the later ones. *)
Definition grows (l : list (list Message)) : Prop :=
  forall (i j : nat) a b, (i <= j)%nat ->
    l !! i = Some a -> l !! j = Some b -> a `prefix_of` b.

End Log.
End Observe.

(* ===================================================================== *)
(** * Readings of search results                                         *)
(* ===================================================================== *)
Module Views.
Import Runtime VectorStore RAG.

Section Results.
Context {payload : Payload}.

(** ["<file> (Page <page>)"] for a result whose metadata has both fields,
    [None] for a result without metadata or without one of them. *)
Definition citation (r : SearchResult) : option string :=
  match result_metadata r with
  | Some m =>
      match m !! "source_file", m !! "page_number" with
      | Some file, Some page => Some (show file +:+ " (Page " +:+ show page +:+ ")")
      | _, _ => None
      end
  | None => None
  end.


End Results.
End Views.

(* ===================================================================== *)
(** * src/mcp/client.py: connecting and closing                          *)
(* ===================================================================== *)
Module MCPSession.
Import Runtime MCP.

Section Session.
Context {payload : Payload}.

(** One element of [result.tools] of [session.list_tools()]. *)
Record ListedTool := {
  listed_name : string;
  listed_description : option string;
  listed_schema : Json
}.

(** [MCPClient.__init__] *)
Definition new_client : MCPClient := {| sessions := ∅; tools := [] |}.

(** [_load_tools], given what [session.list_tools()] answered. *)
Definition _load_tools (self : MCPClient) (server : string)
    (listed : list ListedTool) : MCPClient :=
  {| sessions := sessions self;
     tools := tools self
              ++ map (fun tool =>
                        {| name := listed_name tool;
                           description := default "" (listed_description tool);
                           input_schema := listed_schema tool;
                           server_name := server |})
                     listed |}.

(** [connect] once the transport is up: [session] is the handle of the
    initialised session, [listed] the tools it announces. *)
Definition connect (self : MCPClient) (server : string) (session : nat)
    (listed : list ListedTool) : MCPClient :=
  _load_tools {| sessions := <[server := session]> (sessions self);
                 tools := tools self |}
              server listed.

(** [close]: [sessions.clear()] and [tools.clear()]. *)
Definition close (self : MCPClient) : MCPClient :=
  {| sessions := ∅; tools := [] |}.

(** What the [try] block of [call_tool] returns for the session's
    answer. *)
Definition tool_text (answer : string + list (option string)) : string :=
  match answer with
  | inl cause => "Tool error: " +:+ cause
  | inr contents => String.concat Py.nl (omap id contents)
  end.

End Session.
End MCPSession.

(* ===================================================================== *)
(** * src/agents/router.py                                               *)
(* ===================================================================== *)
Module Router.
Import Py Runtime MCP Agents.

(** The [system_prompt] of [QAAgent], [SummaryAgent] and
    [ComparisonAgent] (src/agents/specialized.py). *)
Definition QA_PROMPT : string :=
  "You are a precise Q&A agent. Use the available tools to search documents and answer questions."
  +:+ nl +:+ "Always search for relevant information before answering."
  +:+ nl +:+ "Cite sources in your response.".

Definition SUMMARY_PROMPT : string :=
  "You are a summarization agent. Use the available tools to gather information from documents."
  +:+ nl +:+ "Search broadly to get comprehensive coverage of the topic."
  +:+ nl +:+ "Provide thorough but concise summaries.".

Definition COMPARISON_PROMPT : string :=
  "You are a comparison agent. Use the available tools to find information about different concepts."
  +:+ nl +:+ "Search for each concept separately to gather complete information."
  +:+ nl +:+ "Present comparisons in structured format (tables when helpful).".

Definition CLASSIFY_PROMPT : string :=
  "Classify the user query into one of these categories:"
  +:+ nl +:+ "- qa: Direct questions seeking specific answers"
  +:+ nl +:+ "- summary: Requests for overviews, summaries, or explanations of topics"
  +:+ nl +:+ "- comparison: Requests to compare, contrast, or analyze differences"
  +:+ nl +:+ nl +:+ "Respond with only the category name.".

(** [AGENT_MAP], each agent class given by its prompt. *)
Definition AGENT_MAP : list (string * string) :=
  [("qa", QA_PROMPT); ("summary", SUMMARY_PROMPT); ("comparison", COMPARISON_PROMPT)].

(** [str.lower()] on one character (code points below 256). *)
Definition lower_char (c : ascii) : ascii :=
  let n := N_of_ascii c in
  if (((65 <=? n) && (n <=? 90)) || ((192 <=? n) && (n <=? 214))
      || ((216 <=? n) && (n <=? 222)))%N
  then ascii_of_N (n + 32) else c.

Definition lower (s : string) : string :=
  string_of_list_ascii (map lower_char (list_ascii_of_string s)).

(** [str.strip()] on a string. *)
Definition str_strip (s : string) : string :=
  string_of_list_ascii (Chunker.strip (list_ascii_of_string s)).

(** What can leave the router: an attribute looked up on [None], or an
    exception of the runtime. *)
Inductive RouterExn :=
| AttributeError
| Propagated (e : Exn).

Section Routing.
Context {payload : Payload} {services : Services}.

Record AgentRouter := {
  router_client : option MCPClient;
  agents : gmap string BaseAgent
}.

(** [AgentRouter.__init__] *)
Definition new_router (mcp_client : option MCPClient) : AgentRouter :=
  {| router_client := mcp_client;
     agents := list_to_map (map (fun entry => (fst entry, new_agent (snd entry) mcp_client))
                                AGENT_MAP) |}.

Definition R (A : Type) : Type := Env -> (RouterExn + A) * Env.

Definition lift {A} (run : Outcome A * Env) : (RouterExn + A) * Env :=
  match run with
  | (Returned a, env) => (inr a, env)
  | (Raised e, env) => (inl (Propagated e), env)
  end.

Definition classify_messages (query : string) : list Message :=
  [RoleContent "system" CLASSIFY_PROMPT; RoleContent "user" query].

Definition _classify_intent (self : AgentRouter) (query : string) : R string :=
  fun env =>
    match chat (classify_messages query) None env with
    | (Raised e, env') => (inl (Propagated e), env')
    | (Returned [], env') => (inl (Propagated IndexError), env')
    | (Returned (message :: _), env') =>
        match content message with
        | None => (inl AttributeError, env')
        | Some text =>
            let intent := lower (str_strip text) in
            (inr (if bool_decide (intent ∈ map fst AGENT_MAP) then intent else "qa"),
             env')
        end
    end.

Definition route_async (self : AgentRouter) (query : string) : R (option string) :=
  fun env =>
    match _classify_intent self query env with
    | (inl e, env') => (inl e, env')
    | (inr agent_type, env') =>
        match agents self !! "qa" with
        | None => (inl (Propagated (KeyError "qa")), env')
        | Some fallback =>
            let agent := default fallback (agents self !! agent_type) in
            lift (process_async agent query env')
        end
    end.

End Routing.
End Router.

(* ===================================================================== *)
(** * src/main.py: parse_servers                                         *)
(* ===================================================================== *)
Module Cli.
Import Py Runtime Chunker.

(** [str.split()]: the maximal runs of non-whitespace characters;
    [word] holds the characters of the run being read, last one first. *)
Fixpoint split_from (t : text) (word : text) : list text :=
  match t with
  | [] => match word with [] => [] | _ => [reverse word] end
  | c :: t' =>
      if is_space c then
        match word with
        | [] => split_from t' []
        | _ => reverse word :: split_from t' []
        end
      else split_from t' (c :: word)
  end.

Definition split (t : text) : list text := split_from t [].

(** One element of the list [parse_servers] returns. *)
Record ServerSpec := {
  spec_name : string;
  spec_command : text;
  spec_args : list text
}.

(** [for i, cmd in enumerate(server_cmds): ...]; [parts[0]] raises
    [IndexError] on a command without a word. *)
Fixpoint parse_from (i : nat) (server_cmds : list text) (servers : list ServerSpec)
    : Outcome (list ServerSpec) :=
  match server_cmds with
  | [] => Returned servers
  | cmd :: rest =>
      match split cmd with
      | [] => Raised IndexError
      | command :: args =>
          parse_from (S i) rest
            (servers ++ [{| spec_name := "server_" +:+ pretty i;
                            spec_command := command;
                            spec_args := args |}])
      end
  end.

Definition parse_servers (server_cmds : list text) : Outcome (list ServerSpec) :=
  parse_from 0 server_cmds [].

End Cli.

(* ===================================================================== *)
(** * Properties                                                         *)
(* ===================================================================== *)
Module ChunkerFacts.
Import Py Chunker.

Lemma adjust_index_range len i : 0 <= len -> 0 <= adjust_index len i <= len.
Proof. unfold adjust_index; intros; destruct (i <? 0) eqn:E; lia. Qed.

Lemma py_slice_length {A} (t : list A) s e :
  py_len (py_slice t s e)
  = Z.max 0 (adjust_index (py_len t) e - adjust_index (py_len t) s).
Proof.
  unfold py_slice, py_len.
  pose proof (adjust_index_range (Z.of_nat (length t)) s ltac:(lia)).
  pose proof (adjust_index_range (Z.of_nat (length t)) e ltac:(lia)).
  rewrite length_take, length_drop. lia.
Qed.

Lemma slices_share_overlap (t : text) s e e' ov :
  ov <= py_len (py_slice t s e) ->
  ov <= py_len (py_slice t (e - ov) e') ->
  suffix_of_len ov (py_slice t s e) = take (Z.to_nat ov) (py_slice t (e - ov) e').
Proof.
  intros HA HB.
  destruct (Z.le_gt_cases ov 0) as [Hov|Hov].
  { unfold suffix_of_len. replace (Z.to_nat ov) with 0%nat by lia.
    rewrite Nat.sub_0_r, drop_all. reflexivity. }
  pose proof HA as HA'. pose proof HB as HB'.
  rewrite py_slice_length in HA', HB'.
  unfold suffix_of_len. 
  assert (Hlen : length (py_slice t s e)
                 = Z.to_nat (adjust_index (py_len t) e - adjust_index (py_len t) s)).
  { pose proof (py_slice_length t s e) as E. unfold py_len at 1 in E. lia. }
  rewrite Hlen. unfold py_slice.
  pose proof (adjust_index_range (py_len t) s ltac:(unfold py_len; lia)) as Hs.
  pose proof (adjust_index_range (py_len t) e ltac:(unfold py_len; lia)) as He.
  pose proof (adjust_index_range (py_len t) e' ltac:(unfold py_len; lia)) as He'.
  assert (Ha' : adjust_index (py_len t) (e - ov) = adjust_index (py_len t) e - ov).
  { assert (0 <= py_len t) by (unfold py_len; lia).
    revert HA' HB' Hs He He'. unfold adjust_index.
    destruct (e <? 0) eqn:E1, (e - ov <? 0) eqn:E2, (s <? 0), (e' <? 0); lia. }
  rewrite Ha' in *.
  set (a := adjust_index (py_len t) s) in *.
  set (b := adjust_index (py_len t) e) in *.
  set (b' := adjust_index (py_len t) e') in *.
  rewrite take_take, skipn_firstn_comm, drop_drop.
  f_equal; [lia | f_equal; lia].
Qed.

(** The loop only ever appends, and what it appends is chained. *)
Lemma split_loop_chained fuel self t : forall start acc chunks,
  split_loop fuel self t start acc = Some chunks ->
  exists new, chunks = acc ++ new /\ chained t (chunk_overlap self) start new.
Proof.
  induction fuel as [|fuel IH]; intros start acc chunks; simpl;
    destruct (start <? py_len t) eqn:Hlt; intros Hrun; try discriminate.
  - injection Hrun as <-. exists []. rewrite app_nil_r. split; [reflexivity|constructor].
  - apply IH in Hrun as (new & -> & Hch).
    eexists (_ :: new). rewrite <- app_assoc. split; [reflexivity|].
    constructor. exact Hch.
  - injection Hrun as <-. exists []. rewrite app_nil_r. split; [reflexivity|constructor].
Qed.

Lemma chained_overlap t ov s cs :
  chained t ov s cs ->
  forall (i : nat) c1 c2,
    cs !! i = Some c1 -> cs !! S i = Some c2 ->
    ov <= py_len c1 -> ov <= py_len c2 ->
    suffix_of_len ov c1 = take (Z.to_nat ov) c2.
Proof.
  induction 1 as [|s e cs Hch IH]; intros i c1 c2 H1 H2 L1 L2.
  - rewrite lookup_nil in H1. discriminate.
  - destruct i as [|i].
    + simpl in H1, H2. injection H1 as <-.
      inversion Hch as [|s' e' cs' Hch' Es Ecs]; subst; simpl in H2; [discriminate|].
      injection H2 as <-. apply slices_share_overlap; assumption.
    + simpl in H1, H2. eapply IH; eassumption.
Qed.

Lemma suffix_take_aligned ov (c1 c2 : text) :
  suffix_of_len ov c1 = take (Z.to_nat ov) c2 -> overlap_aligned ov c1 c2.
Proof.
  unfold overlap_aligned. intros ->. exists (drop (Z.to_nat ov) c2).
  symmetry. apply take_drop.
Qed.

(** Once an iteration ends on the cursor it started from, every later
    iteration repeats it: no amount of fuel lets the loop return. *)
Lemma split_loop_stuck self t start :
  start < py_len t ->
  segment_end self t start - chunk_overlap self = start ->
  forall fuel chunks, split_loop fuel self t start chunks = None.
Proof.
  intros Hlt Hfix. induction fuel as [|fuel IH]; intros chunks; simpl;
    (destruct (start <? py_len t) eqn:E; [|lia]).
  - reflexivity.
  - rewrite Hfix. apply IH.
Qed.

(** An iteration moves the cursor by at least [2 - overlap] after a break
    point and by [chunk_size - overlap] otherwise. *)
Lemma segment_end_lower_bound self t start :
  2 <= chunk_size self ->
  start + 2 <= segment_end self t start.
Proof.
  intros Hcs. unfold segment_end.
  destruct (start + chunk_size self <? py_len t); [|lia].
  match goal with |- context [if start <? ?bp then _ else _] =>
    destruct (Z.ltb_spec start bp) end; lia.
Qed.

Lemma split_loop_returns self t :
  2 <= chunk_size self -> chunk_overlap self <= 1 ->
  forall fuel start chunks,
    py_len t - start <= Z.of_nat fuel ->
    exists chunks', split_loop fuel self t start chunks = Some chunks'.
Proof.
  intros Hcs Hov. induction fuel as [|fuel IH]; intros start chunks Hfuel; simpl;
    destruct (Z.ltb_spec start (py_len t)); eauto; [lia|].
  apply IH. pose proof (segment_end_lower_bound self t start Hcs). lia.
Qed.

(** With an overlap of at most one character the split returns, the
    length of the text being fuel enough. *)
Lemma split_text_returns_small_overlap self t :
  2 <= chunk_size self -> chunk_overlap self <= 1 ->
  exists chunks, _split_text (length t) self t = Some chunks.
Proof.
  intros Hcs Hov. unfold _split_text. destruct (_ <=? _); [eauto|].
  apply split_loop_returns; [done..|]. unfold py_len. lia.
Qed.

Lemma split_loop_unfold fuel self t start chunks :
  start < py_len t ->
  split_loop (S fuel) self t start chunks
  = split_loop fuel self t (segment_end self t start - chunk_overlap self)
               (chunks ++ [py_slice t start (segment_end self t start)]).
Proof. intros Hlt. simpl. destruct (start <? py_len t) eqn:E; [reflexivity|lia]. Qed.

(** Worked runs. *)
Example split_short :
  _split_text 0 default_extractor (lit "Hello world.") = Some [lit "Hello world."].
Proof. reflexivity. Qed.

Example split_blank : _split_text 0 default_extractor (lit "   ") = Some [].
Proof. reflexivity. Qed.

Example split_sentences :
  _split_text 9 {| chunk_size := 20; chunk_overlap := 1 |}
              (lit "One two. Three four five six. Seven")
  = Some [lit "One two."; lit ". Three four five "; lit " six. Seven"].
Proof. vm_compute. reflexivity. Qed.

Example split_tail :
  _split_text 9 {| chunk_size := 3; chunk_overlap := 2 |} (lit "abcd")
  = Some [lit "abc"; lit "bcd"; lit "cd"; lit "d"].
Proof. reflexivity. Qed.

(** ** C1 *)

(** C1 (termination of the split for [chunk_size > 0] and
    [0 <= overlap < chunk_size]) does not hold of the code: on the text
    ["a bcdefgh"] with [chunk_size = 5] and [overlap = 2] the only break
    point of the first window is the space at index 1, so [end = 2] and the
    cursor is set to [2 - 2 = 0] again; the loop never leaves that state
    and no fuel makes the split return. *)
Theorem split_text_never_returns :
  let self := {| chunk_size := 5; chunk_overlap := 2 |} in
  (0 < chunk_size self /\ 0 <= chunk_overlap self < chunk_size self) /\
  segment_end self (lit "a bcdefgh") 0 - chunk_overlap self = 0 /\
  forall fuel, _split_text fuel self (lit "a bcdefgh") = None.
Proof.
  intros self. split; [simpl; lia|]. split; [reflexivity|].
  intros fuel. unfold _split_text.
  replace (py_len (lit "a bcdefgh") <=? chunk_size self) with false by reflexivity.
  apply split_loop_stuck; [reflexivity | reflexivity].
Qed.

(** The same defect under prose and under the default configuration. *)
Example split_prose_never_returns fuel :
  _split_text fuel {| chunk_size := 10; chunk_overlap := 3 |}
              (lit "Hello world. This is a test. And more text here") = None.
Proof.
  unfold _split_text.
  match goal with |- (if ?b then _ else _) = _ => replace b with false by reflexivity end.
  destruct fuel as [|[|fuel]]; [reflexivity..|].
  rewrite !split_loop_unfold by (vm_compute; reflexivity).
  apply split_loop_stuck; vm_compute; reflexivity.
Qed.

Example split_default_never_returns fuel :
  _split_text fuel default_extractor (lit "Hi. " ++ repeat "a"%char 1200) = None.
Proof.
  unfold _split_text.
  match goal with |- (if ?b then _ else _) = _ => replace b with false by (vm_compute; reflexivity) end.
  destruct fuel as [|[|fuel]]; [vm_compute; reflexivity..|].
  rewrite !split_loop_unfold by (vm_compute; reflexivity).
  apply split_loop_stuck; vm_compute; reflexivity.
Qed.

(** ** C5 *)

(** C5 as stated (every pair of consecutive chunks is aligned on the last
    [overlap] characters of the first) fails: with [chunk_size = 3] and
    [overlap = 2] the text ["abcd"] is cut into ["abc"; "bcd"; "cd"; "d"],
    and the last two characters of ["cd"] are no prefix of ["d"]. *)
Lemma overlap_fails_on_short_tail :
  ~ (forall fuel self t chunks (i : nat) c1 c2,
        0 < chunk_size self -> 0 <= chunk_overlap self < chunk_size self ->
        _split_text fuel self t = Some chunks ->
        chunks !! i = Some c1 -> chunks !! S i = Some c2 ->
        overlap_aligned (chunk_overlap self) c1 c2).
Proof.
  intros H.
  specialize (H 9%nat {| chunk_size := 3; chunk_overlap := 2 |} (lit "abcd")
                _ 2%nat (lit "cd") (lit "d")
                ltac:(simpl; lia) ltac:(simpl; lia) eq_refl eq_refl eq_refl).
  destruct H as [k Hk]. discriminate Hk.
Qed.

(** C5, amended: for [chunk_size > 0] and [0 <= overlap < chunk_size], two
    consecutive chunks of one split (before trimming) that both have at
    least [overlap] characters agree on them: the last [overlap]
    characters of the first are the first [overlap] characters of the
    second. *)
Theorem consecutive_chunks_overlap fuel self t chunks (i : nat) c1 c2 :
  0 < chunk_size self -> 0 <= chunk_overlap self < chunk_size self ->
  _split_text fuel self t = Some chunks ->
  chunks !! i = Some c1 -> chunks !! S i = Some c2 ->
  chunk_overlap self <= py_len c1 -> chunk_overlap self <= py_len c2 ->
  suffix_of_len (chunk_overlap self) c1 = take (Z.to_nat (chunk_overlap self)) c2
  /\ overlap_aligned (chunk_overlap self) c1 c2.
Proof.
  intros _ _ Hrun H1 H2 L1 L2.
  assert (E : suffix_of_len (chunk_overlap self) c1
              = take (Z.to_nat (chunk_overlap self)) c2).
  { unfold _split_text in Hrun.
    destruct (py_len t <=? chunk_size self).
    - injection Hrun as <-. destruct (truthy (strip t)); simpl in H2; discriminate.
    - apply split_loop_chained in Hrun as (new & -> & Hch). simpl in H1, H2.
      eapply chained_overlap; eassumption. }
  split; [exact E | apply suffix_take_aligned, E].
Qed.

Lemma consecutive_chunks_overlap_witness :
  suffix_of_len 2 (lit "abc") = take 2 (lit "bcd")
  /\ overlap_aligned 2 (lit "abc") (lit "bcd").
Proof.
  apply (consecutive_chunks_overlap 9 {| chunk_size := 3; chunk_overlap := 2 |}
           (lit "abcd") [lit "abc"; lit "bcd"; lit "cd"; lit "d"] 0).
  all: first [reflexivity | cbn; lia | vm_compute; discriminate].
Defined.

End ChunkerFacts.

Module RuntimeFacts.
Import Py Runtime.
Local Open Scope py_scope.

Section Frames.
Context {payload : Payload} {services : Services}.

Lemma appended_nil env : appended env [] = env.
Proof. destruct env; unfold appended; simpl. by rewrite app_nil_r. Qed.

Lemma appended_app env evs1 evs2 :
  appended (appended env evs1) evs2 = appended env (evs1 ++ evs2).
Proof. unfold appended; simpl. by rewrite app_assoc. Qed.

Lemma collection_appended env evs : collection (appended env evs) = collection env.
Proof. reflexivity. Qed.

Lemma log_appended env evs : log (appended env evs) = log env ++ evs.
Proof. reflexivity. Qed.

Lemma chat_requests_app (l1 l2 : list Event) :
  chat_requests (l1 ++ l2) = (chat_requests l1 + chat_requests l2)%nat.
Proof. unfold chat_requests. by rewrite List.filter_app, length_app. Qed.

Lemma chat_requests_none (P : Event -> bool) (evs : list Event) :
  (forall ev, P ev = true -> is_chat ev = false) ->
  forallb P evs = true -> chat_requests evs = 0%nat.
Proof.
  intros HP. unfold chat_requests. induction evs as [|ev evs IH]; simpl; [done|].
  intros [Hev Hevs]%andb_prop. rewrite (HP _ Hev). by apply IH.
Qed.

Lemma only_emits_ret {A} P (a : A) : only_emits P (ret a).
Proof. intros env. exists []. by rewrite appended_nil. Qed.

Lemma only_emits_raise {A} P e : only_emits P (@raise _ A e).
Proof. intros env. exists []. by rewrite appended_nil. Qed.

Lemma only_emits_bind {A B} P (c : M A) (k : A -> M B) :
  only_emits P c -> (forall a, only_emits P (k a)) -> only_emits P (bind c k).
Proof.
  intros Hc Hk env. unfold bind. destruct (Hc env) as (evs1 & E1 & F1).
  destruct (c env) as [[a|e] env1]; simpl in E1; subst env1.
  - destruct (Hk a (appended env evs1)) as (evs2 & E2 & F2).
    exists (evs1 ++ evs2). rewrite E2, appended_app, forallb_app, F1, F2. done.
  - exists evs1. done.
Qed.

Lemma only_emits_emit P ev : P ev = true -> only_emits P (emit ev).
Proof. intros HP env. exists [ev]. simpl. by rewrite HP. Qed.

Lemma only_emits_chat P messages tools :
  P (ChatCreate messages tools) = true -> only_emits P (chat messages tools).
Proof.
  intros HP env. exists [ChatCreate messages tools]. unfold chat.
  destruct (chat_create _ _ _); simpl; by rewrite HP.
Qed.

Lemma only_emits_first_choice P choices : only_emits P (first_choice choices).
Proof. destruct choices; [apply only_emits_raise | apply only_emits_ret]. Qed.

(** What a computation that only emits does to the environment. *)
Lemma only_emits_run {A} P (c : M A) env o env' :
  only_emits P c -> c env = (o, env') ->
  exists evs, env' = appended env evs /\ forallb P evs = true.
Proof. intros Hc E. destruct (Hc env) as (evs & E1 & F). rewrite E in E1. eauto. Qed.

End Frames.
End RuntimeFacts.

Module EmbeddingsFacts.
Import Py Runtime RuntimeFacts Embeddings.
Local Open Scope py_scope.

Section Engine.
Context {payload : Payload} {services : Services}.

Lemma only_emits_create input : only_emits is_retrieval (create input).
Proof.
  intros env. exists [EmbeddingsCreate input]. unfold create.
  destruct (embeddings_create _ _); done.
Qed.

Lemma only_emits_report cb num den : only_emits is_retrieval (report cb num den).
Proof. destruct cb; [by apply only_emits_emit | apply only_emits_ret]. Qed.

Lemma only_emits_embed_text text : only_emits is_retrieval (embed_text text).
Proof.
  apply only_emits_bind; [apply only_emits_create|].
  intros [|d ?]; [apply only_emits_raise | apply only_emits_ret].
Qed.

Lemma only_emits_embed_batches starts texts total cb : forall acc,
  only_emits is_retrieval (embed_batches starts texts total cb acc).
Proof.
  induction starts as [|i rest IH]; intros acc; simpl; [apply only_emits_ret|].
  apply only_emits_bind; [apply only_emits_create|]. intros data.
  apply only_emits_bind; [apply only_emits_report|]. intros _. apply IH.
Qed.

Lemma only_emits_embed_texts texts cb : only_emits is_retrieval (embed_texts texts cb).
Proof.
  unfold embed_texts. destruct texts as [|t texts]; [apply only_emits_ret|].
  destruct (_ <=? _).
  - apply only_emits_bind; [apply only_emits_create|]. intros data.
    apply only_emits_bind; [apply only_emits_report|]. intros _. apply only_emits_ret.
  - apply only_emits_embed_batches.
Qed.

(** ** C6 *)

(** C6: for the empty input sequence [embed_texts] returns the empty
    sequence at once; the environment, and with it the log of calls to the
    embedding service, is the one it started from. *)
Theorem embed_texts_empty (progress_callback : bool) (env : Env) :
  embed_texts [] progress_callback env = (Returned [], env)
  /\ List.filter is_embedding_call (log (snd (embed_texts [] progress_callback env)))
     = List.filter is_embedding_call (log env).
Proof. split; reflexivity. Qed.

End Engine.

(** A non-empty input does reach the service. *)
Example embed_texts_two :
  embed_texts (services := Stub.services Stub.embed_by_length (Stub.answers "ok"))
              ["ab"; "cde"] true Stub.empty_env
  = (Returned [[2]; [3]],
     {| collection := [];
        log := [EmbeddingsCreate (Batch ["ab"; "cde"]); Progress 1 1] |}).
Proof. reflexivity. Qed.

End EmbeddingsFacts.

Module VectorStoreFacts.
Import Py Runtime RuntimeFacts Embeddings EmbeddingsFacts VectorStore.
Local Open Scope py_scope.

Section Store.
Context {payload : Payload} {services : Services}.

Lemma only_emits_query_collection q k : only_emits is_retrieval (query_collection q k).
Proof.
  intros env. exists [CollectionQuery q k]. unfold query_collection.
  destruct (collection_query _ _ _); done.
Qed.

Lemma only_emits_search self query top_k :
  only_emits is_retrieval (search self query top_k).
Proof.
  apply only_emits_bind; [apply only_emits_embed_text|]. intros emb.
  apply only_emits_bind; [apply only_emits_query_collection|]. intros res.
  apply only_emits_ret.
Qed.

(** ** C4 *)

Lemma elem_of_collect_sources metadatas : forall (sources : gset MetaValue) v,
  v ∈ collect_sources metadatas sources
  <-> v ∈ sources \/ exists m, Some m ∈ metadatas /\ m !! "source_file" = Some v.
Proof.
  induction metadatas as [|metadata rest IH]; intros sources v; simpl.
  - split; [auto|]. intros [?|(m & Hm & _)]; [done|]. by apply elem_of_nil in Hm.
  - destruct metadata as [m|]; [destruct (m !! "source_file") as [w|] eqn:Hw|];
      rewrite IH; split.
    + intros [[->%elem_of_singleton|?]%elem_of_union|(m' & Hm' & Hv)].
      * right. exists m. split; [left|done].
      * by left.
      * right. exists m'. split; [by right|done].
    + intros [?|(m' & Hm' & Hv)]; [left; apply elem_of_union; by right|].
      apply elem_of_cons in Hm' as [Hm'|Hm'].
      * injection Hm' as ->. left. rewrite Hw in Hv. injection Hv as ->.
        apply elem_of_union; left. by apply elem_of_singleton.
      * right. eauto.
    + intros [?|(m' & Hm' & Hv)]; [by left|]. right. exists m'. split; [by right|done].
    + intros [?|(m' & Hm' & Hv)]; [by left|].
      apply elem_of_cons in Hm' as [Hm'|Hm'].
      * injection Hm' as ->. congruence.
      * right. eauto.
    + intros [?|(m' & Hm' & Hv)]; [by left|]. right. exists m'. split; [by right|done].
    + intros [?|(m' & Hm' & Hv)]; [by left|].
      apply elem_of_cons in Hm' as [Hm'|Hm']; [discriminate|]. right. eauto.
Qed.

Lemma filter_filter_same {A} (p : A -> bool) (l : list A) :
  List.filter p (List.filter p l) = List.filter p l.
Proof.
  induction l as [|x l IH]; simpl; [done|].
  destruct (p x) eqn:E; simpl; [rewrite E; by f_equal | done].
Qed.

Lemma filter_all {A} (p : A -> bool) (l : list A) :
  (forall x, x ∈ l -> p x = true) -> List.filter p l = l.
Proof.
  induction l as [|x l IH]; simpl; intros Hall; [done|].
  rewrite (Hall x) by left. f_equal. apply IH. intros y Hy. apply Hall. by right.
Qed.

Lemma elem_of_filter {A} (p : A -> bool) (l : list A) x :
  x ∈ List.filter p l <-> x ∈ l /\ p x = true.
Proof. rewrite !list_elem_of_In. apply List.filter_In. Qed.

(** C4: [delete_document f] returns normally; afterwards [list_documents]
    does not contain [f], no result of a [search] run while the collection
    stays as the deletion left it carries [f] as its [source_file] (the
    store answering with entries it holds), the entries of the other
    source files are the same, in the same order, no entry of [f] is left,
    and when no entry matched nothing changed. *)
Theorem delete_document_removes (self : VectorStore) (f : string) (env : Env) :
  query_sound ->
  let env' := snd (delete_document self f env) in
  let other := fun e => negb (metadata_has "source_file" (inl f) e) in
  fst (delete_document self f env) = Returned tt
  /\ (exists docs, list_documents self env' = (Returned docs, env') /\ inl f ∉ docs)
  /\ (forall later q k res env'',
        collection later = collection env' ->
        search self q k later = (Returned res, env'') ->
        forall r m, r ∈ res -> result_metadata r = Some m ->
                    m !! "source_file" <> Some (inl f))
  /\ List.filter other (collection env') = List.filter other (collection env)
  /\ (forall e, e ∈ collection env' -> metadata_has "source_file" (inl f) e = false)
  /\ ((forall e, e ∈ collection env -> metadata_has "source_file" (inl f) e = false) ->
      delete_document self f env = (Returned tt, env)).
Proof.
  intros Hsound env' other.
  assert (Hgone : forall e, e ∈ collection env' ->
                            metadata_has "source_file" (inl f) e = false).
  { intros e [_ He]%elem_of_filter. by apply negb_true_iff in He. }
  split; [reflexivity|]. split; [|split; [|split; [|split]]].
  - eexists. split; [reflexivity|].
    rewrite elem_of_elements, elem_of_collect_sources.
    intros [?|(m & Hm & Hf)]; [set_solver|].
    apply list_elem_of_fmap in Hm as (e & Hmeta & He).
    specialize (Hgone e He). unfold metadata_has in Hgone.
    rewrite <- Hmeta in Hgone. by rewrite bool_decide_eq_false in Hgone.
  - intros later q k res env'' Hsame Hrun r m Hr Hmeta Hf.
    unfold search, bind in Hrun.
    destruct (embed_text q later) as [[emb|e] env1] eqn:Hemb; [|discriminate].
    destruct (only_emits_run _ _ _ _ _ (only_emits_embed_text _) Hemb) as (evs & -> & _).
    unfold query_collection in Hrun.
    destruct (collection_query _ emb _) as [e|results] eqn:Hq; [discriminate|].
    injection Hrun as <- _.
    apply list_elem_of_fmap in Hr as (p & -> & Hp). simpl in Hmeta.
    specialize (Hsound _ _ _ _ Hq p Hp). rewrite collection_appended, Hsame in Hsound.
    specialize (Hgone _ Hsound). unfold metadata_has in Hgone.
    rewrite Hmeta in Hgone. by rewrite bool_decide_eq_false in Hgone.
  - apply filter_filter_same.
  - exact Hgone.
  - intros Hnone. unfold delete_document, collection_delete.
    rewrite filter_all; [by destruct env|].
    intros e He. by rewrite (Hnone e He).
Qed.

(** ** C8 *)

(** C8: when the embedding step of [add_chunks] raises, [add_chunks]
    raises the same exception and the collection is the one it started
    with: the embeddings are computed before the collection is written. *)
Theorem add_chunks_embedding_failure (self : VectorStore) (chunks : list TextChunk)
    (progress_callback : bool) (env env' : Env) (e : Exn) :
  embed_texts (map text chunks) progress_callback env = (Raised e, env') ->
  add_chunks self chunks progress_callback env = (Raised e, env')
  /\ collection env' = collection env.
Proof.
  intros Hfail. split.
  - destruct chunks as [|c chunks]; [discriminate Hfail|].
    unfold add_chunks, bind. by rewrite Hfail.
  - destruct (only_emits_run _ _ _ _ _ (only_emits_embed_texts _ _) Hfail)
      as (evs & -> & _). reflexivity.
Qed.

(** ** C10 *)

(** C10: [search] with [top_k = 0], like [search] with [top_k] omitted,
    runs with the configured default: the three calls are the same
    computation, and the query sent to the collection asks for
    [self.top_k] results. *)
Theorem search_zero_top_k (self : VectorStore) (query : string) (env : Env) :
  search self query (Some 0) env = search self query None env
  /\ search self query None env = search self query (Some (top_k self)) env
  /\ match embed_text query env with
     | (Returned emb, env1) =>
         snd (search self query (Some 0) env)
         = appended env1 [CollectionQuery emb (top_k self)]
     | (Raised e, env1) => search self query (Some 0) env = (Raised e, env1)
     end.
Proof.
  split; [reflexivity|]. split.
  - unfold search. simpl. destruct (top_k self =? 0) eqn:E; [|reflexivity].
    apply Z.eqb_eq in E. by rewrite E.
  - unfold search, bind. simpl. destruct (embed_text query env) as [[emb|e] env1]; [|done].
    unfold query_collection. destruct (collection_query _ _ _); reflexivity.
Qed.

End Store.

(** The stub store answers with entries it holds. *)
Lemma first_k_sound embed complete :
  query_sound (services := Stub.services embed complete).
Proof.
  intros es q k res [= <-] r (e & -> & He)%list_elem_of_fmap. simpl.
  by eapply subseteq_take.
Qed.

Lemma delete_document_removes_witness :
  let s := Stub.services Stub.embed_by_length (Stub.answers "ok") in
  let self := {| top_k := 5 |} in
  let env' := snd (delete_document self "a.pdf" Stub.two_files) in
  fst (delete_document self "a.pdf" Stub.two_files) = Returned tt
  /\ fst (list_documents self env') = Returned [inl "b.pdf"]
  /\ map entry_document (collection env') = ["beta"]
  /\ (forall q k res env'',
        search (services := s) self q k env' = (Returned res, env'') ->
        forall r m, r ∈ res -> result_metadata r = Some m ->
                    m !! "source_file" <> Some (inl "a.pdf"))
  /\ map result_text
         (match fst (search (services := s) self "alpha" (Some 1) env') with
          | Returned rs => rs
          | Raised _ => []
          end) = ["beta"].
Proof.
  intros s self env'.
  destruct (delete_document_removes (services := s) self "a.pdf" Stub.two_files
              (first_k_sound _ _)) as (Hret & _ & Hsearch & _).
  split; [exact Hret|]. split; [vm_compute; reflexivity|].
  split; [vm_compute; reflexivity|].
  split; [exact (fun q k res env'' => Hsearch env' q k res env'' eq_refl)
         | vm_compute; reflexivity].
Defined.

Example search_zero_uses_default :
  let s := Stub.services Stub.embed_by_length (Stub.answers "ok") in
  map result_text
      (match fst (search (services := s) {| top_k := 2 |} "q" (Some 0) Stub.two_files) with
       | Returned rs => rs
       | Raised _ => []
       end)
  = ["alpha"; "beta"].
Proof. vm_compute. reflexivity. Qed.

Lemma add_chunks_embedding_failure_witness :
  let s := Stub.services (Stub.embed_first 1) (Stub.answers "ok") in
  let run := add_chunks (services := s) {| top_k := 5 |}
                        (Stub.page_chunks "c.pdf" 51) false Stub.two_files in
  fst run = Raised (ServiceError "rate limit")
  /\ collection (snd run) = collection Stub.two_files.
Proof.
  intros s run.
  destruct (add_chunks_embedding_failure (services := s) {| top_k := 5 |}
              (Stub.page_chunks "c.pdf" 51) false Stub.two_files
              (snd (embed_texts (services := s)
                      (map text (Stub.page_chunks "c.pdf" 51)) false Stub.two_files))
              (ServiceError "rate limit") ltac:(vm_compute; reflexivity))
    as [Hrun Hcoll].
  split; [unfold run; rewrite Hrun; reflexivity|].
  unfold run; rewrite Hrun. exact Hcoll.
Defined.

End VectorStoreFacts.

Module RAGFacts.
Import Py Runtime RuntimeFacts VectorStore VectorStoreFacts RAG.
Local Open Scope py_scope.

Section Pipeline.
Context {payload : Payload} {services : Services}.

(** ** C7 *)

(** C7: when the search behind [query] returns no result, [query] returns
    the fixed message, in the environment the search left, and the log
    holds no completion request the search did not find there. *)
Theorem query_without_results (self : RAGPipeline) (question : string)
    (top_k : option Z) (env env' : Env) :
  search (vector_store self) question top_k env = (Returned [], env') ->
  query self question top_k env = (Returned NO_RESULTS, env')
  /\ List.filter is_chat (log env') = List.filter is_chat (log env).
Proof.
  intros Hsearch. split.
  - unfold query, bind. by rewrite Hsearch.
  - destruct (only_emits_run _ _ _ _ _ (only_emits_search _ _ _) Hsearch)
      as (evs & -> & Hevs).
    rewrite log_appended, List.filter_app.
    assert (E : List.filter is_chat evs = []).
    { clear -Hevs. induction evs as [|ev evs IH]; simpl in *; [done|].
      apply andb_prop in Hevs as [Hev Hevs]. destruct ev; try discriminate; by apply IH. }
    by rewrite E, app_nil_r.
Qed.

End Pipeline.

Lemma query_without_results_witness :
  let s := Stub.services Stub.embed_by_length (Stub.answers "ok") in
  let self := {| vector_store := {| top_k := 5 |} |} in
  fst (query (services := s) self "What is a chunk?" None Stub.empty_env)
  = Returned "No relevant documents found to answer your question."
  /\ log (snd (query (services := s) self "What is a chunk?" None Stub.empty_env))
     = [EmbeddingsCreate (payload := Stub.payload) (OneText "What is a chunk?");
        CollectionQuery (payload := Stub.payload) [16] 5].
Proof.
  intros s self.
  destruct (query_without_results (services := s) self "What is a chunk?" None
              Stub.empty_env
              {| collection := [];
                 log := [EmbeddingsCreate (payload := Stub.payload)
                           (OneText "What is a chunk?");
                         CollectionQuery (payload := Stub.payload) [16] 5] |}
              eq_refl) as [Hrun _].
  rewrite Hrun. split; reflexivity.
Defined.

(** With results, one completion request is issued and its answer cited. *)
Example query_with_results :
  let s := Stub.services Stub.embed_by_length (Stub.answers "Chunks overlap.") in
  let run := query (services := s) {| vector_store := {| top_k := 1 |} |}
                   "q" None Stub.two_files in
  fst run = Returned ("Chunks overlap." +:+ nl +:+ nl +:+ "**Sources:** a.pdf (Page 1)")
  /\ chat_requests (log (snd run)) = 1%nat.
Proof. vm_compute. split; reflexivity. Qed.

End RAGFacts.

Module AgentsFacts.
Import Py Runtime RuntimeFacts MCP Agents.
Local Open Scope py_scope.

Section Agent.
Context {payload : Payload} {services : Services}.

Lemma invoke_returns session tool_name arguments env :
  exists result,
    invoke session tool_name arguments env
    = (Returned result, appended env [SessionCallTool session tool_name arguments]).
Proof. unfold invoke. destruct (session_call_tool _ _ _ _); eauto. Qed.

(** [call_tool] never raises and issues tool invocations only. *)
Lemma call_tool_in_returns sessions tools tool_name arguments env :
  exists result evs,
    call_tool_in sessions tools tool_name arguments env
    = (Returned result, appended env evs)
    /\ forallb is_tool_dispatch evs = true.
Proof.
  induction tools as [|tool rest IH]; simpl.
  - eexists _, []. by rewrite appended_nil.
  - destruct (String.eqb _ _); [|exact IH].
    destruct (sessions !! _) as [session|]; [|exact IH].
    destruct (invoke_returns session tool_name arguments env) as (result & ->).
    by exists result, [SessionCallTool session tool_name arguments].
Qed.

(** One tool call that goes through: the arguments are decoded, both
    progress lines are rendered, and the result joins the conversation. *)
Lemma dispatch_cons_parsed client tc calls messages env v result env1 :
  json_loads (function_arguments tc) = Some v ->
  recursion_error (function_arguments tc) = false ->
  name_renders tc ->
  call_tool client (function_name tc) v env = (Returned result, env1) ->
  markup_error (result_line result) = None ->
  dispatch client (tc :: calls) messages env
  = dispatch client calls (messages ++ [ToolResult (call_id tc) result]) env1.
Proof.
  intros Hv Hdeep Hname Hcall Hres. cbn [dispatch]. unfold bind at 1, loads.
  rewrite Hv, Hdeep. unfold ret at 1. unfold bind at 1, console_print.
  rewrite Hname. unfold ret at 1. unfold bind at 1. rewrite Hcall.
  unfold bind at 1, console_print. by rewrite Hres.
Qed.

Lemma dispatch_cons_malformed client tc calls messages env :
  json_loads (function_arguments tc) = None ->
  dispatch client (tc :: calls) messages env = (Raised JSONDecodeError, env).
Proof. intros Hv. cbn [dispatch]. unfold bind at 1, loads. by rewrite Hv. Qed.

Lemma dispatch_cons_too_deep client tc calls messages env v :
  json_loads (function_arguments tc) = Some v ->
  recursion_error (function_arguments tc) = true ->
  dispatch client (tc :: calls) messages env = (Raised RecursionError, env).
Proof.
  intros Hv Hdeep. cbn [dispatch]. unfold bind at 1, loads. by rewrite Hv, Hdeep.
Qed.

(** A tool name the console cannot render stops the loop before the tool
    is invoked. *)
Lemma dispatch_cons_unrendered_name client tc calls messages env v msg :
  json_loads (function_arguments tc) = Some v ->
  recursion_error (function_arguments tc) = false ->
  markup_error (calling_line (function_name tc)) = Some msg ->
  dispatch client (tc :: calls) messages env = (Raised (MarkupError msg), env).
Proof.
  intros Hv Hdeep Hname. cbn [dispatch]. unfold bind at 1, loads.
  rewrite Hv, Hdeep. unfold ret at 1. unfold bind at 1, console_print.
  by rewrite Hname.
Qed.

Lemma dispatch_cons_unrendered_result client tc calls messages env v result env1 msg :
  json_loads (function_arguments tc) = Some v ->
  recursion_error (function_arguments tc) = false ->
  name_renders tc ->
  call_tool client (function_name tc) v env = (Returned result, env1) ->
  markup_error (result_line result) = Some msg ->
  dispatch client (tc :: calls) messages env = (Raised (MarkupError msg), env1).
Proof.
  intros Hv Hdeep Hname Hcall Hres. cbn [dispatch]. unfold bind at 1, loads.
  rewrite Hv, Hdeep. unfold ret at 1. unfold bind at 1, console_print.
  rewrite Hname. unfold ret at 1. unfold bind at 1. rewrite Hcall.
  unfold bind at 1, console_print. by rewrite Hres.
Qed.

(** What dispatching the tool calls of one reply does, whatever its
    outcome: tool invocations only, and the conversation extended. *)
Lemma dispatch_trace client : forall calls messages env,
  exists evs,
    snd (dispatch client calls messages env) = appended env evs
    /\ forallb is_tool_dispatch evs = true
    /\ match fst (dispatch client calls messages env) with
       | Returned messages' => messages `prefix_of` messages'
       | Raised _ => True
       end.
Proof.
  induction calls as [|tc calls IH]; intros messages env.
  - exists []. rewrite appended_nil. simpl. repeat split; reflexivity.
  - destruct (json_loads (function_arguments tc)) as [v|] eqn:Hv;
      [|rewrite (dispatch_cons_malformed _ _ _ _ _ Hv);
        exists []; by rewrite appended_nil].
    destruct (recursion_error (function_arguments tc)) eqn:Hdeep;
      [rewrite (dispatch_cons_too_deep _ _ _ _ _ _ Hv Hdeep);
       exists []; by rewrite appended_nil|].
    destruct (markup_error (calling_line (function_name tc))) as [msg|] eqn:Hname;
      [rewrite (dispatch_cons_unrendered_name _ _ _ _ _ _ _ Hv Hdeep Hname);
       exists []; by rewrite appended_nil|].
    destruct (call_tool_in_returns (sessions client) (tools client)
                (function_name tc) v env) as (result & evs1 & Hcall & F1).
    destruct (markup_error (result_line result)) as [msg|] eqn:Hres;
      [rewrite (dispatch_cons_unrendered_result _ _ _ _ _ _ _ _ _ Hv Hdeep Hname Hcall Hres);
       by exists evs1|].
    rewrite (dispatch_cons_parsed _ _ _ _ _ _ _ _ Hv Hdeep Hname Hcall Hres).
    destruct (IH (messages ++ [ToolResult (call_id tc) result]) (appended env evs1))
      as (evs2 & Hsnd & F2 & Hfst).
    exists (evs1 ++ evs2). rewrite Hsnd, appended_app, forallb_app, F1, F2.
    split; [done|]. split; [done|].
    destruct (fst (dispatch _ _ _ _)); [|done].
    etrans; [|exact Hfst]. by apply prefix_app_r.
Qed.

(** Tool calls whose arguments are decoded and whose progress lines are
    rendered are dispatched without raising. *)
Lemma dispatch_returns client calls :
  Forall (fun tc => loads_returns (function_arguments tc) /\ name_renders tc) calls ->
  results_render ->
  forall messages env,
  exists messages', fst (dispatch client calls messages env) = Returned messages'.
Proof.
  intros Hcalls Hres.
  induction Hcalls as [|tc calls [[[v Hv] Hdeep] Hname] _ IH]; intros messages env.
  - by exists messages.
  - destruct (call_tool_in_returns (sessions client) (tools client)
                (function_name tc) v env) as (result & evs1 & Hcall & _).
    rewrite (dispatch_cons_parsed _ _ _ _ _ _ _ _ Hv Hdeep Hname Hcall (Hres result)).
    apply IH.
Qed.

Lemma replies_app_tool_calls (evs1 : list Event) : forall base evs2,
  forallb is_tool_dispatch evs1 = true ->
  replies base (evs1 ++ evs2) = replies (base ++ evs1) evs2.
Proof.
  induction evs1 as [|ev evs1 IH]; intros base evs2; simpl.
  - by rewrite app_nil_r.
  - intros [Hev Hevs]%andb_prop. destruct ev; try discriminate.
    simpl. rewrite IH by done. by rewrite <- app_assoc.
Qed.

(** One iteration that dispatches tool calls. *)
Lemma iterate_dispatches n (self : BaseAgent) tools messages env m rest c cs client :
  chat_create (log env) messages (or_none tools) = inr (m :: rest) ->
  tool_calls m = Some (c :: cs) ->
  mcp_client self = Some client ->
  iterate (S n) self tools messages env
  = bind (dispatch client (c :: cs) (messages ++ [AssistantTurn m]))
         (iterate n self tools)
         (appended env [ChatCreate messages (or_none tools)]).
Proof.
  intros Hchat Hcalls Hclient. cbn [iterate]. unfold bind at 1, chat.
  rewrite Hchat. unfold bind at 1, first_choice, ret.
  rewrite Hcalls, Hclient. reflexivity.
Qed.

(** One iteration that returns the reply's content. *)
Lemma iterate_returns n (self : BaseAgent) tools messages env m rest :
  chat_create (log env) messages (or_none tools) = inr (m :: rest) ->
  tool_calls m = None \/ tool_calls m = Some [] \/ mcp_client self = None ->
  iterate (S n) self tools messages env
  = (Returned (content m), appended env [ChatCreate messages (or_none tools)]).
Proof.
  intros Hchat Hcase. cbn [iterate]. unfold bind at 1, chat.
  rewrite Hchat. unfold bind at 1, first_choice, ret.
  destruct Hcase as [->| [->| ->]]; [reflexivity..|].
  by destruct (tool_calls m) as [[|? ?]|].
Qed.

(** A run of [n] iterations against its own replies: if every reply the
    run received sends the loop into another iteration, the budget is
    used up and the fixed text is returned. *)
Lemma iterate_exhausts (self : BaseAgent) client tools :
  mcp_client self = Some client ->
  results_render ->
  forall n messages env,
  exists evs,
    snd (iterate n self tools messages env) = appended env evs
    /\ (Forall dispatches (replies (log env) evs) ->
        fst (iterate n self tools messages env) = Returned (Some MAX_ITERATIONS_REACHED)
        /\ chat_requests evs = n).
Proof.
  intros Hclient Hres. induction n as [|n IH]; intros messages env.
  { exists []. by rewrite appended_nil. }
  set (request := ChatCreate messages (or_none tools)).
  assert (Hstop : forall o,
    iterate (S n) self tools messages env = (o, appended env [request]) ->
    ~ dispatches (chat_create (log env) messages (or_none tools)) ->
    exists evs,
      snd (iterate (S n) self tools messages env) = appended env evs
      /\ (Forall dispatches (replies (log env) evs) ->
          fst (iterate (S n) self tools messages env)
          = Returned (Some MAX_ITERATIONS_REACHED)
          /\ chat_requests evs = S n)).
  { intros o Hrun Hnot. exists [request]. rewrite Hrun. split; [done|].
    simpl. intros Hall. apply Forall_cons in Hall as [Hhd _]. by destruct Hnot. }
  destruct (chat_create (log env) messages (or_none tools)) as [e|[|m rest]] eqn:Hchat.
  - apply (Hstop (Raised e)); [|by intros (? & ? & ? & _)].
    cbn [iterate]. unfold bind at 1, chat. by rewrite Hchat.
  - apply (Hstop (Raised IndexError)); [|by intros (? & ? & ? & _)].
    cbn [iterate]. unfold bind at 1, chat. by rewrite Hchat.
  - destruct (tool_calls m) as [[|c cs]|] eqn:Hcalls.
    + apply (Hstop (Returned (content m)));
        [apply (iterate_returns n self tools messages env m rest Hchat); auto|].
      intros (m' & rest' & [= <- <-] & (? & ? & ?) & _). congruence.
    + rewrite (iterate_dispatches _ _ _ _ _ _ _ _ _ _ Hchat Hcalls Hclient).
      fold request. unfold bind.
      destruct (dispatch_trace client (c :: cs) (messages ++ [AssistantTurn m])
                  (appended env [request])) as (evs1 & Hsnd1 & F1 & _).
      assert (Hreplies : forall evs2,
                replies (log env) ([request] ++ evs1 ++ evs2)
                = inr (m :: rest) :: replies (log (appended (appended env [request]) evs1)) evs2).
      { intros evs2. simpl. rewrite Hchat, replies_app_tool_calls by done.
        by rewrite <- app_assoc. }
      destruct (dispatch client (c :: cs) (messages ++ [AssistantTurn m])
                  (appended env [request])) as [[messages'|e] env1] eqn:Hrun;
        simpl in Hsnd1; subst env1.
      * destruct (IH messages' (appended (appended env [request]) evs1))
          as (evs2 & Hsnd2 & Hgo).
        exists ([request] ++ evs1 ++ evs2).
        split; [by rewrite Hsnd2, !appended_app|].
        rewrite Hreplies. intros [_ Hall]%Forall_cons.
        destruct (Hgo Hall) as [Hfst Hn]. split; [done|].
        rewrite !chat_requests_app, Hn.
        rewrite (chat_requests_none is_tool_dispatch evs1); [done| |done].
        by intros [].
      * exists ([request] ++ evs1). split; [by rewrite appended_app|].
        pose proof (Hreplies []) as Hr. rewrite app_nil_r in Hr. rewrite Hr.
        intros [(m' & rest' & [= <- <-] & _ & Hparse & Hnames) _]%Forall_cons.
        destruct (dispatch_returns client (c :: cs)) with
          (messages := messages ++ [AssistantTurn m]) (env := appended env [request])
          as (messages' & Hok); [|done|].
        { specialize (Hparse _ Hcalls). specialize (Hnames _ Hcalls).
          apply Forall_forall. intros tc Htc. split.
          - by apply (proj1 (Forall_forall _ _) Hparse).
          - by apply (proj1 (Forall_forall _ _) Hnames). }
        rewrite Hrun in Hok. discriminate Hok.
    + apply (Hstop (Returned (content m)));
        [apply (iterate_returns n self tools messages env m rest Hchat); auto|].
      intros (m' & rest' & [= <- <-] & (? & ? & ?) & _). congruence.
Qed.

(** ** C2 *)

(** C2 (a tool call whose arguments do not parse is answered with a
    tool-role error message and the loop goes on) does not hold of the
    code: with a tool provider attached, a first reply whose first tool
    call carries arguments [json.loads] rejects makes [process_async]
    raise [JSONDecodeError]; the only call issued is the completion
    request, no tool is invoked and no further request follows. *)
Theorem malformed_arguments_raise (self : BaseAgent) (client : MCPClient)
    (query : string) (env : Env) m rest tc tcs :
  mcp_client self = Some client ->
  0 < max_iterations self ->
  chat_create (log env) (initial_messages self query)
              (or_none (get_openai_tools client)) = inr (m :: rest) ->
  tool_calls m = Some (tc :: tcs) ->
  json_loads (function_arguments tc) = None ->
  process_async self query env
  = (Raised JSONDecodeError,
     appended env [ChatCreate (initial_messages self query)
                              (or_none (get_openai_tools client))]).
Proof.
  intros Hclient Hmax Hchat Hcalls Hbad. unfold process_async, offered_tools.
  rewrite Hclient.
  destruct (Z.to_nat (max_iterations self)) as [|n] eqn:En; [lia|].
  rewrite (iterate_dispatches _ _ _ _ _ _ _ _ _ _ Hchat Hcalls Hclient).
  unfold bind at 1. cbn [dispatch]. unfold bind at 1, loads. by rewrite Hbad.
Qed.

(** ** C3 *)

(** C3, amended: take a run of [process_async] with a tool provider
    attached, and the events [evs] it issued.  If every completion reply
    the run received has a first choice that asks for at least one tool
    call, with arguments [json.loads] decodes and tool names the console
    renders (the console renders the result lines, whose markup is
    fixed), then the run issued exactly [max_iterations] completion
    requests (none for a budget below one, ten for the default budget)
    and returned the fixed "Max iterations reached" text as a normal
    value. *)
Theorem loop_exhausts_budget (self : BaseAgent) (client : MCPClient)
    (query : string) (env : Env) (evs : list Event) :
  mcp_client self = Some client ->
  results_render ->
  snd (process_async self query env) = appended env evs ->
  Forall dispatches (replies (log env) evs) ->
  fst (process_async self query env) = Returned (Some MAX_ITERATIONS_REACHED)
  /\ Z.of_nat (chat_requests evs) = Z.max 0 (max_iterations self)
  /\ (max_iterations self = 10 -> chat_requests evs = 10%nat).
Proof.
  intros Hclient Hres Hsnd Hall. unfold process_async in *.
  destruct (iterate_exhausts self client (offered_tools self) Hclient Hres
              (Z.to_nat (max_iterations self)) (initial_messages self query) env)
    as (evs' & Hsnd' & Hgo).
  assert (evs' = evs) as ->.
  { rewrite Hsnd in Hsnd'. apply (f_equal log) in Hsnd'. simpl in Hsnd'.
    symmetry. by apply app_inv_head in Hsnd'. }
  destruct (Hgo Hall) as [Hfst Hn]. split; [exact Hfst|]. split; lia.
Qed.

(** ** C9 *)

(** C9: without a tool provider, and with a budget of at least one
    iteration, the loop returns the content of the first completion reply
    ([None] when the reply has no content), whether or not that reply
    asks for tool calls; the completion request, sent with no tools, is
    the only call issued, so no tool is dispatched. *)
Theorem no_provider_returns_first_content (self : BaseAgent) (query : string)
    (env : Env) m rest :
  mcp_client self = None ->
  0 < max_iterations self ->
  chat_create (log env) (initial_messages self query) None = inr (m :: rest) ->
  process_async self query env
  = (Returned (content m),
     appended env [ChatCreate (initial_messages self query) None])
  /\ (content m = None -> fst (process_async self query env) = Returned None)
  /\ List.filter is_tool_dispatch (log (snd (process_async self query env)))
     = List.filter is_tool_dispatch (log env).
Proof.
  intros Hclient Hmax Hchat.
  assert (E : process_async self query env
              = (Returned (content m),
                 appended env [ChatCreate (initial_messages self query) None])).
  { unfold process_async, offered_tools. rewrite Hclient.
    destruct (Z.to_nat (max_iterations self)) as [|n] eqn:En; [lia|].
    apply (iterate_returns n self [] _ env m rest Hchat). auto. }
  split; [exact E|]. rewrite E. split.
  - by intros ->.
  - simpl. by rewrite List.filter_app, app_nil_r.
Qed.

End Agent.

Lemma malformed_arguments_raise_witness :
  let s := Stub.services Stub.embed_by_length (Stub.always_calls "oops") in
  process_async (services := s) (new_agent "You are a precise Q&A agent." (Some Stub.client))
                "What is a chunk?" Stub.empty_env
  = (Raised JSONDecodeError,
     appended Stub.empty_env
       [ChatCreate (initial_messages (new_agent "You are a precise Q&A agent."
                                                (Some Stub.client))
                                     "What is a chunk?")
                   (or_none (get_openai_tools Stub.client))]).
Proof.
  intros s.
  apply (malformed_arguments_raise (services := s)
           (new_agent "You are a precise Q&A agent." (Some Stub.client))
           Stub.client "What is a chunk?" Stub.empty_env
           {| content := None; tool_calls := Some [Stub.search_call "oops"] |}
           [] (Stub.search_call "oops") []);
    first [reflexivity | cbn; lia].
Defined.

(** The stub that always asks for a tool call with well-formed arguments. *)
Lemma always_calls_requests_tools embed l messages offered :
  dispatches (services := Stub.services embed (Stub.always_calls "{}"))
    (chat_create (Services := Stub.services embed (Stub.always_calls "{}"))
                 l messages offered).
Proof.
  eexists _, _. split; [reflexivity|]. split; [|split].
  - by eexists _, _.
  - intros calls [= <-]. repeat constructor. by eexists.
  - intros calls [= <-]. by repeat constructor.
Qed.

(** C3 as stated (every run whose completion replies all ask for a tool
    call issues exactly [max_iterations] requests and returns the fixed
    text) fails: with no tool provider attached the agent of the default
    budget stops after the first request and returns that reply's content. *)
Lemma loop_without_provider_stops_early :
  ~ (forall (payload : Payload) (services : Services) (self : BaseAgent)
            (query : string) (env : Env),
        (forall l messages offered,
            exists m rest, chat_create l messages offered = inr (m :: rest)
                           /\ requests_tools m) ->
        exists evs,
          process_async self query env
          = (Returned (Some MAX_ITERATIONS_REACHED), appended env evs)
          /\ Z.of_nat (chat_requests evs) = max_iterations self).
Proof.
  intros H.
  destruct (H Stub.payload (Stub.services Stub.embed_by_length (Stub.always_calls "{}"))
              (new_agent "You are a precise Q&A agent." None) "q" Stub.empty_env)
    as (evs & Hrun & _).
  - intros l messages offered.
    destruct (always_calls_requests_tools Stub.embed_by_length l messages offered)
      as (m & rest & ? & ? & _). eauto.
  - discriminate Hrun.
Qed.

(** A service that asks for a tool in its first ten replies and would
    answer after that: the run sees the ten replies only. *)
Lemma loop_exhausts_budget_witness :
  let complete := fun (l : list Event) messages offered =>
    if (chat_requests l <? 10)%nat
    then Stub.always_calls "{}" l messages offered
    else Stub.answers "A chunk is a slice." l messages offered in
  let s := Stub.services Stub.embed_by_length complete in
  let run := process_async (services := s)
               (new_agent "You are a precise Q&A agent." (Some Stub.client))
               "What is a chunk?" Stub.empty_env in
  fst run = Returned (Some "Max iterations reached")
  /\ chat_requests (log (snd run)) = 10%nat.
Proof.
  intros complete s run.
  destruct (loop_exhausts_budget (services := s)
              (new_agent "You are a precise Q&A agent." (Some Stub.client))
              Stub.client "What is a chunk?" Stub.empty_env (log (snd run)))
    as (Hfst & _ & Hten).
  - reflexivity.
  - intros result. reflexivity.
  - vm_compute. reflexivity.
  - assert (E : replies (services := s) (log Stub.empty_env) (log (snd run))
                = repeat (Stub.always_calls "{}" [] [] None) 10)
      by (vm_compute; reflexivity).
    rewrite E. simpl.
    repeat (apply List.Forall_cons;
            [exact (always_calls_requests_tools Stub.embed_by_length [] [] None)|]).
    apply List.Forall_nil.
  - split; [exact Hfst | exact (Hten eq_refl)].
Defined.

Lemma no_provider_returns_first_content_witness :
  let s := Stub.services Stub.embed_by_length (Stub.always_calls "{}") in
  let self := new_agent "You are a precise Q&A agent." None in
  process_async (services := s) self "What is a chunk?" Stub.empty_env
  = (Returned None,
     appended Stub.empty_env [ChatCreate (initial_messages self "What is a chunk?") None]).
Proof.
  intros s self.
  apply (no_provider_returns_first_content (services := s) self "What is a chunk?"
           Stub.empty_env
           {| content := None; tool_calls := Some [Stub.search_call "{}"] |} []);
    first [reflexivity | cbn; lia].
Defined.

(** One tool call, then a final answer: two requests and one tool message. *)
Example loop_one_tool_then_answer :
  let complete := fun (l : list Event) messages offered =>
    if (chat_requests l =? 0)%nat
    then Stub.always_calls "{}" l messages offered
    else Stub.answers "A chunk is a slice." l messages offered in
  let run := process_async (services := Stub.services Stub.embed_by_length complete)
               (new_agent "p" (Some Stub.client)) "q" Stub.empty_env in
  fst run = Returned (Some "A chunk is a slice.")
  /\ chat_requests (log (snd run)) = 2%nat
  /\ length (List.filter is_tool_dispatch (log (snd run))) = 1%nat.
Proof. vm_compute. repeat split; reflexivity. Qed.

(** A reply that asks for a tool named [[/x]]: the announcement of the
    call cannot be rendered, and the run ends in [MarkupError] after the
    first request, before any tool is invoked. *)
Example loop_unrendered_tool_name :
  let complete := fun (_ : list Event) (_ : list Message) (_ : option (list ToolDecl)) =>
    inr [{| content := None;
            tool_calls := Some [{| call_id := "call_1"; function_name := "[/x]";
                                   function_arguments := "{}" |}] |}] in
  let run := process_async (services := Stub.services Stub.embed_by_length complete)
               (new_agent "p" (Some Stub.client)) "q" Stub.empty_env in
  fst run = Raised (MarkupError
                      "closing tag '[/x]' at position 35 doesn't match any open tag")
  /\ chat_requests (log (snd run)) = 1%nat
  /\ List.filter is_tool_dispatch (log (snd run)) = [].
Proof. vm_compute. repeat split; reflexivity. Qed.

End AgentsFacts.

Module ChunkerMore.
Import Py Chunker ChunkerFacts VectorStore Extractor.

Lemma rfind_from_bounds t sub lo n :
  rfind_from t sub lo n = -1
  \/ (lo <= rfind_from t sub lo n < lo + Z.of_nat n).
Proof.
  induction n as [|n IH]; simpl; [by left|].
  destruct (occurs_at t sub (lo + Z.of_nat n)); [right; lia|].
  destruct IH as [->|IH]; [by left | right; lia].
Qed.

(** [rfind] answers [-1] or an index inside the normalised window. *)
Lemma rfind_bounds t sub start stop :
  let a := if start <? 0 then Z.max 0 (start + py_len t) else start in
  rfind t sub start stop = -1
  \/ (a <= rfind t sub start stop
      /\ rfind t sub start stop + py_len sub <= adjust_index (py_len t) stop).
Proof.
  intros a. unfold rfind. fold a.
  destruct (Z.ltb_spec (adjust_index (py_len t) stop - a) (py_len sub)); [by left|].
  destruct (rfind_from_bounds t sub a
              (Z.to_nat (adjust_index (py_len t) stop - a - py_len sub + 1)))
    as [->|Hb]; [by left | right; lia].
Qed.

Lemma segment_end_after_cursor self t start :
  0 < chunk_size self -> start < segment_end self t start.
Proof.
  intros Hcs. unfold segment_end.
  destruct (start + chunk_size self <? py_len t); [|lia].
  match goal with |- context [if start <? ?bp then _ else _] =>
    destruct (Z.ltb_spec start bp) end; lia.
Qed.

(** Inside the loop a segment never has more than [chunk_size] characters. *)
Lemma segment_length_bound self t start :
  0 < chunk_size self -> chunk_size self < py_len t -> start < py_len t ->
  py_len (py_slice t start (segment_end self t start)) <= chunk_size self.
Proof.
  intros Hcs Hlen Hstart. rewrite py_slice_length. unfold segment_end.
  destruct (Z.ltb_spec (start + chunk_size self) (py_len t)) as [Hwin|Hwin].
  - set (bp1 := rfind t sentence_break start (start + chunk_size self)).
    set (bp2 := rfind t word_break start (start + chunk_size self)).
    pose proof (rfind_bounds t sentence_break start (start + chunk_size self)) as B1.
    pose proof (rfind_bounds t word_break start (start + chunk_size self)) as B2.
    fold bp1 in B1. fold bp2 in B2.
    change (py_len sentence_break) with 2 in B1.
    change (py_len word_break) with 1 in B2.
    cbv zeta in B1, B2.
    destruct ((bp1 =? -1) || (bp1 <=? start)) eqn:Hfall.
    + destruct (Z.ltb_spec start bp2); unfold adjust_index in *;
        repeat match goal with
               | |- context [if ?c then _ else _] => destruct c eqn:?
               | H : context [if ?c then _ else _] |- _ => destruct c eqn:?
               end; lia.
    + apply orb_false_iff in Hfall as [H1 H2].
      apply Z.eqb_neq in H1. apply Z.leb_gt in H2.
      destruct (Z.ltb_spec start bp1); [|lia]. unfold adjust_index in *;
        repeat match goal with
               | |- context [if ?c then _ else _] => destruct c eqn:?
               | H : context [if ?c then _ else _] |- _ => destruct c eqn:?
               end; lia.
  - unfold adjust_index.
    repeat match goal with
           | |- context [if ?c then _ else _] => destruct c eqn:?
           end; lia.
Qed.

Lemma split_loop_bounded self t :
  0 < chunk_size self -> chunk_size self < py_len t ->
  forall fuel start acc chunks,
    Forall (fun c => py_len c <= chunk_size self) acc ->
    split_loop fuel self t start acc = Some chunks ->
    Forall (fun c => py_len c <= chunk_size self) chunks.
Proof.
  intros Hcs Hlen. induction fuel as [|fuel IH]; intros start acc chunks Hacc; simpl;
    destruct (Z.ltb_spec start (py_len t)); intros Hrun; try discriminate.
  - by injection Hrun as <-.
  - eapply IH; [|exact Hrun]. apply Forall_app. split; [done|].
    constructor; [|done]. by apply segment_length_bound.
  - by injection Hrun as <-.
Qed.

(** Every chunk of a split has at most [chunk_size] characters. *)
Theorem split_text_chunks_bounded fuel self t chunks :
  0 < chunk_size self ->
  _split_text fuel self t = Some chunks ->
  Forall (fun c => py_len c <= chunk_size self) chunks.
Proof.
  intros Hcs. unfold _split_text.
  destruct (Z.leb_spec (py_len t) (chunk_size self)) as [Hshort|Hlong].
  - intros [= <-]. destruct (truthy (strip t)); repeat constructor. done.
  - apply split_loop_bounded; [done..|constructor].
Qed.

Lemma split_text_chunks_bounded_witness :
  Forall (fun c => py_len c <= 20)
         [lit "One two."; lit ". Three four five "; lit " six. Seven"].
Proof.
  apply (split_text_chunks_bounded 9 {| chunk_size := 20; chunk_overlap := 1 |}
           (lit "One two. Three four five six. Seven"));
    [cbn; lia | vm_compute; reflexivity].
Defined.

Lemma py_slice_nonneg {A} (l : list A) s e :
  0 <= s -> s <= e ->
  py_slice l s e = take (Z.to_nat e - Z.to_nat s) (drop (Z.to_nat s) l).
Proof.
  intros Hs He. unfold py_slice, adjust_index, py_len.
  destruct (Z.ltb_spec s 0); [lia|]. destruct (Z.ltb_spec e 0); [lia|].
  destruct (Z.le_gt_cases (Z.of_nat (length l)) s) as [Hout|Hin].
  - rewrite !drop_ge by lia. by rewrite !take_nil.
  - replace (Z.to_nat (Z.min s (Z.of_nat (length l)))) with (Z.to_nat s) by lia.
    destruct (Z.le_gt_cases e (Z.of_nat (length l))).
    + f_equal. lia.
    + rewrite !take_ge; [done| |]; rewrite length_drop; lia.
Qed.

Lemma py_slice_whole {A} (l : list A) : py_slice l 0 (py_len l) = l.
Proof.
  rewrite py_slice_nonneg by (unfold py_len; lia). unfold py_len.
  rewrite take_ge; [done|]. rewrite length_drop. lia.
Qed.

Lemma py_slice_lookup {A} (l : list A) s e (p : nat) x :
  0 <= s <= Z.of_nat p -> Z.of_nat p < e -> l !! p = Some x ->
  py_slice l s e !! (p - Z.to_nat s)%nat = Some x.
Proof.
  intros Hs He Hp. rewrite py_slice_nonneg by lia.
  rewrite lookup_take_lt by lia. rewrite lookup_drop.
  by replace (Z.to_nat s + (p - Z.to_nat s))%nat with p by lia.
Qed.

Lemma lstrip_all_space l :
  Forall (fun c => is_space c = true) (lstrip l) ->
  Forall (fun c => is_space c = true) l.
Proof.
  induction l as [|c l IH]; simpl; [done|].
  destruct (is_space c) eqn:E; [|done]. intros H. constructor; auto.
Qed.

(** A text whose [strip()] is empty has only whitespace characters. *)
Lemma blank_all_space t :
  truthy (strip t) = false -> Forall (fun c => is_space c = true) t.
Proof.
  unfold strip. intros H.
  assert (E : lstrip (reverse (lstrip t)) = []).
  { destruct (lstrip (reverse (lstrip t))) as [|c l] eqn:E; [done|].
    rewrite reverse_cons in H. by destruct (reverse l). }
  apply lstrip_all_space.
  assert (F : Forall (fun c => is_space c = true) (reverse (lstrip t))).
  { apply lstrip_all_space. rewrite E. constructor. }
  rewrite Forall_forall in F |- *. intros c Hc. apply F. by apply elem_of_reverse.
Qed.

Lemma split_loop_concat self t :
  0 < chunk_size self -> chunk_overlap self = 0 ->
  forall fuel start acc chunks,
    0 <= start -> concat acc = take (Z.to_nat start) t ->
    split_loop fuel self t start acc = Some chunks ->
    concat chunks = t.
Proof.
  intros Hcs Hov. induction fuel as [|fuel IH]; intros start acc chunks Hs Hacc; simpl;
    destruct (Z.ltb_spec start (py_len t)) as [Hlt|Hge]; intros Hrun; try discriminate.
  - injection Hrun as <-. rewrite Hacc. apply take_ge. unfold py_len in Hge. lia.
  - pose proof (segment_end_after_cursor self t start Hcs) as Hend.
    eapply IH; [| |exact Hrun]; [lia|].
    rewrite Hov, Z.sub_0_r, concat_app, Hacc. simpl. rewrite app_nil_r.
    rewrite py_slice_nonneg by lia. rewrite take_take_drop. f_equal. lia.
  - injection Hrun as <-. rewrite Hacc. apply take_ge. unfold py_len in Hge. lia.
Qed.

(** Without overlap the chunks partition the text: joined in order they
    give it back (a text that fits one chunk and is blank yields none). *)
Theorem split_text_without_overlap_partitions fuel self t chunks :
  0 < chunk_size self -> chunk_overlap self = 0 ->
  truthy (strip t) = true \/ chunk_size self < py_len t ->
  _split_text fuel self t = Some chunks ->
  concat chunks = t.
Proof.
  intros Hcs Hov Hcase. unfold _split_text.
  destruct (Z.leb_spec (py_len t) (chunk_size self)) as [Hshort|Hlong].
  - destruct Hcase as [->|?]; [|lia]. intros [= <-]. simpl. by rewrite app_nil_r.
  - intros Hrun. by eapply (split_loop_concat self t Hcs Hov fuel 0 []).
Qed.

Lemma split_text_without_overlap_partitions_witness :
  concat [lit "One two."; lit " Three four five "; lit "six. Seven"]
  = lit "One two. Three four five six. Seven".
Proof.
  apply (split_text_without_overlap_partitions 9
           {| chunk_size := 20; chunk_overlap := 0 |}
           (lit "One two. Three four five six. Seven"));
    [cbn; lia | reflexivity | right; vm_compute; reflexivity | vm_compute; reflexivity].
Defined.

Lemma split_loop_covers self t :
  0 < chunk_size self -> 0 <= chunk_overlap self <= 2 ->
  chunk_overlap self < chunk_size self ->
  forall fuel start acc chunks,
    0 <= start ->
    (forall p, 0 <= p < Z.min start (py_len t) -> covered t acc p) ->
    split_loop fuel self t start acc = Some chunks ->
    forall p, 0 <= p < py_len t -> covered t chunks p.
Proof.
  intros Hcs Hov Hlt. induction fuel as [|fuel IH]; intros start acc chunks Hs Hacc; simpl;
    destruct (Z.ltb_spec start (py_len t)) as [Hin|Hout]; intros Hrun; try discriminate.
  - injection Hrun as <-. intros p Hp. apply Hacc. lia.
  - pose proof (segment_end_lower_bound self t start) as Hlow.
    pose proof (segment_end_after_cursor self t start Hcs) as Hend.
    assert (start + chunk_overlap self <= segment_end self t start) as Hadv.
    { destruct (Z.le_gt_cases 2 (chunk_size self)); [specialize (Hlow ltac:(done)); lia|].
      lia. }
    eapply IH; [| |exact Hrun]; [lia|].
    intros p Hp. destruct (Z.lt_ge_cases p start) as [Hold|Hnew].
    + destruct (Hacc p ltac:(lia)) as (s & e & Hin' & Hb).
      exists s, e. split; [|done]. apply elem_of_app. by left.
    + exists start, (segment_end self t start). split; [|lia].
      apply elem_of_app. right. by apply list_elem_of_singleton.
  - injection Hrun as <-. intros p Hp. apply Hacc. lia.
Qed.

(** Coverage: with an overlap of at most two characters, every
    non-whitespace character of the text lies in some chunk of a split
    that returns, at the offset of its position in that chunk's window. *)
Theorem split_text_covers fuel self t chunks (p : nat) c :
  0 < chunk_size self -> 0 <= chunk_overlap self <= 2 ->
  chunk_overlap self < chunk_size self ->
  _split_text fuel self t = Some chunks ->
  t !! p = Some c -> is_space c = false ->
  exists s e, py_slice t s e ∈ chunks /\ 0 <= s <= Z.of_nat p /\ Z.of_nat p < e
              /\ py_slice t s e !! (p - Z.to_nat s)%nat = Some c.
Proof.
  intros Hcs Hov Hlt Hrun Hp Hc.
  assert (Hcov : covered t chunks (Z.of_nat p)).
  { unfold _split_text in Hrun.
    destruct (Z.leb_spec (py_len t) (chunk_size self)) as [Hshort|Hlong].
    - injection Hrun as <-. destruct (truthy (strip t)) eqn:Hblank.
      + exists 0, (py_len t). rewrite py_slice_whole. split; [by left|].
        apply lookup_lt_Some in Hp. unfold py_len. lia.
      + apply blank_all_space in Hblank. rewrite Forall_forall in Hblank.
        rewrite (Hblank c) in Hc; [done|]. by eapply list_elem_of_lookup_2.
    - eapply (split_loop_covers self t Hcs Hov Hlt fuel 0 []); [done| |exact Hrun|].
      + intros q Hq. lia.
      + apply lookup_lt_Some in Hp. unfold py_len. lia. }
  destruct Hcov as (s & e & Hin & Hs & He). exists s, e.
  repeat split; try done; try lia. by apply py_slice_lookup.
Qed.

Lemma split_text_covers_witness :
  exists s e,
    py_slice (lit "One two. Three four five six. Seven") s e
      ∈ [lit "One two."; lit ". Three four five "; lit " six. Seven"]
    /\ 0 <= s <= 9 /\ 9 < e.
Proof.
  destruct (split_text_covers 9 {| chunk_size := 20; chunk_overlap := 1 |}
              (lit "One two. Three four five six. Seven")
              [lit "One two."; lit ". Three four five "; lit " six. Seven"]
              9 "T"%char)
    as (s & e & Hin & Hs & He & _);
    [cbn; lia | cbn; lia | cbn; lia | vm_compute; reflexivity
    | reflexivity | reflexivity |].
  exists s, e. repeat split; try done; lia.
Defined.

(** The bound on the overlap matters: with an overlap of three a break
    point right after the cursor sends the cursor to [-1], the next
    segment is empty, and the characters at positions 2 to 5 reach no
    chunk. *)
Example split_overlap_three_skips_text :
  _split_text 9 {| chunk_size := 10; chunk_overlap := 3 |}
              (lit "a bcdefghijklmnopqrstuvwxyz")
  = Some [lit "a "; []; lit "fghijklmno"; lit "mnopqrstuv"; lit "tuvwxyz"].
Proof. vm_compute. reflexivity. Qed.

Lemma split_text_returns_small_overlap_witness :
  exists chunks,
    _split_text 35 {| chunk_size := 20; chunk_overlap := 1 |}
                (lit "One two. Three four five six. Seven") = Some chunks.
Proof.
  apply (split_text_returns_small_overlap {| chunk_size := 20; chunk_overlap := 1 |}
           (lit "One two. Three four five six. Seven")); cbn; lia.
Defined.

Lemma lstrip_head l c l' : lstrip l = c :: l' -> is_space c = false.
Proof.
  induction l as [|x l IH]; simpl; [done|].
  destruct (is_space x) eqn:E; [exact IH|]. by intros [= <- _].
Qed.

Lemma lstrip_fixed l :
  match l with [] => True | c :: _ => is_space c = false end -> lstrip l = l.
Proof. destruct l as [|c l]; simpl; [done|]. by intros ->. Qed.

Lemma lstrip_split l :
  exists sp, l = sp ++ lstrip l /\ Forall (fun c => is_space c = true) sp.
Proof.
  induction l as [|x l (sp & E & F)]; simpl; [by exists []|].
  destruct (is_space x) eqn:Hx.
  - exists (x :: sp). split; [simpl; by f_equal | by constructor].
  - by exists [].
Qed.

(** [strip] removes nothing from a text it produced. *)
Lemma strip_idempotent t : strip (strip t) = strip t.
Proof.
  unfold strip. set (u := lstrip t). set (v := lstrip (reverse u)).
  assert (Hv : lstrip v = v).
  { apply lstrip_fixed. destruct v as [|c v'] eqn:E; [done|]. by apply lstrip_head in E. }
  assert (Hw : lstrip (reverse v) = reverse v).
  { apply lstrip_fixed. destruct (reverse v) as [|c w'] eqn:E; [done|].
    destruct (lstrip_split (reverse u)) as (sp & Hsplit & _). fold v in Hsplit.
    apply (f_equal reverse) in Hsplit. rewrite reverse_involutive, reverse_app, E in Hsplit.
    simpl in Hsplit. by apply (lstrip_head t c (w' ++ reverse sp)). }
  by rewrite Hw, reverse_involutive, Hv.
Qed.

Lemma well_indexed_later name p q chunks :
  p <= q -> well_indexed name p chunks -> well_indexed name q chunks.
Proof.
  intros Hpq (Hidx & Hall & Hsorted). split; [done|]. split; [|done].
  eapply Forall_impl; [exact Hall|]. simpl. intros c (? & [? ?] & ? & ?).
  repeat split; try done; lia.
Qed.

Lemma well_indexed_snoc name page chunks body :
  1 <= page -> truthy (strip body) = true ->
  well_indexed name page chunks ->
  well_indexed name page
    (chunks ++ [{| VectorStore.text := string_of_list_ascii (strip body);
                   page_number := page;
                   chunk_index := Z.of_nat (length chunks);
                   source_file := name |}]).
Proof.
  intros Hpage Hbody (Hidx & Hall & Hsorted). split; [|split].
  - rewrite map_app, length_app, Hidx. simpl.
    rewrite Nat.add_1_r, seq_S, map_app. reflexivity.
  - apply Forall_app. split; [done|]. constructor; [|done]. simpl.
    repeat split; try lia.
    + destruct (strip body); [discriminate Hbody | discriminate].
    + rewrite list_ascii_of_string_of_list_ascii. apply strip_idempotent.
  - intros i j ci cj Hij Hi Hj.
    destruct (decide (j < length chunks)%nat) as [Hjin|Hjout].
    + rewrite lookup_app_l in Hi by lia. rewrite lookup_app_l in Hj by lia. eauto.
    + assert (j = length chunks) as ->.
      { apply lookup_lt_Some in Hj. rewrite length_app in Hj. simpl in Hj. lia. }
      rewrite list_lookup_middle in Hj by done. injection Hj as <-. simpl.
      destruct (decide (i < length chunks)%nat) as [Hiin|Hiout].
      * rewrite lookup_app_l in Hi by lia.
        rewrite Forall_forall in Hall.
        destruct (Hall ci) as (_ & ? & _); [by eapply list_elem_of_lookup_2|]. lia.
      * assert (i = length chunks) as -> by lia.
        rewrite list_lookup_middle in Hi by done. injection Hi as <-. simpl. lia.
Qed.

Lemma append_page_chunks_indexed name page : forall page_chunks chunks,
  1 <= page -> well_indexed name page chunks ->
  let r := append_page_chunks page_chunks page name chunks (Z.of_nat (length chunks)) in
  well_indexed name page (fst r) /\ snd r = Z.of_nat (length (fst r)).
Proof.
  induction page_chunks as [|body rest IH]; intros chunks Hpage Hinv; simpl; [done|].
  destruct (truthy (strip body)) eqn:Hbody; [|by apply IH].
  set (chunks' := chunks ++ [_]).
  replace (Z.of_nat (length chunks) + 1) with (Z.of_nat (length chunks')).
  - apply IH; [done|]. by apply well_indexed_snoc.
  - unfold chunks'. rewrite length_app. simpl. lia.
Qed.

Lemma extract_pages_indexed fuel self name : forall pages page chunks result,
  1 <= page -> well_indexed name (page - 1) chunks ->
  extract_pages fuel self pages page name chunks (Z.of_nat (length chunks)) = Some result ->
  well_indexed name (page - 1 + py_len pages) result.
Proof.
  induction pages as [|page_text rest IH]; intros page chunks result Hpage Hinv; simpl.
  - intros [= <-]. unfold py_len. simpl. by rewrite Z.add_0_r.
  - destruct (_split_text fuel self page_text) as [page_chunks|]; [|done].
    pose proof (append_page_chunks_indexed name page page_chunks chunks Hpage
                  (well_indexed_later name (page - 1) page chunks ltac:(lia) Hinv)) as Happ.
    destruct (append_page_chunks page_chunks page name chunks _) as [chunks' idx'].
    simpl in Happ. destruct Happ as [Hinv' ->]. intros Hrun.
    apply IH in Hrun; [| lia | by replace (page + 1 - 1) with page by lia].
    unfold py_len in *. simpl length.
    replace (page - 1 + Z.of_nat (S (length rest)))
      with (page + 1 - 1 + Z.of_nat (length rest)) by lia. done.
Qed.

Lemma extract_chunks_invariant fuel self pages name chunks :
  extract_chunks fuel self pages name = Some chunks ->
  well_indexed name (py_len pages) chunks.
Proof.
  intros Hrun. unfold extract_chunks in Hrun.
  apply (extract_pages_indexed fuel self name pages 1 [] chunks) in Hrun; [|lia|].
  - by replace (1 - 1 + py_len pages) with (py_len pages) in Hrun by lia.
  - split; [done|]. split; [constructor|]. intros i j ci cj _ Hi. by rewrite lookup_nil in Hi.
Qed.

(** The chunks of a document are numbered 0, 1, 2, ... across its pages,
    carry the file name and a page number between 1 and the number of
    pages, in page order, and hold a non-empty text that is already
    trimmed. *)
Theorem extract_chunks_well_indexed fuel self pages name chunks :
  extract_chunks fuel self pages name = Some chunks ->
  map chunk_index chunks = map Z.of_nat (seq 0 (length chunks))
  /\ Forall (fun c => source_file c = name
                      /\ 1 <= page_number c <= py_len pages
                      /\ VectorStore.text c <> ""
                      /\ strip (list_ascii_of_string (VectorStore.text c))
                         = list_ascii_of_string (VectorStore.text c)) chunks
  /\ (forall (i j : nat) ci cj, (i <= j)%nat ->
        chunks !! i = Some ci -> chunks !! j = Some cj ->
        page_number ci <= page_number cj).
Proof. apply extract_chunks_invariant. Qed.

Lemma extract_chunks_well_indexed_witness :
  let chunks :=
    [ {| VectorStore.text := "Intro."; page_number := 1; chunk_index := 0;
         source_file := "paper.pdf" |};
      {| VectorStore.text := "One two."; page_number := 3; chunk_index := 1;
         source_file := "paper.pdf" |};
      {| VectorStore.text := ". Three four five"; page_number := 3; chunk_index := 2;
         source_file := "paper.pdf" |};
      {| VectorStore.text := "six. Seven"; page_number := 3; chunk_index := 3;
         source_file := "paper.pdf" |} ] in
  extract_chunks 9 {| chunk_size := 20; chunk_overlap := 1 |}
    [lit " Intro. "; lit "   "; lit "One two. Three four five six. Seven"] "paper.pdf"
  = Some chunks
  /\ map chunk_index chunks = [0; 1; 2; 3].
Proof.
  intros chunks.
  assert (Hrun : extract_chunks 9 {| chunk_size := 20; chunk_overlap := 1 |}
            [lit " Intro. "; lit "   "; lit "One two. Three four five six. Seven"]
            "paper.pdf" = Some chunks) by (vm_compute; reflexivity).
  split; [exact Hrun|].
  destruct (extract_chunks_well_indexed _ _ _ _ _ Hrun) as (Hidx & _). exact Hidx.
Defined.

End ChunkerMore.

Module VectorStoreMore.
Import Py Runtime RuntimeFacts Embeddings EmbeddingsFacts VectorStore VectorStoreFacts.
Local Open Scope py_scope.

Lemma list_ascii_of_string_app (a b : string) :
  list_ascii_of_string (a +:+ b) = list_ascii_of_string a ++ list_ascii_of_string b.
Proof. induction a as [|c a IH]; simpl; [done|]. by rewrite IH. Qed.

Lemma pretty_N_char_not_underscore x : pretty_N_char x <> "_"%char.
Proof. unfold pretty_N_char. by repeat case_match. Qed.

Lemma pretty_N_go_no_underscore x : forall s,
  "_"%char ∉ list_ascii_of_string s ->
  "_"%char ∉ list_ascii_of_string (pretty_N_go x s).
Proof.
  induction (N.lt_wf_0 x) as [x _ IH]; intros s Hs.
  assert (x = 0 \/ 0 < x)%N as [->|Hpos] by lia.
  - by rewrite pretty_N_go_0.
  - rewrite pretty_N_go_step by done. apply IH; [by apply N.div_lt|].
    simpl. apply not_elem_of_cons. split; [|done].
    intros E. by apply (pretty_N_char_not_underscore (x `mod` 10)%N).
Qed.

Lemma pretty_N_no_underscore (x : N) : "_"%char ∉ list_ascii_of_string (pretty x).
Proof.
  unfold pretty, pretty_N. case_decide.
  - simpl. apply not_elem_of_cons. split; [done | apply not_elem_of_nil].
  - apply pretty_N_go_no_underscore. simpl. apply not_elem_of_nil.
Qed.

(** The decimal text of an integer has no underscore. *)
Lemma pretty_Z_no_underscore (x : Z) : "_"%char ∉ list_ascii_of_string (pretty x).
Proof.
  destruct x as [|p|p]; unfold pretty, pretty_Z.
  - simpl. apply not_elem_of_cons. split; [done | apply not_elem_of_nil].
  - apply (pretty_N_no_underscore (Npos p)).
  - rewrite list_ascii_of_string_app. simpl. apply not_elem_of_cons. split; [done|].
    apply (pretty_N_no_underscore (Npos p)).
Qed.

Lemma id_text_inj (file1 file2 : string) (i1 i2 : Z) :
  file1 +:+ "_" +:+ pretty i1 = file2 +:+ "_" +:+ pretty i2 ->
  file1 = file2 /\ i1 = i2.
Proof.
  intros E. apply (f_equal list_ascii_of_string) in E.
  rewrite !list_ascii_of_string_app in E. simpl in E.
  apply not_elem_of_app_cons_inv_r in E as (Ef & _ & Ei);
    [|apply pretty_Z_no_underscore..].
  split.
  - by rewrite <- (string_of_list_ascii_of_string file1),
               <- (string_of_list_ascii_of_string file2), Ef.
  - apply (inj pretty).
    by rewrite <- (string_of_list_ascii_of_string (pretty i1)),
               <- (string_of_list_ascii_of_string (pretty i2)), Ei.
Qed.

(** Two chunks get the same id only when they agree on the source file
    and on the chunk index. *)
Theorem chunk_id_injective (c1 c2 : TextChunk) :
  chunk_id c1 = chunk_id c2 ->
  source_file c1 = source_file c2 /\ chunk_index c1 = chunk_index c2.
Proof. apply id_text_inj. Qed.

Lemma chunk_id_injective_witness :
  source_file {| text := "x"; page_number := 1; chunk_index := 12; source_file := "a_1.pdf" |}
  = "a_1.pdf"
  /\ chunk_index {| text := "x"; page_number := 1; chunk_index := 12; source_file := "a_1.pdf" |}
     = 12.
Proof.
  apply (chunk_id_injective
           {| text := "x"; page_number := 1; chunk_index := 12; source_file := "a_1.pdf" |}
           {| text := "y"; page_number := 2; chunk_index := 12; source_file := "a_1.pdf" |}).
  reflexivity.
Defined.

(** The chunks extracted from one document have pairwise distinct ids. *)
Theorem extracted_chunk_ids_distinct fuel self pages name chunks :
  Extractor.extract_chunks fuel self pages name = Some chunks ->
  NoDup (map chunk_id chunks).
Proof.
  intros Hrun.
  destruct (ChunkerMore.extract_chunks_invariant _ _ _ _ _ Hrun) as (Hidx & Hall & _).
  assert (E : map chunk_id chunks
              = map (fun i : Z => name +:+ "_" +:+ pretty i) (map chunk_index chunks)).
  { rewrite map_map. apply map_ext_Forall. eapply Forall_impl; [exact Hall|].
    simpl. intros c (Hname & _). unfold chunk_id. by rewrite Hname. }
  rewrite E, Hidx.
  assert (Hinj : Inj (=) (=) (fun i : Z => name +:+ "_" +:+ pretty i)).
  { intros i j Hij. by apply id_text_inj in Hij as [_ ?]. }
  apply (NoDup_fmap_2 _). apply (NoDup_fmap_2 Z.of_nat). apply NoDup_seq.
Qed.

Lemma extracted_chunk_ids_distinct_witness :
  NoDup (map chunk_id
    [ {| text := "Intro."; page_number := 1; chunk_index := 0;
         source_file := "paper.pdf" |};
      {| text := "One two."; page_number := 3; chunk_index := 1;
         source_file := "paper.pdf" |};
      {| text := ". Three four five"; page_number := 3; chunk_index := 2;
         source_file := "paper.pdf" |};
      {| text := "six. Seven"; page_number := 3; chunk_index := 3;
         source_file := "paper.pdf" |} ]).
Proof.
  apply (extracted_chunk_ids_distinct 9
           {| Chunker.chunk_size := 20; Chunker.chunk_overlap := 1 |}
           [Chunker.lit " Intro. "; Chunker.lit "   ";
            Chunker.lit "One two. Three four five six. Seven"] "paper.pdf").
  vm_compute. reflexivity.
Defined.

Section Store.
Context {payload : Payload} {services : Services}.

Lemma elem_of_listed_sources (env : Env) v :
  v ∈ elements (collect_sources (map entry_metadata (collection env)) ∅)
  <-> exists e m, e ∈ collection env /\ entry_metadata e = Some m
                  /\ m !! "source_file" = Some v.
Proof.
  rewrite elem_of_elements, elem_of_collect_sources. split.
  - intros [Hv|(m & Hm & Hf)]; [by apply not_elem_of_empty in Hv|].
    apply list_elem_of_fmap in Hm as (e & Hmeta & He). eauto.
  - intros (e & m & He & Hmeta & Hf). right. exists m. split; [|done].
    apply list_elem_of_fmap. eauto.
Qed.

(** [list_documents] reads the collection only and returns, each once,
    the [source_file] values found in the metadata of its entries. *)
Theorem list_documents_distinct_sources (self : VectorStore) (env : Env) :
  exists docs,
    list_documents self env = (Returned docs, env)
    /\ NoDup docs
    /\ forall v, v ∈ docs <->
         exists e m, e ∈ collection env /\ entry_metadata e = Some m
                     /\ m !! "source_file" = Some v.
Proof.
  eexists. split; [reflexivity|]. split; [apply NoDup_elements|].
  apply elem_of_listed_sources.
Qed.

Lemma upsert_holds_new (e : Entry) es : e ∈ upsert e es.
Proof.
  unfold upsert. destruct (existsb _ es) eqn:Hex.
  - apply existsb_exists in Hex as (x & Hx & Hid).
    apply list_elem_of_fmap. exists x. rewrite Hid. split; [done|].
    by apply list_elem_of_In.
  - apply elem_of_app. right. by left.
Qed.

Lemma upsert_keeps_other (e x : Entry) es :
  x ∈ es -> entry_id x <> entry_id e -> x ∈ upsert e es.
Proof.
  intros Hx Hne. unfold upsert. destruct (existsb _ es).
  - apply list_elem_of_fmap. exists x. split; [|done].
    by apply String.eqb_neq in Hne as ->.
  - apply elem_of_app. by left.
Qed.

Lemma fold_upsert_holds (P : Entry -> Prop) : forall (es coll : list Entry) i,
  Forall P es ->
  (exists x, x ∈ coll /\ entry_id x = i /\ P x) \/ (exists e, e ∈ es /\ entry_id e = i) ->
  exists x, x ∈ foldl (fun acc e => upsert e acc) coll es /\ entry_id x = i /\ P x.
Proof.
  induction es as [|e es IH]; intros coll i Hall Hcase; simpl.
  - destruct Hcase as [?|(e & He & _)]; [done | by apply elem_of_nil in He].
  - apply Forall_cons in Hall as [He Hall]. apply IH; [done|].
    destruct Hcase as [(x & Hx & Hid & HP)|(e0 & He0 & Hid)].
    + left. destruct (decide (entry_id x = entry_id e)) as [Heq|Hne].
      * exists e. split; [apply upsert_holds_new|]. split; [congruence|done].
      * exists x. split; [by apply upsert_keeps_other|done].
    + apply elem_of_cons in He0 as [->|He0]; [|right; eauto].
      left. exists e. split; [apply upsert_holds_new|done].
Qed.

Lemma zip_entries_of_chunks : forall (chunks : list TextChunk) embeddings es,
  zip_entries (map chunk_id chunks) embeddings (map text chunks)
              (map chunk_metadata chunks) = Some es ->
  Forall (fun e => exists c, c ∈ chunks /\ entry_id e = chunk_id c
                             /\ entry_metadata e = Some (chunk_metadata c)) es
  /\ forall c, c ∈ chunks -> exists e, e ∈ es /\ entry_id e = chunk_id c.
Proof.
  induction chunks as [|c chunks IH]; intros [|v embeddings] es; simpl; try discriminate.
  - intros [= <-]. split; [constructor|]. intros c Hc. by apply elem_of_nil in Hc.
  - destruct (zip_entries _ embeddings _ _) as [es'|] eqn:Hzip; [|discriminate].
    intros [= <-]. destruct (IH _ _ Hzip) as [Hall Hhas]. split.
    + constructor; [exists c; split; [by left|done]|].
      eapply Forall_impl; [exact Hall|]. simpl. intros e (c' & ? & ?).
      exists c'. split; [by right|done].
    + intros c' [->|Hc']%elem_of_cons.
      * eexists. split; [by left|done].
      * destruct (Hhas c' Hc') as (e & ? & ?). exists e. split; [by right|done].
Qed.

(** After a successful [add_chunks], [list_documents] names the source
    file of every chunk that was added. *)
Theorem add_chunks_lists_sources (self : VectorStore) (chunks : list TextChunk)
    (progress_callback : bool) (env env' : Env) (c : TextChunk) :
  add_chunks self chunks progress_callback env = (Returned tt, env') ->
  c ∈ chunks ->
  exists docs, list_documents self env' = (Returned docs, env')
               /\ inl (source_file c) ∈ docs.
Proof.
  intros Hrun Hc.
  eexists. split; [reflexivity|]. apply elem_of_listed_sources.
  destruct chunks as [|c0 chunks]; [by apply elem_of_nil in Hc|].
  unfold add_chunks, bind in Hrun.
  destruct (embed_texts _ _ env) as [[embeddings|e] env1]; [|discriminate].
  unfold collection_add in Hrun.
  destruct (zip_entries _ embeddings _ _) as [es|] eqn:Hzip; [|discriminate].
  injection Hrun as <-. simpl.
  destruct (zip_entries_of_chunks (c0 :: chunks) embeddings es Hzip) as [Hall Hhas].
  destruct (Hhas c Hc) as (e & He & Hid).
  destruct (fold_upsert_holds _ es (collection env1) (chunk_id c) Hall)
    as (x & Hx & Hxid & c' & _ & Hid' & Hmeta); [right; eauto|].
  exists x, (chunk_metadata c'). split; [done|]. split; [done|].
  assert (source_file c' = source_file c) as <-.
  { apply (id_text_inj _ _ (chunk_index c') (chunk_index c)).
    unfold chunk_id in *. congruence. }
  unfold chunk_metadata. rewrite lookup_insert_ne by done. by rewrite lookup_insert_eq.
Qed.

(** [search] never writes to the collection; it issues one embedding
    request for the query and then, exactly when that request gave a
    vector, one query to the collection, with that vector and for
    [top_k or self.top_k] results.  When the request fails, or gives no
    vector, that failure is raised and the collection is not queried. *)
Theorem search_is_read_only (self : VectorStore) (query : string)
    (top_k : option Z) (env env' : Env) (o : Outcome (list SearchResult)) :
  search self query top_k env = (o, env') ->
  collection env' = collection env
  /\ match embeddings_create (log env) (OneText query) with
     | inr (emb :: _) =>
         log env' = log env ++ [EmbeddingsCreate (OneText query);
                                CollectionQuery emb (py_or top_k (VectorStore.top_k self))]
         /\ match collection_query (collection env) emb
                                   (py_or top_k (VectorStore.top_k self)) with
            | inl e => o = Raised e
            | inr results => exists found, o = Returned found
                               /\ map result_text found
                                  = map (fun r => entry_document (fst r)) results
            end
     | inr [] =>
         log env' = log env ++ [EmbeddingsCreate (OneText query)]
         /\ o = Raised IndexError
     | inl e =>
         log env' = log env ++ [EmbeddingsCreate (OneText query)]
         /\ o = Raised e
     end.
Proof.
  unfold search, bind, embed_text, bind, create.
  destruct (embeddings_create (log env) (OneText query)) as [e|[|emb data]]; simpl.
  - by intros [= <- <-].
  - by intros [= <- <-].
  - unfold query_collection. simpl.
    destruct (collection_query _ _ _) as [e|results]; intros [= <- <-];
      (split; [done|]); simpl; rewrite <- app_assoc; (split; [done|]); [done|].
    eexists. split; [reflexivity|]. by rewrite map_map.
Qed.

End Store.

Lemma add_chunks_lists_sources_witness :
  let s := Stub.services Stub.embed_by_length (Stub.answers "ok") in
  let env' := snd (add_chunks (services := s) {| top_k := 5 |}
                              (Stub.page_chunks "c.pdf" 3) false Stub.two_files) in
  exists docs, list_documents {| top_k := 5 |} env' = (Returned docs, env')
               /\ inl "c.pdf" ∈ docs.
Proof.
  intros s env'.
  apply (add_chunks_lists_sources (services := s) {| top_k := 5 |}
           (Stub.page_chunks "c.pdf" 3) false Stub.two_files env'
           {| text := "chunk"; page_number := 1; chunk_index := 0; source_file := "c.pdf" |}).
  - vm_compute. reflexivity.
  - by left.
Defined.

Lemma search_is_read_only_witness :
  let s := Stub.services Stub.embed_by_length (Stub.answers "ok") in
  let run := search (services := s) {| top_k := 5 |} "q" None Stub.two_files in
  collection (snd run) = collection Stub.two_files
  /\ log (snd run) = [EmbeddingsCreate (payload := Stub.payload) (OneText "q");
                      CollectionQuery (payload := Stub.payload) [1] 5].
Proof.
  intros s run.
  destruct (search_is_read_only (services := s) {| top_k := 5 |} "q" None
              Stub.two_files (snd run) (fst run)) as [Hcoll Hlog].
  - unfold run. by destruct (search _ _ _ _).
  - split; [exact Hcoll | exact (proj1 Hlog)].
Defined.

End VectorStoreMore.

Module EmbeddingsMore.
Import Py Runtime RuntimeFacts Embeddings EmbeddingsFacts Observe.
Local Open Scope py_scope.

Lemma py_slice_app {A} (l : list A) a b c :
  0 <= a <= b -> b <= c -> py_slice l a b ++ py_slice l b c = py_slice l a c.
Proof.
  intros Hab Hbc. rewrite !ChunkerMore.py_slice_nonneg by lia.
  replace (drop (Z.to_nat b) l)
    with (drop (Z.to_nat b - Z.to_nat a) (drop (Z.to_nat a) l))
    by (rewrite drop_drop; f_equal; lia).
  rewrite take_take_drop. f_equal. lia.
Qed.

Section Engine.
Context {payload : Payload} {services : Services}.

Lemma create_returns input data env :
  embeddings_create (log env) input = inr data ->
  create input env = (Returned data, appended env [EmbeddingsCreate input]).
Proof. intros E. unfold create. by rewrite E. Qed.

Lemma report_returns cb num den env :
  report cb num den env
  = (Returned tt, appended env (if cb then [Progress num den] else [])).
Proof. destruct cb; simpl; [done|]. unfold ret. by rewrite appended_nil. Qed.

Lemma embed_batches_run (f : list string -> list Embedding) texts total cb :
  (forall l batch, embeddings_create l (Batch batch) = inr (f batch)) ->
  forall starts acc env,
    embed_batches starts texts total cb acc env
    = (Returned (acc ++ flat_map (fun i => f (py_slice texts i (i + BATCH_SIZE))) starts),
       appended env (flat_map (batch_calls texts total cb) starts)).
Proof.
  intros Hserve. induction starts as [|i rest IH]; intros acc env; simpl.
  - unfold ret. by rewrite app_nil_r, appended_nil.
  - unfold bind at 1. rewrite (create_returns _ _ _ (Hserve _ _)).
    unfold bind at 1. rewrite report_returns, IH, !appended_app, <- app_assoc.
    reflexivity.
Qed.

Lemma embed_batches_log texts total cb :
  (forall l input, exists data, embeddings_create l input = inr data) ->
  forall starts acc env,
  exists out,
    embed_batches starts texts total cb acc env
    = (Returned out, appended env (flat_map (batch_calls texts total cb) starts)).
Proof.
  intros Hserve. induction starts as [|i rest IH]; intros acc env; simpl.
  - exists acc. unfold ret. by rewrite appended_nil.
  - destruct (Hserve (log env) (Batch (py_slice texts i (i + BATCH_SIZE)))) as [data Hdata].
    unfold bind at 1. rewrite (create_returns _ _ _ Hdata).
    unfold bind at 1. rewrite report_returns.
    destruct (IH (acc ++ data)
                 (appended (appended env
                    [EmbeddingsCreate (Batch (py_slice texts i (i + BATCH_SIZE)))])
                    (if cb then [Progress (Z.min (i + BATCH_SIZE) total) total] else [])))
      as [out ->].
    exists out. rewrite !appended_app. reflexivity.
Qed.

Lemma batch_starts total :
  py_range 0 total BATCH_SIZE
  = map (fun j => 0 + BATCH_SIZE * Z.of_nat j)
        (seq 0 (Z.to_nat ((total + 49) / 50))).
Proof.
  unfold py_range, BATCH_SIZE.
  by replace (total - 0 + 50 - 1) with (total + 49) by lia.
Qed.

Lemma slices_join (texts : list string) : forall n k,
  flat_map (fun i => py_slice texts i (i + BATCH_SIZE))
           (map (fun j => 0 + BATCH_SIZE * Z.of_nat j) (seq k n))
  = py_slice texts (50 * Z.of_nat k) (50 * Z.of_nat (k + n)).
Proof.
  unfold BATCH_SIZE. induction n as [|n IH]; intros k; simpl.
  - rewrite Nat.add_0_r. rewrite ChunkerMore.py_slice_nonneg by lia.
    by rewrite Nat.sub_diag.
  - rewrite IH. rewrite <- (py_slice_app texts (50 * Z.of_nat k) (50 * Z.of_nat (S k))
                             (50 * Z.of_nat (k + S n))) by lia.
    f_equal; f_equal; lia.
Qed.

Lemma batches_cover (texts : list string) :
  let n := Z.to_nat ((py_len texts + 49) / 50) in
  py_slice texts (50 * Z.of_nat 0) (50 * Z.of_nat (0 + n)) = texts.
Proof.
  intros n. pose proof (Z.div_mod (py_len texts + 49) 50 ltac:(lia)) as Hdm.
  pose proof (Z.mod_pos_bound (py_len texts + 49) 50 ltac:(lia)) as Hmod.
  assert (0 <= py_len texts) by (unfold py_len; lia).
  assert (0 <= (py_len texts + 49) / 50) by (apply Z.div_pos; lia).
  rewrite ChunkerMore.py_slice_nonneg by lia. simpl. rewrite drop_0.
  apply take_ge. unfold py_len in *. lia.
Qed.

Lemma flat_map_fmap {A B C} (g : B -> C) (h : A -> list B) (l : list A) :
  flat_map (fun x => map g (h x)) l = map g (flat_map h l).
Proof. induction l as [|x l IH]; simpl; [done|]. by rewrite IH, map_app. Qed.

(** A service that embeds each text on its own gives [embed_texts] one
    embedding per text, in the order of the texts, batched or not. *)
Theorem embed_texts_keeps_order (g : string -> Embedding) (texts : list string)
    (progress_callback : bool) (env : Env) :
  (forall l batch, embeddings_create l (Batch batch) = inr (map g batch)) ->
  fst (embed_texts texts progress_callback env) = Returned (map g texts).
Proof.
  intros Hserve. unfold embed_texts.
  destruct texts as [|t texts]; [done|].
  destruct (py_len (t :: texts) <=? BATCH_SIZE).
  - unfold bind at 1. rewrite (create_returns _ _ _ (Hserve _ _)).
    unfold bind at 1. by rewrite report_returns.
  - rewrite (embed_batches_run (map g)) by done. simpl fst.
    rewrite flat_map_fmap, batch_starts, slices_join, batches_cover. done.
Qed.

Lemma requested_batches_of_calls texts total cb starts :
  requested_batches (flat_map (batch_calls texts total cb) starts)
  = map (fun i => py_slice texts i (i + BATCH_SIZE)) starts.
Proof.
  induction starts as [|i rest IH]; simpl; [done|].
  unfold requested_batches in *. rewrite omap_app, IH. by destruct cb.
Qed.

Lemma flat_map_id_fmap {A B} (h : A -> list B) (l : list A) :
  concat (map h l) = flat_map h l.
Proof. induction l as [|x l IH]; simpl; [done|]. by rewrite IH. Qed.

(** When the embedding service answers every request, [embed_texts]
    sends the texts in batches of at least one and at most fifty texts
    that, joined in order, are the input. *)
Theorem embed_texts_batches (texts : list string) (progress_callback : bool)
    (env : Env) :
  (forall l input, exists data, embeddings_create l input = inr data) ->
  exists out evs,
    embed_texts texts progress_callback env = (Returned out, appended env evs)
    /\ concat (requested_batches evs) = texts
    /\ Forall (fun b => 0 < py_len b <= BATCH_SIZE) (requested_batches evs).
Proof.
  intros Hserve. unfold embed_texts.
  destruct texts as [|t texts].
  { exists [], []. unfold ret. rewrite appended_nil. repeat split; constructor. }
  destruct (Z.leb_spec (py_len (t :: texts)) BATCH_SIZE) as [Hone|Hmany].
  - destruct (Hserve (log env) (Batch (t :: texts))) as [data Hdata].
    unfold bind at 1. rewrite (create_returns _ _ _ Hdata).
    unfold bind at 1. rewrite report_returns. unfold ret.
    eexists data, _. rewrite appended_app. split; [reflexivity|].
    destruct progress_callback; simpl; rewrite app_nil_r;
      (split; [done|]); repeat constructor; try done; unfold py_len; simpl; lia.
  - set (all := t :: texts) in *.
    destruct (embed_batches_log all (py_len all) progress_callback Hserve
                (py_range 0 (py_len all) BATCH_SIZE) [] env) as [out ->].
    eexists out, _. split; [reflexivity|].
    rewrite requested_batches_of_calls. split.
    + rewrite flat_map_id_fmap, batch_starts, slices_join. apply batches_cover.
    + rewrite batch_starts. apply Forall_fmap, Forall_fmap, Forall_forall.
      intros j Hj%elem_of_seq. simpl. rewrite ChunkerFacts.py_slice_length.
      pose proof (Z.div_mod (py_len all + 49) 50 ltac:(lia)) as Hdm.
      pose proof (Z.mod_pos_bound (py_len all + 49) 50 ltac:(lia)) as Hmod.
      assert (0 <= (py_len all + 49) / 50) by (apply Z.div_pos; lia).
      unfold BATCH_SIZE in *. unfold adjust_index.
      repeat match goal with
             | |- context [if ?c then _ else _] => destruct c eqn:?
             end; lia.
Qed.

Lemma progress_reports_of_calls texts total starts :
  progress_reports (flat_map (batch_calls texts total true) starts)
  = map (fun i => (Z.min (i + BATCH_SIZE) total, total)) starts.
Proof.
  induction starts as [|i rest IH]; simpl; [done|].
  unfold progress_reports in *. by rewrite IH.
Qed.

(** With a progress callback and a service that answers every request,
    the fractions reported for a non-empty input keep one denominator,
    have strictly increasing numerators between one and that denominator,
    and end on a completed fraction. *)
Theorem embed_texts_progress (texts : list string) (env : Env) :
  texts <> [] ->
  (forall l input, exists data, embeddings_create l input = inr data) ->
  exists out evs,
    embed_texts texts true env = (Returned out, appended env evs)
    /\ (exists d, last (progress_reports evs) = Some (d, d))
    /\ Forall (fun r => 0 < fst r <= snd r) (progress_reports evs)
    /\ (forall (i j : nat) ri rj, (i < j)%nat ->
          progress_reports evs !! i = Some ri ->
          progress_reports evs !! j = Some rj ->
          fst ri < fst rj /\ snd ri = snd rj).
Proof.
  intros Hne Hserve. unfold embed_texts.
  destruct texts as [|t texts]; [done|].
  destruct (Z.leb_spec (py_len (t :: texts)) BATCH_SIZE) as [Hone|Hmany].
  - destruct (Hserve (log env) (Batch (t :: texts))) as [data Hdata].
    unfold bind at 1. rewrite (create_returns _ _ _ Hdata).
    unfold bind at 1. rewrite report_returns. unfold ret.
    eexists data, _. rewrite appended_app. split; [reflexivity|]. simpl.
    split; [by exists 1|]. split; [repeat constructor; simpl; lia|].
    intros [|i] [|j] ri rj Hij Hi Hj; simpl in *; try lia; try done.
  - set (all := t :: texts) in *. set (total := py_len all) in *.
    destruct (embed_batches_log all total true Hserve
                (py_range 0 total BATCH_SIZE) [] env) as [out ->].
    eexists out, _. split; [reflexivity|].
    rewrite progress_reports_of_calls, batch_starts, map_map.
    pose proof (Z.div_mod (total + 49) 50 ltac:(lia)) as Hdm.
    pose proof (Z.mod_pos_bound (total + 49) 50 ltac:(lia)) as Hmod.
    assert (0 <= (total + 49) / 50) as Hn by (apply Z.div_pos; unfold BATCH_SIZE in *; lia).
    set (n := Z.to_nat ((total + 49) / 50)) in *.
    assert (Hn1 : 50 * (Z.of_nat n - 1) < total <= 50 * Z.of_nat n)
      by (unfold BATCH_SIZE in *; lia).
    unfold BATCH_SIZE in *.
    split; [|split].
    + exists total. rewrite last_lookup, length_map, length_seq.
      rewrite list_lookup_fmap, lookup_seq_lt by lia. simpl. f_equal. f_equal. lia.
    + apply Forall_fmap, Forall_forall. intros j Hj%elem_of_seq. simpl. lia.
    + intros i j ri rj Hij Hi Hj.
      rewrite list_lookup_fmap in Hi, Hj.
      destruct (seq 0 n !! i) as [a|] eqn:Ha; [|done].
      destruct (seq 0 n !! j) as [b|] eqn:Hb; [|done].
      apply lookup_seq in Ha as [-> ?]. apply lookup_seq in Hb as [-> ?].
      simpl in Hi, Hj. injection Hi as <-. injection Hj as <-. simpl. lia.
Qed.

End Engine.

Lemma embed_texts_progress_witness :
  let s := Stub.services Stub.embed_by_length (Stub.answers "ok") in
  progress_reports
    (log (snd (embed_texts (services := s) (repeat "ab" 120) true Stub.empty_env)))
  = [(50, 120); (100, 120); (120, 120)]
  /\ exists out evs,
       embed_texts (services := s) (repeat "ab" 120) true Stub.empty_env
       = (Returned out, appended Stub.empty_env evs)
       /\ (exists d, last (progress_reports evs) = Some (d, d)).
Proof.
  intros s. split; [vm_compute; reflexivity|].
  destruct (embed_texts_progress (services := s) (repeat "ab" 120) Stub.empty_env)
    as (out & evs & Hrun & Hlast & _).
  - discriminate.
  - intros l input. by eexists.
  - exists out, evs. split; [exact Hrun | exact Hlast].
Defined.

Lemma embed_texts_keeps_order_witness :
  let s := Stub.services Stub.embed_by_length (Stub.answers "ok") in
  fst (embed_texts (services := s) (repeat "ab" 60 ++ repeat "cde" 60) true Stub.empty_env)
  = Returned (repeat [2] 60 ++ repeat [3] 60).
Proof.
  intros s.
  rewrite (embed_texts_keeps_order (services := s)
             (fun t => [Z.of_nat (String.length t)])); [|reflexivity].
  vm_compute. reflexivity.
Defined.

Lemma embed_texts_batches_witness :
  let s := Stub.services Stub.embed_by_length (Stub.answers "ok") in
  exists out evs,
    embed_texts (services := s) (repeat "ab" 120) false Stub.empty_env
    = (Returned out, appended Stub.empty_env evs)
    /\ concat (requested_batches evs) = repeat "ab" 120
    /\ Forall (fun b => 0 < py_len b <= 50) (requested_batches evs).
Proof.
  intros s.
  apply (embed_texts_batches (services := s) (repeat "ab" 120) false Stub.empty_env).
  intros l input. by eexists.
Defined.

End EmbeddingsMore.

Module RAGMore.
Import Py Runtime RuntimeFacts VectorStore VectorStoreFacts RAG Observe Views.
Local Open Scope py_scope.

Section Pipeline.
Context {payload : Payload} {services : Services}.

Lemma metadata_fields_of_citation (r : SearchResult) s :
  citation r = Some s ->
  exists file page,
    (forall env, metadata_field r "source_file" env = (Returned file, env))
    /\ (forall env, metadata_field r "page_number" env = (Returned page, env))
    /\ s = show file +:+ " (Page " +:+ show page +:+ ")".
Proof.
  unfold citation, metadata_field.
  destruct (result_metadata r) as [m|]; [|done].
  destruct (m !! "source_file") as [file|]; [|done].
  destruct (m !! "page_number") as [page|]; [|done].
  intros [= <-]. by exists file, page.
Qed.

Lemma metadata_field_fails (r : SearchResult) :
  citation r = None ->
  forall env, exists e,
    (metadata_field r "source_file" env = (Raised e, env)
     \/ exists file, metadata_field r "source_file" env = (Returned file, env)
                     /\ metadata_field r "page_number" env = (Raised e, env))
    /\ (e = TypeError \/ exists key, e = KeyError key).
Proof.
  unfold citation, metadata_field. intros Hnone env.
  destruct (result_metadata r) as [m|]; [|exists TypeError; split; [by left | by left]].
  destruct (m !! "source_file") as [file|].
  - destruct (m !! "page_number") as [page|]; [done|].
    exists (KeyError "page_number"). split; [right; by exists file | right; by eexists].
  - exists (KeyError "source_file"). split; [by left | right; by eexists].
Qed.

Lemma cite_run : forall (results : list SearchResult) sources env,
  Forall (fun r => is_Some (citation r)) results ->
  exists out,
    cite results sources env = (Returned out, env)
    /\ (NoDup sources -> NoDup out)
    /\ sources `prefix_of` out
    /\ forall s, s ∈ out <-> s ∈ sources \/ exists r, r ∈ results /\ citation r = Some s.
Proof.
  induction results as [|r results IH]; intros sources env Hall.
  - exists sources. split; [done|]. split; [done|]. split; [done|].
    intros s. split; [by left|]. intros [?|(r & Hr & _)]; [done|]. by apply elem_of_nil in Hr.
  - apply Forall_cons in Hall as [[s0 Hs0] Hall].
    destruct (metadata_fields_of_citation r s0 Hs0) as (file & page & Hf & Hp & ->).
    cbn [cite]. unfold bind at 1. rewrite Hf. unfold bind at 1. rewrite Hp.
    case_bool_decide as Hin.
    + destruct (IH sources env Hall) as (out & -> & Hnd & Hpre & Hmem).
      exists out. split; [done|]. split; [done|]. split; [done|].
      intros s. rewrite Hmem. split.
      * intros [?|(r' & ? & ?)]; [by left|]. right. exists r'. split; [by right|done].
      * intros [?|(r' & Hr' & Hc)]; [by left|].
        apply elem_of_cons in Hr' as [->|?]; [|right; eauto].
        left. rewrite Hs0 in Hc. by injection Hc as <-.
    + destruct (IH (sources ++ [show file +:+ " (Page " +:+ show page +:+ ")"]) env Hall)
        as (out & -> & Hnd & Hpre & Hmem).
      exists out. split; [done|]. split; [|split].
      * intros Hs. apply Hnd. apply NoDup_app. split; [done|]. split.
        -- intros x Hx Hx'. apply elem_of_cons in Hx' as [->|Hnil];
             [done | by apply elem_of_nil in Hnil].
        -- apply NoDup_singleton.
      * etrans; [|exact Hpre]. by apply prefix_app_r.
      * intros s. rewrite Hmem, elem_of_app, list_elem_of_singleton. split.
        -- intros [[? | ->]|(r' & ? & ?)]; [by left| |right; exists r'; split; [by right|done]].
           right. exists r. split; [by left|done].
        -- intros [?|(r' & Hr' & Hc)]; [left; by left|].
           apply elem_of_cons in Hr' as [->|?]; [|right; eauto].
           left. right. rewrite Hs0 in Hc. by injection Hc as <-.
Qed.

(** The citations gathered from results that all carry a source file and
    a page number have no duplicates and are exactly the citations of
    those results. *)
Theorem cite_deduplicates (results : list SearchResult) (env : Env) :
  Forall (fun r => is_Some (citation r)) results ->
  exists sources,
    cite results [] env = (Returned sources, env)
    /\ NoDup sources
    /\ forall s, s ∈ sources <-> exists r, r ∈ results /\ citation r = Some s.
Proof.
  intros Hall. destruct (cite_run results [] env Hall) as (out & Hrun & Hnd & _ & Hmem).
  exists out. split; [done|]. split; [apply Hnd, NoDup_nil_2|].
  intros s. rewrite Hmem. split; [|by right].
  intros [Hs|?]; [by apply elem_of_nil in Hs | done].
Qed.


Lemma context_parts_raises : forall (results : list SearchResult) i env,
  Exists (fun r => citation r = None) results ->
  exists e, context_parts i results env = (Raised e, env)
            /\ (e = TypeError \/ exists key, e = KeyError key).
Proof.
  induction results as [|r results IH]; intros i env Hex; [by apply Exists_nil in Hex|].
  cbn [context_parts].
  destruct (citation r) as [s0|] eqn:Hc.
  - apply Exists_cons in Hex as [Hbad|Hex]; [congruence|].
    destruct (metadata_fields_of_citation r s0 Hc) as (file & page & Hf & Hp & _).
    unfold bind at 1. rewrite Hf. unfold bind at 1. rewrite Hp.
    unfold bind at 1. destruct (IH (i + 1) env Hex) as (e & -> & He). by exists e.
  - destruct (metadata_field_fails r Hc env) as (e & [Hf|(file & Hf & Hp)] & He).
    + unfold bind at 1. rewrite Hf. by exists e.
    + unfold bind at 1. rewrite Hf. unfold bind at 1. rewrite Hp. by exists e.
Qed.

(** A result without metadata, or without its [source_file] or
    [page_number], makes [query] raise [TypeError] or [KeyError] while it
    builds the context: no completion request is issued. *)
Theorem query_missing_metadata_raises (self : RAGPipeline) (question : string)
    (top_k : option Z) (env env1 : Env) (results : list SearchResult) :
  search (vector_store self) question top_k env = (Returned results, env1) ->
  Exists (fun r => citation r = None) results ->
  exists e,
    query self question top_k env = (Raised e, env1)
    /\ (e = TypeError \/ exists key, e = KeyError key)
    /\ List.filter is_chat (log env1) = List.filter is_chat (log env).
Proof.
  intros Hsearch Hbad.
  destruct (context_parts_raises results 1 env1 Hbad) as (e & Hparts & He).
  exists e. split; [|split; [done|]].
  - unfold query, bind at 1. rewrite Hsearch.
    destruct results as [|r results]; [by apply Exists_nil in Hbad|].
    unfold bind at 1, _build_context, bind at 1. by rewrite Hparts.
  - destruct (only_emits_run _ _ _ _ _ (only_emits_search _ _ _) Hsearch)
      as (evs & -> & Hevs).
    rewrite log_appended, List.filter_app.
    assert (E : List.filter is_chat evs = []).
    { clear -Hevs. induction evs as [|ev evs IH]; simpl in *; [done|].
      apply andb_prop in Hevs as [Hev Hevs]. destruct ev; try discriminate; by apply IH. }
    by rewrite E, app_nil_r.
Qed.


End Pipeline.

Lemma cite_deduplicates_witness :
  let r1 := @Build_SearchResult Stub.payload "alpha"
              (Some (chunk_metadata
                 {| text := "alpha"; page_number := 1; chunk_index := 0;
                    source_file := "a.pdf" |})) 0 in
  let r2 := @Build_SearchResult Stub.payload "gamma"
              (Some (chunk_metadata
                 {| text := "gamma"; page_number := 1; chunk_index := 1;
                    source_file := "a.pdf" |})) 1 in
  cite (payload := Stub.payload) [r1; r2] [] Stub.empty_env
  = (Returned ["a.pdf (Page 1)"], Stub.empty_env)
  /\ exists sources,
       cite (payload := Stub.payload) [r1; r2] [] Stub.empty_env
       = (Returned sources, Stub.empty_env) /\ NoDup sources.
Proof.
  intros r1 r2. split; [vm_compute; reflexivity|].
  destruct (cite_deduplicates (payload := Stub.payload) [r1; r2] Stub.empty_env)
    as (sources & Hrun & Hnd & _).
  - repeat constructor; by eexists.
  - exists sources. by split.
Defined.

Lemma query_missing_metadata_raises_witness :
  let s := Stub.services Stub.embed_by_length (Stub.answers "ok") in
  let bare := @Build_Entry Stub.payload "x" [1] "loose" None in
  let env := {| collection := [bare]; log := [] |} in
  exists e,
    fst (query (services := s) {| vector_store := {| top_k := 5 |} |} "q" None env)
    = Raised e
    /\ (e = TypeError \/ exists key, e = KeyError key).
Proof.
  intros s bare env.
  destruct (query_missing_metadata_raises (services := s)
              {| vector_store := {| top_k := 5 |} |} "q" None env
              (snd (search (services := s) {| top_k := 5 |} "q" None env))
              [@Build_SearchResult Stub.payload "loose" None 0])
    as (e & Hrun & He & _).
  - vm_compute. reflexivity.
  - constructor. reflexivity.
  - exists e. rewrite Hrun. by split.
Defined.


End RAGMore.

Module MCPMore.
Import Py Runtime RuntimeFacts MCP MCPSession.
Local Open Scope py_scope.

Section Client.
Context {payload : Payload} {services : Services}.

Lemma invoke_run session tool_name arguments env :
  invoke session tool_name arguments env
  = (Returned (tool_text (session_call_tool (log env) session tool_name arguments)),
     appended env [SessionCallTool session tool_name arguments]).
Proof. unfold invoke, tool_text. by destruct (session_call_tool _ _ _ _). Qed.

Lemma call_tool_in_not_found sessions tools tool_name arguments env :
  (forall t, t ∈ tools -> name t = tool_name -> sessions !! server_name t = None) ->
  call_tool_in sessions tools tool_name arguments env
  = (Returned ("Tool '" +:+ tool_name +:+ "' not found"), env).
Proof.
  induction tools as [|tool rest IH]; intros Hnone; simpl; [done|].
  destruct (String.eqb_spec (name tool) tool_name) as [Hname|Hname].
  - rewrite (Hnone tool) by (done || by left). apply IH.
    intros t Ht. apply Hnone. by right.
  - apply IH. intros t Ht. apply Hnone. by right.
Qed.

Lemma call_tool_in_routes sessions pre tool post tool_name arguments env session :
  name tool = tool_name ->
  sessions !! server_name tool = Some session ->
  (forall t, t ∈ pre -> name t = tool_name -> sessions !! server_name t = None) ->
  call_tool_in sessions (pre ++ tool :: post) tool_name arguments env
  = invoke session tool_name arguments env.
Proof.
  intros Hname Hsession. induction pre as [|t pre IH]; intros Hpre; simpl.
  - rewrite <- Hname, String.eqb_refl, Hsession. done.
  - destruct (String.eqb_spec (name t) tool_name) as [Ht|Ht].
    + rewrite (Hpre t) by (done || by left). apply IH.
      intros t' Ht'. apply Hpre. by right.
    + apply IH. intros t' Ht'. apply Hpre. by right.
Qed.

Lemma call_tool_in_single_session sessions tools tool_name arguments env session :
  (forall t, t ∈ tools -> name t = tool_name ->
             sessions !! server_name t = None
             \/ sessions !! server_name t = Some session) ->
  (exists t, t ∈ tools /\ name t = tool_name
             /\ sessions !! server_name t = Some session) ->
  call_tool_in sessions tools tool_name arguments env
  = invoke session tool_name arguments env.
Proof.
  induction tools as [|tool rest IH]; intros Hall (t & Ht & Hname & Hs).
  { by apply elem_of_nil in Ht. }
  simpl. destruct (String.eqb_spec (name tool) tool_name) as [Htool|Htool].
  - destruct (Hall tool ltac:(by left) Htool) as [Hnone|Hsome].
    + rewrite Hnone. apply IH; [intros t' Ht'; apply Hall; by right|].
      apply elem_of_cons in Ht as [->|Ht]; [congruence|]. eauto.
    + by rewrite Hsome.
  - apply IH; [intros t' Ht'; apply Hall; by right|].
    apply elem_of_cons in Ht as [->|Ht]; [congruence|]. eauto.
Qed.

Lemma call_tool_never_raises_aux (self : MCPClient) tool_name arguments env :
  exists result evs,
    call_tool self tool_name arguments env = (Returned result, appended env evs)
    /\ forallb is_tool_dispatch evs = true
    /\ (length evs <= 1)%nat.
Proof.
  unfold call_tool. generalize (tools self) as ts.
  induction ts as [|tool rest IH]; simpl.
  - eexists _, []. rewrite appended_nil. repeat split. simpl. lia.
  - destruct (String.eqb _ _); [|exact IH].
    destruct (sessions self !! _) as [session|]; [|exact IH].
    rewrite invoke_run. eexists _, [_]. by repeat split.
Qed.

(** [call_tool] never raises.  Either no tool of that name has an open
    session, and it returns the not-found text without invoking
    anything; or it invokes, once, the session of a tool declared under
    that name and returns the joined texts of the answer, or
    ["Tool error: ..."] when the session raised. *)
Theorem call_tool_never_raises (self : MCPClient) (tool_name : string)
    (arguments : Json) (env : Env) :
  ((forall t, t ∈ tools self -> name t = tool_name ->
              sessions self !! server_name t = None)
   /\ call_tool self tool_name arguments env
      = (Returned ("Tool '" +:+ tool_name +:+ "' not found"), env))
  \/ (exists t session,
        t ∈ tools self /\ name t = tool_name
        /\ sessions self !! server_name t = Some session
        /\ call_tool self tool_name arguments env
           = (Returned (tool_text (session_call_tool (log env) session
                                                     tool_name arguments)),
              appended env [SessionCallTool session tool_name arguments])).
Proof.
  unfold call_tool. generalize (tools self) as ts.
  induction ts as [|tool rest IH].
  - left. split; [intros t Ht; by apply elem_of_nil in Ht | done].
  - simpl. destruct (String.eqb_spec (name tool) tool_name) as [Hname|Hname].
    + destruct (sessions self !! server_name tool) as [session|] eqn:Hs.
      * right. exists tool, session. rewrite invoke_run. by repeat split; [left|..].
      * destruct IH as [[Hnone Hrun]|(t & session & Ht & ? & ? & Hrun)].
        -- left. split; [|done]. intros t [->|Ht]%elem_of_cons; [done | by apply Hnone].
        -- right. exists t, session. by repeat split; [right|..].
    + destruct IH as [[Hnone Hrun]|(t & session & Ht & ? & ? & Hrun)].
      * left. split; [|done]. intros t [->|Ht]%elem_of_cons; [done | by apply Hnone].
      * right. exists t, session. by repeat split; [right|..].
Qed.

(** When several tools carry the name, the call goes to the session of
    the first one in [tools] whose server has an open session. *)
Theorem call_tool_first_open_session (self : MCPClient) pre tool post
    (tool_name : string) (arguments : Json) (env : Env) (session : nat) :
  tools self = pre ++ tool :: post ->
  name tool = tool_name ->
  sessions self !! server_name tool = Some session ->
  (forall t, t ∈ pre -> name t = tool_name -> sessions self !! server_name t = None) ->
  call_tool self tool_name arguments env
  = (Returned (tool_text (session_call_tool (log env) session tool_name arguments)),
     appended env [SessionCallTool session tool_name arguments]).
Proof.
  intros Htools Hname Hsession Hpre. unfold call_tool. rewrite Htools.
  rewrite (call_tool_in_routes _ _ _ _ _ _ _ session) by done. apply invoke_run.
Qed.

(** A tool announced by a server that has just been connected is called
    on that server's session, unless a server connected earlier, and
    still open, announced a tool of the same name. *)
Theorem connect_makes_tools_callable (self : MCPClient) (server : string)
    (session : nat) (listed : list ListedTool) (t : ListedTool)
    (arguments : Json) (env : Env) :
  t ∈ listed ->
  (forall old, old ∈ tools self -> name old = listed_name t ->
               server_name old = server \/ sessions self !! server_name old = None) ->
  call_tool (connect self server session listed) (listed_name t) arguments env
  = (Returned (tool_text (session_call_tool (log env) session (listed_name t) arguments)),
     appended env [SessionCallTool session (listed_name t) arguments]).
Proof.
  intros Ht Hold. unfold call_tool, connect, _load_tools. simpl.
  rewrite (call_tool_in_single_session _ _ _ _ _ session); [apply invoke_run| |].
  - intros tool [Hin|Hin]%elem_of_app Hname.
    + destruct (Hold tool Hin Hname) as [->|Hnone].
      * right. apply lookup_insert_eq.
      * destruct (decide (server = server_name tool)) as [->|Hne].
        -- right. apply lookup_insert_eq.
        -- left. by rewrite lookup_insert_ne.
    + apply list_elem_of_fmap in Hin as (l & -> & _). simpl. right. apply lookup_insert_eq.
  - eexists. split; [apply elem_of_app; right; apply list_elem_of_fmap; eauto|].
    simpl. split; [done | apply lookup_insert_eq].
Qed.

End Client.

Lemma call_tool_first_open_session_witness :
  let s := Stub.services Stub.embed_by_length (Stub.answers "ok") in
  let other := @Build_MCPTool Stub.payload "search_documents" "Another search"
                                "{}" "web" in
  let self := @Build_MCPClient Stub.payload {[ "rag" := 1%nat; "web" := 2%nat ]}
                               [Stub.search_tool; other] in
  call_tool (services := s) self "search_documents" "{}" Stub.empty_env
  = (Returned "search_documents{}",
     appended Stub.empty_env [SessionCallTool (payload := Stub.payload) 1
                                "search_documents" "{}"]).
Proof.
  intros s other self.
  apply (call_tool_first_open_session (services := s) self [] Stub.search_tool [other]
           "search_documents" "{}" Stub.empty_env 1%nat);
    [reflexivity | reflexivity | reflexivity |].
  intros t Ht. by apply elem_of_nil in Ht.
Defined.

Lemma connect_makes_tools_callable_witness :
  let s := Stub.services Stub.embed_by_length (Stub.answers "ok") in
  let listed := [@Build_ListedTool Stub.payload "ask_question" None "{}"] in
  call_tool (services := s) (connect Stub.client "qa" 7%nat listed)
            "ask_question" "{}" Stub.empty_env
  = (Returned "ask_question{}",
     appended Stub.empty_env [SessionCallTool (payload := Stub.payload) 7
                                "ask_question" "{}"]).
Proof.
  intros s listed.
  apply (connect_makes_tools_callable (services := s) Stub.client "qa" 7%nat listed
           (@Build_ListedTool Stub.payload "ask_question" None "{}") "{}"
           Stub.empty_env).
  - by left.
  - intros old [->|Hold]%elem_of_cons; [discriminate | by apply elem_of_nil in Hold].
Defined.

End MCPMore.

Module AgentsMore.
Import Py Runtime RuntimeFacts MCP Agents AgentsFacts Observe.
Local Open Scope py_scope.

Section Agent.
Context {payload : Payload} {services : Services}.

Lemma chat_messages_app (l1 l2 : list Event) :
  chat_messages (l1 ++ l2) = chat_messages l1 ++ chat_messages l2.
Proof. apply omap_app. Qed.

Lemma chat_messages_of_tool_calls (evs : list Event) :
  forallb is_tool_dispatch evs = true -> chat_messages evs = [].
Proof.
  induction evs as [|ev evs IH]; simpl; [done|].
  intros [Hev Hevs]%andb_prop. destruct ev; try discriminate. by apply IH.
Qed.

Lemma chat_requests_messages (evs : list Event) :
  chat_requests evs = length (chat_messages evs).
Proof.
  unfold chat_requests, chat_messages.
  induction evs as [|ev evs IH]; simpl; [done|]. destruct ev; simpl; by rewrite ?IH.
Qed.

Lemma grows_cons (a : list Message) l :
  Forall (fun b => a `prefix_of` b) l -> grows l -> grows (a :: l).
Proof.
  intros Hall Hl [|i] [|j] x y Hij Hi Hj; simpl in *; try lia.
  - injection Hi as <-. by injection Hj as <-.
  - injection Hi as <-. rewrite Forall_forall in Hall. apply Hall.
    by eapply list_elem_of_lookup_2.
  - apply (Hl i j); [lia|done..].
Qed.

Lemma iterate_trace (self : BaseAgent) tools : forall n messages env,
  exists evs,
    snd (iterate n self tools messages env) = appended env evs
    /\ (chat_requests evs <= n)%nat
    /\ Forall (fun ms => messages `prefix_of` ms) (chat_messages evs)
    /\ grows (chat_messages evs)
    /\ (n <> 0%nat -> head (chat_messages evs) = Some messages)
    /\ Forall (fun ev => match ev with
                         | ChatCreate _ offered => offered = or_none tools
                         | SessionCallTool _ _ _ => is_Some (mcp_client self)
                         | _ => False
                         end) evs.
Proof.
  induction n as [|n IH]; intros messages env.
  { exists []. rewrite appended_nil. repeat split; try constructor; try done. }
  set (request := ChatCreate messages (or_none tools)).
  assert (Hone : forall o,
    iterate (S n) self tools messages env = (o, appended env [request]) ->
    exists evs,
      snd (iterate (S n) self tools messages env) = appended env evs
      /\ (chat_requests evs <= S n)%nat
      /\ Forall (fun ms => messages `prefix_of` ms) (chat_messages evs)
      /\ grows (chat_messages evs)
      /\ (S n <> 0%nat -> head (chat_messages evs) = Some messages)
      /\ Forall (fun ev => match ev with
                           | ChatCreate _ offered => offered = or_none tools
                           | SessionCallTool _ _ _ => is_Some (mcp_client self)
                           | _ => False
                           end) evs).
  { intros o Hrun. exists [request]. rewrite Hrun. simpl.
    split; [done|]. split; [unfold chat_requests; simpl; lia|].
    split; [by repeat constructor|]. split; [|split; [done | by repeat constructor]].
    apply grows_cons; [constructor|]. intros i j a b _ Hi. by rewrite lookup_nil in Hi. }
  destruct (chat_create (log env) messages (or_none tools)) as [e|[|m rest]] eqn:Hchat.
  - apply (Hone (Raised e)).
    cbn [iterate]. unfold bind at 1, chat. by rewrite Hchat.
  - apply (Hone (Raised IndexError)).
    cbn [iterate]. unfold bind at 1, chat. rewrite Hchat. done.
  - destruct (tool_calls m) as [[|c cs]|] eqn:Hcalls;
      [apply (Hone (Returned (content m))); apply (iterate_returns n self tools messages env m rest Hchat); auto
      | | apply (Hone (Returned (content m))); apply (iterate_returns n self tools messages env m rest Hchat); auto].
    destruct (mcp_client self) as [client|] eqn:Hclient;
      [| apply (Hone (Returned (content m))); apply (iterate_returns n self tools messages env m rest Hchat); auto].
    rewrite (iterate_dispatches _ _ _ _ _ _ _ _ _ _ Hchat Hcalls Hclient).
    fold request. unfold bind.
    destruct (dispatch_trace client (c :: cs) (messages ++ [AssistantTurn m])
                (appended env [request])) as (evs1 & Hsnd1 & F1 & Hfst1).
    destruct (dispatch client (c :: cs) (messages ++ [AssistantTurn m])
                (appended env [request])) as [[messages'|e] env1];
      simpl in Hsnd1, Hfst1; subst env1.
    + destruct (IH messages' (appended (appended env [request]) evs1))
        as (evs2 & Hsnd2 & Hn & Hpre & Hgrow & _ & Hev).
      exists ([request] ++ evs1 ++ evs2).
      split; [by rewrite Hsnd2, !appended_app|].
      assert (Hmsgs : chat_messages ([request] ++ evs1 ++ evs2)
                      = messages :: chat_messages evs2).
      { rewrite !chat_messages_app, (chat_messages_of_tool_calls evs1 F1). done. }
      assert (Hall : Forall (fun ms => messages `prefix_of` ms) (chat_messages evs2)).
      { eapply Forall_impl; [exact Hpre|]. simpl. intros ms Hms.
        etrans; [|exact Hms]. etrans; [|exact Hfst1]. by apply prefix_app_r. }
      split; [|split; [|split; [|split]]].
      * rewrite !chat_requests_app, (chat_requests_none is_tool_dispatch evs1 ltac:(by intros []) F1).
        unfold chat_requests at 1. simpl. lia.
      * rewrite Hmsgs. by constructor.
      * rewrite Hmsgs. by apply grows_cons.
      * by rewrite Hmsgs.
      * apply Forall_app. split; [by repeat constructor|]. apply Forall_app. split; [|done].
        clear -F1. induction evs1 as [|ev evs1 IH1]; [constructor|].
        simpl in F1. apply andb_prop in F1 as [Hev F1]. constructor; [|by apply IH1].
        destruct ev; try discriminate. by eexists.
    + exists ([request] ++ evs1). rewrite appended_app. split; [done|].
      assert (Hmsgs : chat_messages ([request] ++ evs1) = [messages]).
      { rewrite chat_messages_app, (chat_messages_of_tool_calls evs1 F1). done. }
      split; [|split; [|split; [|split]]].
      * rewrite chat_requests_app, (chat_requests_none is_tool_dispatch evs1 ltac:(by intros []) F1).
        unfold chat_requests. simpl. lia.
      * rewrite Hmsgs. by repeat constructor.
      * rewrite Hmsgs. apply grows_cons; [constructor|].
        intros i j a b _ Hi. by rewrite lookup_nil in Hi.
      * by rewrite Hmsgs.
      * apply Forall_app. split; [by repeat constructor|].
        clear -F1. induction evs1 as [|ev evs1 IH1]; [constructor|].
        simpl in F1. apply andb_prop in F1 as [Hev F1]. constructor; [|by apply IH1].
        destruct ev; try discriminate. by eexists.
Qed.

(** Whatever the completion service and the tools do, [process_async]
    leaves the collection alone and issues completion requests and tool
    invocations only: at most [max_iterations] requests (none for a budget
    below one), and invocations only when a tool provider is attached. *)
Theorem loop_request_bound (self : BaseAgent) (query : string) (env : Env) :
  exists evs,
    snd (process_async self query env) = appended env evs
    /\ Z.of_nat (chat_requests evs) <= Z.max 0 (max_iterations self)
    /\ Forall (fun ev => match ev with
                         | ChatCreate _ _ => True
                         | SessionCallTool _ _ _ => is_Some (mcp_client self)
                         | _ => False
                         end) evs.
Proof.
  destruct (iterate_trace self (offered_tools self) (Z.to_nat (max_iterations self))
              (initial_messages self query) env)
    as (evs & Hsnd & Hn & _ & _ & _ & Hev).
  exists evs. split; [exact Hsnd|]. split; [lia|].
  eapply Forall_impl; [exact Hev|]. simpl. by intros [].
Qed.

(** The conversation only grows: the first completion request carries
    the system prompt and the query, the messages of every request
    extend those of the request before, and every request offers the
    tools of the provider ([None] without one). *)
Theorem loop_conversation_grows (self : BaseAgent) (query : string) (env : Env) :
  exists evs,
    snd (process_async self query env) = appended env evs
    /\ grows (chat_messages evs)
    /\ (0 < max_iterations self ->
        head (chat_messages evs) = Some (initial_messages self query))
    /\ Forall (fun ev => match ev with
                         | ChatCreate _ offered => offered = or_none (offered_tools self)
                         | _ => True
                         end) evs.
Proof.
  destruct (iterate_trace self (offered_tools self) (Z.to_nat (max_iterations self))
              (initial_messages self query) env)
    as (evs & Hsnd & _ & _ & Hgrow & Hhead & Hev).
  exists evs. split; [exact Hsnd|]. split; [exact Hgrow|]. split.
  - intros Hmax. apply Hhead. lia.
  - eapply Forall_impl; [exact Hev|]. simpl. by intros [].
Qed.

Lemma dispatch_run client : forall calls messages env,
  Forall (fun tc => loads_returns (function_arguments tc) /\ name_renders tc) calls ->
  results_render ->
  exists results evs,
    dispatch client calls messages env
    = (Returned (messages ++ zip_with ToolResult (map call_id calls) results),
       appended env evs)
    /\ length results = length calls
    /\ forallb is_tool_dispatch evs = true
    /\ (length evs <= length calls)%nat.
Proof.
  induction calls as [|tc calls IH]; intros messages env Hall Hres.
  - exists [], []. simpl. unfold ret. by rewrite app_nil_r, appended_nil.
  - apply Forall_cons in Hall as [[[[v Hv] Hdeep] Hname] Hall].
    destruct (MCPMore.call_tool_never_raises_aux client (function_name tc) v env)
      as (result & evs1 & Hcall & F1 & Hlen1).
    rewrite (dispatch_cons_parsed _ _ _ _ _ _ _ _ Hv Hdeep Hname Hcall (Hres result)).
    destruct (IH (messages ++ [ToolResult (call_id tc) result]) (appended env evs1)
                Hall Hres)
      as (results & evs2 & -> & Hlen & F2 & Hlen2).
    exists (result :: results), (evs1 ++ evs2).
    rewrite appended_app, <- app_assoc, forallb_app, F1, F2, length_app. simpl.
    repeat split; try done; lia.
Qed.

(** When [json.loads] decodes the arguments of all tool calls of a reply
    and the console renders the two progress lines printed for each call
    (the announcement, which carries the tool's name, and the result
    line), each call is answered by exactly one tool message, in the
    order of the calls and under the id of its call, appended to the
    conversation; nothing but tool invocations is issued, at most one per
    call. *)
Theorem dispatch_answers_each_call (client : MCPClient) (calls : list ToolCall)
    (messages : list Message) (env : Env) :
  Forall (fun tc => loads_returns (function_arguments tc) /\ name_renders tc) calls ->
  results_render ->
  exists results evs,
    dispatch client calls messages env
    = (Returned (messages ++ zip_with ToolResult (map call_id calls) results),
       appended env evs)
    /\ length results = length calls
    /\ forallb is_tool_dispatch evs = true
    /\ (length evs <= length calls)%nat.
Proof. apply dispatch_run. Qed.


End Agent.

Lemma dispatch_answers_each_call_witness :
  let s := Stub.services Stub.embed_by_length (Stub.answers "ok") in
  let calls := [ {| call_id := "call_1"; function_name := "search_documents";
                    function_arguments := "{}" |};
                 {| call_id := "call_2"; function_name := "missing";
                    function_arguments := "{}" |} ] in
  dispatch (services := s) Stub.client calls [] Stub.empty_env
  = (Returned [ToolResult "call_1" "search_documents{}";
               ToolResult "call_2" "Tool 'missing' not found"],
     appended Stub.empty_env
       [SessionCallTool (payload := Stub.payload) 1 "search_documents" "{}"])
  /\ exists results evs,
       dispatch (services := s) Stub.client calls [] Stub.empty_env
       = (Returned ([] ++ zip_with ToolResult (map call_id calls) results),
          appended Stub.empty_env evs)
       /\ length results = 2%nat.
Proof.
  intros s calls. split; [vm_compute; reflexivity|].
  destruct (dispatch_answers_each_call (services := s) Stub.client calls []
              Stub.empty_env) as (results & evs & Hrun & Hlen & _).
  - repeat (apply List.Forall_cons; [split; [split; [by eexists | reflexivity] | reflexivity]|]).
    apply List.Forall_nil.
  - intros result. reflexivity.
  - exists results, evs. by split.
Defined.


End AgentsMore.

Module CliMore.
Import Py Runtime Chunker Cli.

Lemma split_from_words t : forall word,
  Forall (fun c => is_space c = false) word ->
  Forall (fun w => w <> [] /\ Forall (fun c => is_space c = false) w)
         (split_from t word).
Proof.
  assert (Hword : forall word, word <> [] ->
            Forall (fun c => is_space c = false) word ->
            reverse word <> [] /\ Forall (fun c => is_space c = false) (reverse word)).
  { intros word Hne Hw. split.
    - intros E. apply (f_equal reverse) in E. rewrite reverse_involutive in E. done.
    - rewrite Forall_forall in Hw |- *. intros c Hc. apply Hw. by apply elem_of_reverse. }
  induction t as [|c t IH]; intros word Hw; simpl.
  - destruct word as [|x word]; [constructor|]. constructor; [|constructor].
    by apply Hword.
  - destruct (is_space c) eqn:Hc.
    + destruct word as [|x word]; [by apply IH|].
      constructor; [by apply Hword | apply IH; constructor].
    + apply IH. by constructor.
Qed.

Lemma split_from_concat t : forall word,
  concat (split_from t word)
  = reverse word ++ List.filter (fun c => negb (is_space c)) t.
Proof.
  induction t as [|c t IH]; intros word; simpl.
  - destruct word; simpl; [done|]. by rewrite !app_nil_r.
  - destruct (is_space c) eqn:Hc; simpl.
    + destruct word as [|x word]; rewrite ?concat_cons, IH; done.
    + rewrite IH, reverse_cons, <- app_assoc. done.
Qed.

Lemma split_from_nil t : forall word,
  split_from t word = [] <-> word = [] /\ Forall (fun c => is_space c = true) t.
Proof.
  induction t as [|c t IH]; intros word; simpl.
  - destruct word; split; try done. by intros [? _].
  - destruct (is_space c) eqn:Hc.
    + destruct word as [|x word].
      * rewrite IH. split; intros [? H]; (split; [done|]).
        -- by constructor.
        -- by apply Forall_cons in H as [_ ?].
      * split; [done | by intros [? _]].
    + rewrite IH. split; [by intros [? _]|].
      intros [_ H]. apply Forall_cons in H as [? _]. congruence.
Qed.

Lemma blank_or_word (t : text) :
  Forall (fun c => is_space c = true) t \/ exists c, c ∈ t /\ is_space c = false.
Proof.
  induction t as [|c t [IH|(x & Hx & Hns)]].
  - left. constructor.
  - destruct (is_space c) eqn:Hc; [left; by constructor|].
    right. exists c. split; [by left|done].
  - right. exists x. split; [by right|done].
Qed.

Lemma parse_from_outcome : forall cmds i servers,
  (Exists (fun cmd => Forall (fun c => is_space c = true) cmd) cmds
   /\ parse_from i cmds servers = Raised IndexError)
  \/ (Forall (fun cmd => exists c, c ∈ cmd /\ is_space c = false) cmds
      /\ exists new,
           parse_from i cmds servers = Returned (servers ++ new)
           /\ map spec_name new
              = map (fun j : nat => "server_" +:+ pretty j) (seq i (length cmds))
           /\ Forall2 (fun cmd s => split cmd = spec_command s :: spec_args s) cmds new).
Proof.
  induction cmds as [|cmd rest IH]; intros i servers; simpl.
  - right. split; [constructor|]. exists []. by rewrite app_nil_r.
  - destruct (split cmd) as [|command args] eqn:Hsplit.
    + left. split; [|done]. apply Exists_cons_hd. by apply split_from_nil in Hsplit as [_ ?].
    + assert (Hword : exists c, c ∈ cmd /\ is_space c = false).
      { destruct (blank_or_word cmd) as [Hblank|Hw]; [|done].
        assert (split cmd = []); [|congruence]. by apply split_from_nil. }
      destruct (IH (S i) (servers ++ [{| spec_name := "server_" +:+ pretty i;
                                         spec_command := command;
                                         spec_args := args |}]))
        as [[Hex Hrun]|(Hall & new & Hrun & Hnames & Hsplits)].
      * left. split; [by apply Exists_cons_tl | done].
      * right. split; [by constructor|].
        eexists (_ :: new). rewrite Hrun, <- app_assoc. split; [done|].
        split; [simpl; by rewrite Hnames|]. constructor; [by rewrite Hsplit | done].
Qed.

(** [parse_servers] raises [IndexError] exactly when one of the commands
    has no word (is empty or all whitespace); it raises nothing else. *)
Theorem parse_servers_index_error (server_cmds : list text) :
  (parse_servers server_cmds = Raised IndexError
   <-> Exists (fun cmd => Forall (fun c => is_space c = true) cmd) server_cmds)
  /\ (forall e, parse_servers server_cmds = Raised e -> e = IndexError).
Proof.
  unfold parse_servers.
  destruct (parse_from_outcome server_cmds 0 []) as [[Hex Hrun]|(Hall & new & Hrun & _)];
    rewrite Hrun.
  - split; [by split|]. by intros e [= <-].
  - split; [|done]. split; [done|]. intros Hex. exfalso.
    apply Exists_exists in Hex as (cmd & Hin & Hblank).
    rewrite Forall_forall in Hall. destruct (Hall cmd Hin) as (c & Hc & Hns).
    rewrite Forall_forall in Hblank. rewrite (Hblank c Hc) in Hns. done.
Qed.

(** On success [parse_servers] returns one server per command, named
    [server_0], [server_1], ... (all different), whose command and
    arguments are the words of the command line: non-empty, free of
    whitespace, and, joined, the command line without its whitespace. *)
Theorem parse_servers_words (server_cmds : list text) (servers : list ServerSpec) :
  parse_servers server_cmds = Returned servers ->
  map spec_name servers
  = map (fun j : nat => "server_" +:+ pretty j) (seq 0 (length server_cmds))
  /\ NoDup (map spec_name servers)
  /\ Forall2 (fun cmd s =>
                split cmd = spec_command s :: spec_args s
                /\ Forall (fun w => w <> [] /\ Forall (fun c => is_space c = false) w)
                          (spec_command s :: spec_args s)
                /\ concat (spec_command s :: spec_args s)
                   = List.filter (fun c => negb (is_space c)) cmd)
             server_cmds servers.
Proof.
  unfold parse_servers. intros Hrun.
  destruct (parse_from_outcome server_cmds 0 [])
    as [[_ Hbad]|(_ & new & Hok & Hnames & Hsplits)]; [congruence|].
  rewrite Hrun in Hok. injection Hok as ->. simpl.
  split; [done|]. split.
  - rewrite Hnames.
    assert (Hinj : Inj (=) (=) (fun j : nat => "server_" +:+ pretty j)).
    { intros a b Hab. simpl in Hab. injection Hab as Hab. by apply (inj pretty). }
    apply (NoDup_fmap_2 _), NoDup_seq.
  - eapply Forall2_impl; [exact Hsplits|]. cbv beta. intros cmd s Hs.
    split; [done|]. split.
    + rewrite <- Hs. apply split_from_words. constructor.
    + change (concat (spec_command s :: spec_args s)
              = List.filter (fun c => negb (is_space c)) cmd).
      rewrite <- Hs. apply (split_from_concat cmd []).
Qed.

Lemma parse_servers_words_witness :
  let servers :=
    [ {| spec_name := "server_0"; spec_command := lit "python";
         spec_args := [lit "-m"; lit "src.main"; lit "mcp"] |};
      {| spec_name := "server_1"; spec_command := lit "npx"; spec_args := [] |} ] in
  map spec_name servers = ["server_0"; "server_1"]
  /\ NoDup (map spec_name servers).
Proof.
  intros servers.
  destruct (parse_servers_words [lit "python -m  src.main mcp "; lit " npx"] servers)
    as (Hnames & Hnd & _); [vm_compute; reflexivity|].
  split; [exact Hnames | exact Hnd].
Defined.

End CliMore.

Module RouterMore.
Import Py Runtime RuntimeFacts MCP Agents AgentsFacts Observe Router.
Local Open Scope py_scope.

Section Routing.
Context {payload : Payload} {services : Services}.

Lemma classify_returns_known_category_aux (self : AgentRouter) (query : string)
    (env env' : Env) (intent : string) :
  _classify_intent self query env = (inr intent, env') ->
  intent ∈ ["qa"; "summary"; "comparison"]
  /\ env' = appended env [ChatCreate (classify_messages query) None].
Proof.
  unfold _classify_intent, chat.
  destruct (chat_create (log env) (classify_messages query) None) as [e|[|m rest]];
    [discriminate..|].
  destruct (content m) as [reply|]; [|discriminate].
  intros [= <- <-]. split; [|done].
  case_bool_decide as Hin; [exact Hin | by left].
Qed.

(** Whenever [_classify_intent] returns, it returns one of the three
    keys of [AGENT_MAP], after exactly one completion request that
    carries the classification prompt and the query and offers no tools. *)
Theorem classify_returns_known_category (self : AgentRouter) (query : string)
    (env env' : Env) (intent : string) :
  _classify_intent self query env = (inr intent, env') ->
  intent ∈ ["qa"; "summary"; "comparison"]
  /\ env' = appended env [ChatCreate (classify_messages query) None].
Proof. apply classify_returns_known_category_aux. Qed.

Lemma new_router_agents mcp_client name :
  name ∈ ["qa"; "summary"; "comparison"] ->
  exists prompt,
    (name, prompt) ∈ AGENT_MAP
    /\ agents (new_router mcp_client) !! "qa" = Some (new_agent QA_PROMPT mcp_client)
    /\ default (new_agent QA_PROMPT mcp_client) (agents (new_router mcp_client) !! name)
       = new_agent prompt mcp_client.
Proof.
  intros Hname. repeat (apply elem_of_cons in Hname as [->|Hname]);
    [exists QA_PROMPT | exists SUMMARY_PROMPT | exists COMPARISON_PROMPT
    | by apply elem_of_nil in Hname].
  all: split; [unfold AGENT_MAP; set_solver|]. all: split; reflexivity.
Qed.

(** After a successful classification the router runs the tool-calling
    loop of the persona of that category, built with the default budget
    and the router's tool provider, on the query. *)
Theorem route_async_runs_persona (mcp_client : option MCPClient) (query : string)
    (env env' : Env) (intent : string) :
  _classify_intent (new_router mcp_client) query env = (inr intent, env') ->
  exists prompt,
    (intent, prompt) ∈ AGENT_MAP
    /\ route_async (new_router mcp_client) query env
       = lift (process_async (new_agent prompt mcp_client) query env').
Proof.
  intros Hclass.
  destruct (classify_returns_known_category_aux _ _ _ _ _ Hclass) as [Hin _].
  destruct (new_router_agents mcp_client intent Hin) as (prompt & Hmap & Hqa & Hagent).
  exists prompt. split; [done|].
  unfold route_async. by rewrite Hclass, Hqa, Hagent.
Qed.

Lemma classify_log (self : AgentRouter) (query : string) (env : Env) :
  snd (_classify_intent self query env)
  = appended env [ChatCreate (classify_messages query) None].
Proof.
  unfold _classify_intent, chat.
  destruct (chat_create (log env) (classify_messages query) None) as [e|[|m rest]];
    [done..|].
  by destruct (content m).
Qed.

(** A routed query costs at least one and at most eleven completion
    requests: the classification, sent first and without tools, and the
    ten of the persona's loop at most; the collection is not written. *)
Theorem route_async_request_bound (mcp_client : option MCPClient) (query : string)
    (env : Env) :
  exists evs,
    snd (route_async (new_router mcp_client) query env) = appended env evs
    /\ (1 <= chat_requests evs <= 11)%nat
    /\ head evs = Some (ChatCreate (classify_messages query) None).
Proof.
  pose proof (classify_log (new_router mcp_client) query env) as Hlog.
  unfold route_async.
  destruct (_classify_intent (new_router mcp_client) query env) as [[e|intent] env1] eqn:Hclass;
    simpl in Hlog; subst env1.
  - exists [ChatCreate (classify_messages query) None]. simpl.
    split; [done|]. split; [unfold chat_requests; simpl; lia | done].
  - destruct (classify_returns_known_category_aux _ _ _ _ _ Hclass) as [Hin _].
    destruct (new_router_agents mcp_client intent Hin) as (prompt & _ & Hqa & Hagent).
    rewrite Hqa, Hagent.
    destruct (AgentsMore.iterate_trace (new_agent prompt mcp_client)
                (offered_tools (new_agent prompt mcp_client)) 10
                (initial_messages (new_agent prompt mcp_client) query)
                (appended env [ChatCreate (classify_messages query) None]))
      as (evs & Hsnd & Hn & _).
    exists ([ChatCreate (classify_messages query) None] ++ evs).
    split; [|split; [|done]].
    + unfold process_async.
      change (Z.to_nat (max_iterations (new_agent prompt mcp_client))) with 10%nat.
      destruct (iterate 10 _ _ _ _) as [[a|e] env2]; cbn [snd lift] in *;
        subst env2; by rewrite appended_app.
    + rewrite chat_requests_app.
      change (chat_requests [ChatCreate (classify_messages query) None]) with 1%nat.
      lia.
Qed.

End Routing.

Lemma classify_returns_known_category_witness :
  let s := Stub.services Stub.embed_by_length (Stub.answers ("  Summary" +:+ nl)) in
  _classify_intent (services := s) (new_router None) "Give me an overview" Stub.empty_env
  = (inr "summary",
     appended Stub.empty_env [ChatCreate (classify_messages "Give me an overview") None])
  /\ "summary" ∈ ["qa"; "summary"; "comparison"].
Proof.
  intros s.
  assert (Hrun : _classify_intent (services := s) (new_router None) "Give me an overview"
                   Stub.empty_env
                 = (inr "summary",
                    appended Stub.empty_env
                      [ChatCreate (classify_messages "Give me an overview") None]))
    by (vm_compute; reflexivity).
  split; [exact Hrun|].
  destruct (classify_returns_known_category (services := s) _ _ _ _ _ Hrun) as [Hin _].
  exact Hin.
Defined.

Lemma route_async_runs_persona_witness :
  let s := Stub.services Stub.embed_by_length (Stub.answers ("  Summary" +:+ nl)) in
  exists prompt,
    ("summary", prompt) ∈ AGENT_MAP
    /\ route_async (services := s) (new_router None) "Give me an overview" Stub.empty_env
       = lift (process_async (services := s) (new_agent prompt None) "Give me an overview"
                 (appended Stub.empty_env
                    [ChatCreate (classify_messages "Give me an overview") None])).
Proof.
  intros s.
  apply (route_async_runs_persona (services := s) None "Give me an overview"
           Stub.empty_env).
  vm_compute. reflexivity.
Defined.

End RouterMore.
